(** * Cryptocurrency trading dashboard: handlers of the Assets, Admin, Trade
      and Market pages over the tables of the hosted backend

    The repository is a React front end.  Its logic sits in the event
    handlers of four pages, which read and write the tables [coins],
    [user_balances], [transactions] and [orders] through the table client
    (select / insert / update with equality filters).  This development
    embeds

    - the JavaScript numbers the handlers compute with (IEEE 754 binary64,
      as Rocq's primitive floats), with [parseFloat],
      [Number.prototype.toFixed] and [Number::toString] written after
      ECMA-262;
    - the rows of the four tables as
      [src/src/integrations/supabase/types.ts] declares them, with the
      constraints and defaults of the SQL migration
      ([src/unnamed/part_003]);
    - the handlers [handleDeposit], [handleWithdraw], [totalValue] (Assets),
      [approveTransaction], [updateMoonPriceByPercentage], [updateMoonPrice]
      (Admin), [handleTrade] (Trade) and [formatMarketCap] (Market),
      statement by statement;
    - what the pages load: [fetchTransactions] and [fetchMoonPrice] (Admin),
      [fetchBalances] and [fetchTransactions] (Assets), [fetchCoins] (Market,
      Trade), and [fetchBitcoinPrices] of the two charts;
    - the coins the migration inserts, and the handlers run one after the
      other ([App]).

    A handler is a function from the signed-in user, the form state of its
    page and the tables to the toast it shows, the new form state and the
    new tables; what the backend draws by itself (the id of a new row, the
    time of the call) is an argument.  A request carries the values the
    handler computed, written as JSON: a number travels as the decimal text
    of [Number::toString], or as [null] when it is not finite.  The columns
    [amount] and [price] are [DECIMAL(20, 8)]: the backend rounds what it
    receives to eight decimals and refuses what does not fit, and a page
    reads back the number nearest to what the column holds.  Failures of the
    transport are not part of the model. *)

From Stdlib Require Import ZArith List String Ascii Bool Lia.
From Stdlib Require Import Permutation Sorted.
From Stdlib Require Import Floats.
Import ListNotations.

Set Warnings "-inexact-float".

Local Open Scope string_scope.

(* ================================================================== *)
(** * JavaScript values used by the handlers *)
(* ================================================================== *)

Module JS.

(** A JavaScript Number is an IEEE 754 binary64 value. *)
Definition number : Type := float.

Definition add (x y : number) : number := PrimFloat.add x y.
Definition mul (x y : number) : number := PrimFloat.mul x y.
Definition div (x y : number) : number := PrimFloat.div x y.

(** [x >= y]; false as soon as one side is NaN. *)
Definition ge (x y : number) : bool := PrimFloat.leb y x.
(** [x < y]; false as soon as one side is NaN. *)
Definition lt (x y : number) : bool := PrimFloat.ltb x y.

(** [x === y] on numbers. *)
Definition strict_eq (x y : number) : bool := PrimFloat.eqb x y.

(** [!s] for a string: only the empty string is falsy. *)
Definition falsy (s : string) : bool :=
  match s with EmptyString => true | String _ _ => false end.

(** ToNumber of a nullable numeric column: [null] counts as [+0]. *)
Definition to_number (v : option number) : number :=
  match v with Some x => x | None => PrimFloat.zero end.

(** ** Decimal digits *)

Definition digit_char (d : Z) : ascii :=
  ascii_of_nat (48 + Z.to_nat (d mod 10)).

Definition is_digit (c : ascii) : bool :=
  let n := nat_of_ascii c in (48 <=? n)%nat && (n <=? 57)%nat.

Definition digit_value (c : ascii) : Z := Z.of_nat (nat_of_ascii c) - 48.

Fixpoint digits_aux (fuel : nat) (n : Z) (acc : string) : string :=
  let acc' := String (digit_char n) acc in
  match fuel with
  | O => acc'
  | S fuel' => if (n <? 10)%Z then acc' else digits_aux fuel' (n / 10) acc'
  end.

(** The decimal representation of a non-negative integer, no leading zero
    (["0"] for zero). *)
Definition decimal (n : Z) : string :=
  digits_aux (Z.to_nat (Z.log2 n)) n "".

(** The [f] low decimal digits of [n], most significant first. *)
Fixpoint low_digits (f : nat) (n : Z) : string :=
  match f with
  | O => ""
  | S f' => low_digits f' (n / 10) ++ String (digit_char n) ""
  end.

Fixpoint zeros (k : nat) : string :=
  match k with O => "" | S k' => String "0" (zeros k') end.

Fixpoint all_digits (s : string) : bool :=
  match s with
  | EmptyString => true
  | String c s' => is_digit c && all_digits s'
  end.

(** ** The real value of a finite number

    A finite non-zero binary64 is [m * 2^e] with [m] a positive integer below
    [2^53]; [magnitude] gives it as the fraction [num / den]. *)

Definition magnitude (m : positive) (e : Z) : Z * Z :=
  if (0 <=? e)%Z then (Z.pos m * 2 ^ e, 1)%Z else (Z.pos m, 2 ^ (- e))%Z.

(** ** Number.prototype.toFixed(fractionDigits), for the literal digit counts
    the pages use (2, 6, 8: always within the allowed 0..100)

    ECMA-262 21.1.3.3: a non-finite number and a number of absolute value at
    least 10^21 are rendered by Number::toString; below that, [n] is the
    integer nearest to [x * 10^f] (the larger one on a tie) and the result is
    its digits with a point before the last [f] of them. *)

(** Is [num/den >= 10^21]? *)
Definition at_least_1e21 (q : Z * Z) : bool :=
  let (num, den) := q in (10 ^ 21 * den <=? num)%Z.

(** The integer nearest to [(num/den) * 10^f], the larger one on a tie. *)
Definition nearest_scaled (q : Z * Z) (f : nat) : Z :=
  let (num, den) := q in
  ((2 * num * 10 ^ Z.of_nat f + den) / (2 * den))%Z.

Definition fixed_digits (n : Z) (f : nat) : string :=
  match f with
  | O => decimal n
  | S _ => decimal (n / 10 ^ Z.of_nat f) ++ "." ++ low_digits f n
  end.

(** ** Number::toString(x, 10), ECMA-262 6.1.6.1.20

    [n], [k] and [s] are such that [s] has [k] digits, [s * 10^(n-k)] converts
    back to [x], and [k] is as small as possible; when several [s] qualify
    the one closest to [x] is taken. *)

(** Bounds of the interval of reals that round to [m * 2^e], in units of
    [2^(e-2)]: the number itself is [4m]. *)
Definition lower_bound (m : positive) (e : Z) : Z :=
  if (Z.pos m =? 2 ^ 52)%Z && (-1074 <? e)%Z then (4 * Z.pos m - 1)%Z
  else (4 * Z.pos m - 2)%Z.
Definition upper_bound (m : positive) : Z := (4 * Z.pos m + 2)%Z.

(** Compare [s * 10^q] with [u * 2^e2], by cross multiplication. *)
Definition cmp_scaled (s q u e2 : Z) : comparison :=
  let a := (s * 10 ^ Z.max q 0 * 2 ^ Z.max (- e2) 0)%Z in
  let b := (u * 2 ^ Z.max e2 0 * 10 ^ Z.max (- q) 0)%Z in
  (a ?= b)%Z.

(** Does [s * 10^q] convert back to [m * 2^e]?  The bounds are included
    exactly when [m] is even (round to nearest, ties to even). *)
Definition rounds_to (m : positive) (e : Z) (s q : Z) : bool :=
  let e2 := (e - 2)%Z in
  let even := Z.even (Z.pos m) in
  match cmp_scaled s q (lower_bound m e) e2, cmp_scaled s q (upper_bound m) e2 with
  | Gt, Lt => true
  | Eq, Lt | Gt, Eq => even
  | _, _ => false
  end.

(** The distance of [s * 10^q] to [m * 2^e], in the units [cmp_scaled]
    compares in (distances are only compared for one [q] at a time). *)
Definition distance (m : positive) (e : Z) (s q : Z) : Z :=
  let e2 := (e - 2)%Z in
  let a := (s * 10 ^ Z.max q 0 * 2 ^ Z.max (- e2) 0)%Z in
  let b := (4 * Z.pos m * 2 ^ Z.max e2 0 * 10 ^ Z.max (- q) 0)%Z in
  Z.abs (a - b).

(** The decimal exponent [n] with [10^(n-1) <= m * 2^e < 10^n]. *)
Definition below_pow10 (m : positive) (e : Z) (n : Z) : bool :=
  match cmp_scaled 1 n (4 * Z.pos m) (e - 2) with Gt => true | _ => false end.

Definition decimal_exponent (m : positive) (e : Z) : Z :=
  let l := (Z.log2 (Z.pos m) + e)%Z in
  let n0 := (l * 30103 / 100000 - 1)%Z in
  if below_pow10 m e n0 then n0
  else if below_pow10 m e (n0 + 1) then (n0 + 1)%Z
  else if below_pow10 m e (n0 + 2) then (n0 + 2)%Z
  else (n0 + 3)%Z.

(** Search for the shortest digit string: [k] grows from [17 - fuel + 1]. *)
Fixpoint shortest (fuel : nat) (m : positive) (e n k : Z) : Z * Z :=
  let q := (n - k)%Z in
  let (num, den) := magnitude m e in
  let lo := ((num * 10 ^ Z.max (- q) 0) / (den * 10 ^ Z.max q 0))%Z in
  let hi := (lo + 1)%Z in
  let ok_lo := (10 ^ (k - 1) <=? lo)%Z && rounds_to m e lo q in
  let ok_hi := rounds_to m e hi q in
  let pick :=
    if ok_lo && ok_hi then
      Some (if (distance m e hi q <? distance m e lo q)%Z then hi
            else if (distance m e lo q <? distance m e hi q)%Z then lo
            else if Z.even lo then lo else hi)
    else if ok_lo then Some lo
    else if ok_hi then Some hi
    else None in
  match pick, fuel with
  | Some s, _ => (s, k)
  | None, O => (lo, k)
  | None, S fuel' => shortest fuel' m e n (k + 1)
  end.

(** Drop the trailing zeros a rounded-up candidate may carry ([10^k]). *)
Fixpoint strip_zeros (fuel : nat) (s k n : Z) : Z * Z * Z :=
  match fuel with
  | O => (s, k, n)
  | S fuel' =>
      if (s mod 10 =? 0)%Z && (1 <? k)%Z then strip_zeros fuel' (s / 10) (k - 1) n
      else (s, k, n)
  end.

Definition shortest_digits (m : positive) (e : Z) : Z * Z * Z :=
  let n := decimal_exponent m e in
  let (s, k) := shortest 17 m e n 1 in
  if (s =? 10 ^ k)%Z then (1, 1, n + 1)%Z else strip_zeros 17 s k n.

Definition exponent_suffix (n : Z) : string :=
  let e := (n - 1)%Z in
  "e" ++ (if (e <? 0)%Z then "-" else "+") ++ decimal (Z.abs e).

Definition positive_to_string (m : positive) (e : Z) : string :=
  let '(s, k, n) := shortest_digits m e in
  let ds := decimal s in
  if (k <=? n)%Z && (n <=? 21)%Z then ds ++ zeros (Z.to_nat (n - k))
  else if (0 <? n)%Z && (n <=? 21)%Z then
    substring 0 (Z.to_nat n) ds ++ "." ++ substring (Z.to_nat n) (Z.to_nat (k - n)) ds
  else if (-6 <? n)%Z && (n <=? 0)%Z then "0." ++ zeros (Z.to_nat (- n)) ++ ds
  else if (k =? 1)%Z then ds ++ exponent_suffix n
  else substring 0 1 ds ++ "." ++ substring 1 (Z.to_nat (k - 1)) ds ++ exponent_suffix n.

Definition NumberToString (x : number) : string :=
  match Prim2SF x with
  | S754_nan => "NaN"
  | S754_zero _ => "0"
  | S754_infinity true => "-Infinity"
  | S754_infinity false => "Infinity"
  | S754_finite sign m e =>
      (if sign then "-" else "") ++ positive_to_string m e
  end.

(** ** JSON.stringify of a number, ECMA-262 25.5.2.2 (SerializeJSONProperty)

    A finite number is written with Number::toString, and the text stands for
    the decimal [s * 10^(n-k)] of its shortest digits, with the sign of the
    number; a zero is written [0], whatever its sign.  NaN and the
    infinities are written [null]. *)
Inductive Json : Type :=
| json_null
| json_decimal (negative : bool) (s : Z) (e10 : Z).

Definition stringify (x : number) : Json :=
  match Prim2SF x with
  | S754_finite sign m e =>
      let '(s, k, n) := shortest_digits m e in json_decimal sign s (n - k)
  | S754_zero _ => json_decimal false 0 0
  | _ => json_null
  end.

Definition toFixed (x : number) (f : nat) : string :=
  match Prim2SF x with
  | S754_finite sign m e =>
      let q := magnitude m e in
      (if sign then "-" else "") ++
      (if at_least_1e21 q then positive_to_string m e
       else fixed_digits (nearest_scaled q f) f)
  | S754_zero _ => fixed_digits 0 f
  | _ => NumberToString x
  end.

(** The numbers [toFixed] renders in fixed notation: finite, of absolute
    value below 10^21. *)
Definition fixed_range (x : number) : bool :=
  match Prim2SF x with
  | S754_finite _ m e => negb (at_least_1e21 (magnitude m e))
  | S754_zero _ => true
  | _ => false
  end.

(** A string in fixed notation with exactly two decimal places: an optional
    minus sign, one or more digits, a point, two digits. *)
Definition two_decimals (s : string) : Prop :=
  exists (sign int_part : string) (d1 d2 : ascii),
    s = sign ++ int_part ++ "." ++ String d1 (String d2 "") /\
    (sign = "" \/ sign = "-") /\
    int_part <> "" /\ all_digits int_part = true /\
    is_digit d1 = true /\ is_digit d2 = true.

(** ** parseFloat(string), ECMA-262 19.2.4

    Leading white space is skipped, the longest prefix that is a
    StrDecimalLiteral is read, and its mathematical value is rounded to the
    nearest number (ties to even); [NaN] when no prefix qualifies. *)

(** Strings are kept as their UTF-8 bytes.  White space and line
    terminators of one byte: TAB, LF, VT, FF, CR, SP. *)
Definition is_space (c : ascii) : bool :=
  let n := nat_of_ascii c in
  ((9 <=? n)%nat && (n <=? 13)%nat) || (n =? 32)%nat.

(** U+00A0, as the bytes C2 A0. *)
Definition is_space2 (c1 c2 : ascii) : bool :=
  (nat_of_ascii c1 =? 194)%nat && (nat_of_ascii c2 =? 160)%nat.

(** U+1680, U+2000..U+200A, U+2028, U+2029, U+202F, U+205F, U+3000 and
    U+FEFF, as three bytes each. *)
Definition is_space3 (c1 c2 c3 : ascii) : bool :=
  let a := nat_of_ascii c1 in
  let b := nat_of_ascii c2 in
  let c := nat_of_ascii c3 in
  match a with
  | 225 => (b =? 154)%nat && (c =? 128)%nat
  | 226 =>
      ((b =? 128)%nat
       && (((128 <=? c)%nat && (c <=? 138)%nat)
           || (c =? 168)%nat || (c =? 169)%nat || (c =? 175)%nat))
      || ((b =? 129)%nat && (c =? 159)%nat)
  | 227 => (b =? 128)%nat && (c =? 128)%nat
  | 239 => (b =? 187)%nat && (c =? 191)%nat
  | _ => false
  end.

Fixpoint trim_start (s : string) : string :=
  match s with
  | String c1 s1 =>
      if is_space c1 then trim_start s1
      else
        match s1 with
        | String c2 s2 =>
            if is_space2 c1 c2 then trim_start s2
            else
              match s2 with
              | String c3 s3 =>
                  if is_space3 c1 c2 c3 then trim_start s3 else s
              | EmptyString => s
              end
        | EmptyString => s
        end
  | EmptyString => s
  end.

(** The longest prefix of decimal digits, and what follows it. *)
Fixpoint take_digits (s : string) : string * string :=
  match s with
  | String c s' =>
      if is_digit c then let (ds, r) := take_digits s' in (String c ds, r)
      else ("", s)
  | EmptyString => ("", "")
  end.

Fixpoint digits_value_from (acc : Z) (ds : string) : Z :=
  match ds with
  | String c ds' => digits_value_from (10 * acc + digit_value c) ds'
  | EmptyString => acc
  end.

Definition digits_value (ds : string) : Z := digits_value_from 0 ds.

(** The value of an ExponentPart at the head of [s]; 0 when there is none
    (the literal then ends before it). *)
Definition exponent_part (s : string) : Z :=
  match s with
  | String c r =>
      if (c =? "e")%char || (c =? "E")%char then
        let '(neg, r') :=
          match r with
          | String "+" r' => (false, r')
          | String "-" r' => (true, r')
          | _ => (false, r)
          end in
        let (ds, _) := take_digits r' in
        match ds with
        | EmptyString => 0%Z
        | _ => if neg then (- digits_value ds)%Z else digits_value ds
        end
      else 0%Z
  | EmptyString => 0%Z
  end.

Definition round_half_even (num den : Z) : Z :=
  let q := (num / den)%Z in
  match (2 * (num mod den) ?= den)%Z with
  | Lt => q
  | Gt => (q + 1)%Z
  | Eq => if Z.even q then q else (q + 1)%Z
  end.

(** Is [num/den >= 2^p]? *)
Definition at_least_pow2 (num den p : Z) : bool :=
  if (0 <=? p)%Z then (den * 2 ^ p <=? num)%Z else (den <=? num * 2 ^ (- p))%Z.

(** The number nearest to the positive fraction [num/den]: the mantissa is
    rounded at the binade of the value, or at 2^-1074 for subnormals; what
    exceeds the largest finite number becomes Infinity. *)
Definition nearest_number (num den : Z) : number :=
  let l := (Z.log2 num - Z.log2 den)%Z in
  let e := if at_least_pow2 num den l then l else (l - 1)%Z in
  let sh := Z.max (e - 52) (-1074) in
  let m := if (0 <=? sh)%Z then round_half_even num (den * 2 ^ sh)
           else round_half_even (num * 2 ^ (- sh)) den in
  match m with
  | Z.pos p => SF2Prim (S754_finite false p sh)
  | _ => PrimFloat.zero
  end.

(** The number for [n * 10^e10], [n >= 0]. *)
Definition of_decimal (n e10 : Z) : number :=
  if (n =? 0)%Z then PrimFloat.zero
  else if (0 <=? e10)%Z then nearest_number (n * 10 ^ e10) 1
  else nearest_number n (10 ^ (- e10)).

Definition prefix_Infinity (s : string) : bool := String.prefix "Infinity" s.

Definition parse_unsigned (s : string) : number :=
  if prefix_Infinity s then PrimFloat.infinity
  else
    let (int_part, r1) := take_digits s in
    let '(frac_part, r2, valid) :=
      match r1 with
      | String "." r =>
          let (fs, r') := take_digits r in
          match int_part, fs with
          | EmptyString, EmptyString => ("", r1, false)
          | _, _ => (fs, r', true)
          end
      | _ => ("", r1, negb (falsy int_part))
      end in
    if valid then
      of_decimal (digits_value (int_part ++ frac_part))
                 (exponent_part r2 - Z.of_nat (String.length frac_part))
    else PrimFloat.nan.

Definition parseFloat (s : string) : number :=
  match trim_start s with
  | String "-" r => PrimFloat.opp (parse_unsigned r)
  | String "+" r => parse_unsigned r
  | r => parse_unsigned r
  end.

(** ** String.prototype.split with a one-character separator *)

Fixpoint split (sep : ascii) (s : string) : list string :=
  match s with
  | EmptyString => [""]
  | String c r =>
      if (c =? sep)%char then "" :: split sep r
      else match split sep r with
           | h :: t => String c h :: t
           | [] => [String c ""]
           end
  end.

(** ** Math.abs, Math.round and Array.prototype.slice *)

Definition abs (x : number) : number := PrimFloat.abs x.

(** The number for a non-negative integer below [2^53], which is exact. *)
Definition of_integer (k : Z) : number := nearest_number k 1.

(** [Math.round(x)], ECMA-262 21.3.2.28: the integer nearest to [x], the
    larger one on a tie; [x] itself when it is not finite or is an integer
    already; a zero of the sign of [x] when [x] rounds to zero.  A finite
    [x] with a negative exponent is [m / 2^(-e)] up to sign, below [2^53];
    the nearest integer is then [floor(x + 1/2)]. *)
Definition round (x : number) : number :=
  match Prim2SF x with
  | S754_finite sign m e =>
      if (0 <=? e)%Z then x
      else
        let den := (2 ^ (- e))%Z in
        if sign then
          PrimFloat.opp (of_integer (- ((den - 2 * Z.pos m) / (2 * den))))
        else of_integer ((2 * Z.pos m + den) / (2 * den))
  | _ => x
  end.

(** [array.slice(-n)]: the last [n] elements, all of them when there are
    fewer; [slice(-0)] is [slice(0)], the whole array. *)
Definition slice_last {A : Type} (n : nat) (l : list A) : list A :=
  match n with
  | O => l
  | S _ => skipn (List.length l - n) l
  end.

End JS.

(* ================================================================== *)
(** * The tables *)
(* ================================================================== *)

(** Rows follow [Database.public.Tables.*.Row] of
    [src/src/integrations/supabase/types.ts]: a column typed [T | null] is
    an [option].  The text columns that the migration restricts with
    [CHECK (... IN (...))] are enumerations.  The columns [created_at] and
    [updated_at], which the backend stamps by itself, are left out.  A numeric
    column is given by the number a page reads from it: the number nearest
    to the decimal the column holds. *)

Definition uuid : Type := string.

Inductive TransactionType : Type :=
  tx_deposit | tx_withdrawal | tx_buy | tx_sell.

Inductive TransactionStatus : Type :=
  pending | completed | cancelled | rejected.

Inductive OrderType : Type := market | limit.

Inductive OrderSide : Type := buy | sell.

Inductive OrderStatus : Type :=
  open | filled | order_cancelled | partial.

Module Coin.
Record Row : Type := {
  id : uuid;
  symbol : string;
  name : string;
  is_custom : option bool;
  price : option JS.number;
  price_change_24h : option JS.number;
  market_cap : option JS.number;
  volume_24h : option JS.number;
  logo_url : option string;
  is_active : option bool
}.

(** [update({ price })] applied to one row, [p] being what the column
    [price] makes of the number sent. *)
Definition set_price (p : option JS.number) (r : Row) : Row :=
  {| id := id r; symbol := symbol r; name := name r; is_custom := is_custom r;
     price := p; price_change_24h := price_change_24h r;
     market_cap := market_cap r; volume_24h := volume_24h r;
     logo_url := logo_url r; is_active := is_active r |}.
End Coin.

Module UserBalance.
Record Row : Type := {
  id : uuid;
  user_id : uuid;
  coin_id : uuid;
  balance : option JS.number;
  locked_balance : option JS.number
}.
End UserBalance.

Module Transaction.
Record Row : Type := {
  id : uuid;
  user_id : uuid;
  coin_id : uuid;
  type : TransactionType;
  amount : JS.number;
  price : option JS.number;
  fee : option JS.number;
  status : option TransactionStatus;
  transaction_hash : option string;
  wallet_address : option string;
  admin_approved_by : option uuid;
  admin_approved_at : option string
}.

(** The object the Assets page passes to [insert]: [user_id] is [user?.id]
    and [wallet_address] may be [undefined]; an undefined property is not
    sent. *)
Record Insert : Type := {
  ins_user_id : option uuid;
  ins_coin_id : uuid;
  ins_type : TransactionType;
  ins_amount : JS.number;
  ins_status : option TransactionStatus;
  ins_wallet_address : option string
}.

(** The object the Admin page passes to [update]: [admin_approved_by] is
    [user?.id], left out of the request when undefined. *)
Record Update : Type := {
  upd_status : TransactionStatus;
  upd_admin_approved_by : option uuid;
  upd_admin_approved_at : string
}.

Definition apply_update (u : Update) (r : Row) : Row :=
  {| id := id r; user_id := user_id r; coin_id := coin_id r; type := type r;
     amount := amount r; price := price r; fee := fee r;
     status := Some (upd_status u);
     transaction_hash := transaction_hash r;
     wallet_address := wallet_address r;
     admin_approved_by :=
       match upd_admin_approved_by u with
       | Some a => Some a
       | None => admin_approved_by r
       end;
     admin_approved_at := Some (upd_admin_approved_at u) |}.
End Transaction.

Module Order.
Record Row : Type := {
  id : uuid;
  user_id : uuid;
  base_coin_id : uuid;
  quote_coin_id : uuid;
  type : OrderType;
  side : OrderSide;
  amount : JS.number;
  price : option JS.number;
  filled_amount : option JS.number;
  status : option OrderStatus
}.

(** The object the Trade page passes to [insert]. *)
Record Insert : Type := {
  ins_user_id : option uuid;
  ins_base_coin_id : uuid;
  ins_quote_coin_id : uuid;
  ins_type : OrderType;
  ins_side : OrderSide;
  ins_amount : JS.number;
  ins_price : option JS.number
}.
End Order.

Record Database : Type := {
  coins : list Coin.Row;
  user_balances : list UserBalance.Row;
  transactions : list Transaction.Row;
  orders : list Order.Row
}.

(** The tables with other balances: used to say that a handler does not
    read them. *)
Definition with_balances (d : Database) (balances : list UserBalance.Row)
  : Database :=
  {| coins := coins d; user_balances := balances;
     transactions := transactions d; orders := orders d |}.

(* ================================================================== *)
(** * The table client *)
(* ================================================================== *)

(** Errors a request can come back with, by SQLSTATE class. *)
Inductive PostgrestError : Type :=
| numeric_value_out_of_range     (* 22003 *)
| row_level_security_violation   (* 42501 *)
| not_null_violation             (* 23502 *)
| unique_violation               (* 23505 *)
| foreign_key_violation.         (* 23503 *)

(** What a [catch] block receives. *)
Inductive Thrown : Type :=
| JsError (message : string)
| Postgrest (e : PostgrestError).

(** Completion of the body of a [try] block. *)
Inductive Completion (A : Type) : Type :=
| Normal (a : A)
| Throw (e : Thrown).
Arguments Normal {A} a.
Arguments Throw {A} e.

Definition bind {A B : Type} (c : Completion A) (k : A -> Completion B)
  : Completion B :=
  match c with
  | Normal a => k a
  | Throw e => Throw e
  end.

Notation "x <- c ;; k" := (bind c (fun x => k))
  (at level 61, c at next level, right associativity).

(** [if (!data) throw new Error(message)] *)
Definition require {A : Type} (data : option A) (message : string)
  : Completion A :=
  match data with
  | Some a => Normal a
  | None => Throw (JsError message)
  end.

(** [if (error) throw error] *)
Definition throw_if_error {A : Type} (r : A + PostgrestError) : Completion A :=
  match r with
  | inl a => Normal a
  | inr e => Throw (Postgrest e)
  end.

(** What a handler shows: [toast.success(text)], [toast.error(text)], or,
    from a [catch] block, [toast.error(error.message || fallback)]. *)
Inductive Toast : Type :=
| toast_success (text : string)
| toast_error (text : string)
| toast_caught (error : Thrown) (fallback : string).

Definition is_success (t : Toast) : bool :=
  match t with toast_success _ => true | _ => false end.

Module Backend.

(** ** Reading *)

(** [.eq('symbol', symbol).single()]: the row when exactly one row matches,
    no data otherwise ([symbol] is UNIQUE, so at most one does). *)
Definition single {A : Type} (rows : list A) : option A :=
  match rows with
  | [r] => Some r
  | _ => None
  end.

Definition coins_where_symbol (db : Database) (symbol : string)
  : list Coin.Row :=
  filter (fun c => String.eqb (Coin.symbol c) symbol) (coins db).

Definition coin_by_symbol (db : Database) (symbol : string)
  : option Coin.Row :=
  single (coins_where_symbol db symbol).

(** [.eq('is_active', true)] *)
Definition is_active_true (c : Coin.Row) : bool :=
  match Coin.is_active c with Some true => true | _ => false end.

Definition has_coin (db : Database) (id : uuid) : bool :=
  existsb (fun c => String.eqb (Coin.id c) id) (coins db).

(** ** Numeric columns

    The migration declares [amount] and [price] of [transactions] and
    [orders], and [price] of [coins], as [DECIMAL(20, 8)].  The backend takes
    the number of a request for the decimal its text stands for, rounds it to
    eight decimals, half away from zero, and refuses it (numeric field
    overflow, 22003) when what is left needs more than twelve digits before
    the point; a [null] stays [null]. *)

(** The decimal [s * 10^e10], [s >= 0], rounded to a count of units of
    [10^-8]. *)
Definition units (s e10 : Z) : Z :=
  let e := (e10 + 8)%Z in
  if (0 <=? e)%Z then (s * 10 ^ e)%Z
  else ((2 * s + 10 ^ (- e)) / (2 * 10 ^ (- e)))%Z.

(** What a page reads from a column that holds [u] units: the response
    carries the value with its eight decimals, and the client parses it to
    the nearest number.  A zero has no sign in the column. *)
Definition read_units (negative : bool) (u : Z) : JS.number :=
  let x := JS.of_decimal u (-8) in
  if negative && negb (u =? 0)%Z then PrimFloat.opp x else x.

(** What a [DECIMAL(20, 8)] column makes of the number [x] of a request:
    an error, or the value it then holds ([None] for [NULL]), as a page reads
    it back. *)
Definition decimal_20_8 (x : JS.number) : option JS.number + PostgrestError :=
  match JS.stringify x with
  | JS.json_null => inl None
  | JS.json_decimal negative s e10 =>
      let u := units s e10 in
      if (10 ^ 20 <=? u)%Z then inr numeric_value_out_of_range
      else inl (Some (read_units negative u))
  end.

(** The same for a property [number | null]. *)
Definition nullable_decimal_20_8 (v : option JS.number)
  : option JS.number + PostgrestError :=
  match v with
  | Some x => decimal_20_8 x
  | None => inl None
  end.

(** ** Inserting

    The migration gives [transactions] and [orders] an insert policy
    [WITH CHECK (auth.uid() = user_id)], a primary key [id] that defaults to
    [gen_random_uuid()] (here [new_id], drawn by the backend), [NOT NULL] on
    [user_id] and [amount], and foreign keys to [coins].  [status] defaults
    to ['pending'] resp. ['open'], [fee] and [filled_amount] to 0.

    A request is refused at the first of these it fails: the conversion of
    its numbers to the types of their columns, which comes with reading the
    request; the insert policy; the [NOT NULL] constraints; the primary key;
    the foreign keys, which are checked when the statement ends. *)

Definition with_check (auth_uid row_user_id : option uuid) : bool :=
  match auth_uid, row_user_id with
  | Some a, Some u => String.eqb a u
  | _, _ => false
  end.

Definition default {A : Type} (given : option A) (d : A) : option A :=
  match given with Some a => Some a | None => Some d end.

(** The row an accepted insert into [transactions] adds, [amount] being
    what the column makes of the amount sent. *)
Definition new_transaction (new_id uid : uuid) (amount : JS.number)
    (v : Transaction.Insert) : Transaction.Row :=
  {| Transaction.id := new_id;
     Transaction.user_id := uid;
     Transaction.coin_id := Transaction.ins_coin_id v;
     Transaction.type := Transaction.ins_type v;
     Transaction.amount := amount;
     Transaction.price := None;
     Transaction.fee := Some PrimFloat.zero;
     Transaction.status := default (Transaction.ins_status v) pending;
     Transaction.transaction_hash := None;
     Transaction.wallet_address := Transaction.ins_wallet_address v;
     Transaction.admin_approved_by := None;
     Transaction.admin_approved_at := None |}.

Definition add_transaction (db : Database) (row : Transaction.Row)
  : Database :=
  {| coins := coins db;
     user_balances := user_balances db;
     transactions := transactions db ++ [row];
     orders := orders db |}.

Definition transaction_id_taken (db : Database) (id : uuid) : bool :=
  existsb (fun t => String.eqb (Transaction.id t) id) (transactions db).

Definition insert_transaction (auth_uid : option uuid) (new_id : uuid)
    (v : Transaction.Insert) (db : Database) : Database + PostgrestError :=
  match decimal_20_8 (Transaction.ins_amount v) with
  | inr e => inr e
  | inl amount =>
    if negb (with_check auth_uid (Transaction.ins_user_id v))
    then inr row_level_security_violation
    else match Transaction.ins_user_id v, amount with
    | Some uid, Some a =>
      if transaction_id_taken db new_id then inr unique_violation
      else if negb (has_coin db (Transaction.ins_coin_id v))
      then inr foreign_key_violation
      else inl (add_transaction db (new_transaction new_id uid a v))
    | _, _ => inr not_null_violation
    end
  end.

(** The row an accepted insert into [orders] adds, [amount] and [price]
    being what the columns make of the numbers sent. *)
Definition new_order (new_id uid : uuid) (amount : JS.number)
    (price : option JS.number) (v : Order.Insert) : Order.Row :=
  {| Order.id := new_id;
     Order.user_id := uid;
     Order.base_coin_id := Order.ins_base_coin_id v;
     Order.quote_coin_id := Order.ins_quote_coin_id v;
     Order.type := Order.ins_type v;
     Order.side := Order.ins_side v;
     Order.amount := amount;
     Order.price := price;
     Order.filled_amount := Some PrimFloat.zero;
     Order.status := Some open |}.

Definition add_order (db : Database) (row : Order.Row) : Database :=
  {| coins := coins db;
     user_balances := user_balances db;
     transactions := transactions db;
     orders := orders db ++ [row] |}.

Definition order_id_taken (db : Database) (id : uuid) : bool :=
  existsb (fun o => String.eqb (Order.id o) id) (orders db).

Definition insert_order (auth_uid : option uuid) (new_id : uuid)
    (v : Order.Insert) (db : Database) : Database + PostgrestError :=
  match decimal_20_8 (Order.ins_amount v),
        nullable_decimal_20_8 (Order.ins_price v) with
  | inr e, _ => inr e
  | inl _, inr e => inr e
  | inl amount, inl price =>
    if negb (with_check auth_uid (Order.ins_user_id v))
    then inr row_level_security_violation
    else match Order.ins_user_id v, amount with
    | Some uid, Some a =>
      if order_id_taken db new_id then inr unique_violation
      else if negb (has_coin db (Order.ins_base_coin_id v)
                    && has_coin db (Order.ins_quote_coin_id v))
      then inr foreign_key_violation
      else inl (add_order db (new_order new_id uid a price v))
    | _, _ => inr not_null_violation
    end
  end.

(** ** Updating

    Row-level security is enabled on every table, and the migration in the
    repository declares no UPDATE policy for [coins] (its comment says
    writable by admins only) or [transactions]: which rows a signed-in
    caller may update is configured in the backend, outside the repository.
    It is a parameter here.  An UPDATE changes the rows that match the filter
    and that the policy lets the caller update; it reports no error for the
    others.  The number of the request is converted to the type of the
    column where it is assigned to a row: an UPDATE that finds no row to
    write converts nothing and reports success. *)

Record UpdatePolicy : Type := {
  may_update_coin : option uuid -> Coin.Row -> bool;
  may_update_transaction : option uuid -> Transaction.Row -> bool
}.

Definition update_where {A : Type} (hit : A -> bool) (f : A -> A)
    (rows : list A) : list A :=
  map (fun r => if hit r then f r else r) rows.

(** [from('transactions').update(u).eq('id', id)] *)
Definition update_transaction_by_id (policy : UpdatePolicy)
    (auth_uid : option uuid) (id : uuid) (u : Transaction.Update)
    (db : Database) : Database + PostgrestError :=
  inl {| coins := coins db;
         user_balances := user_balances db;
         transactions :=
           update_where
             (fun t => String.eqb (Transaction.id t) id
                       && may_update_transaction policy auth_uid t)
             (Transaction.apply_update u) (transactions db);
         orders := orders db |}.

(** [from('coins').update({ price }).eq('symbol', symbol)]; the column
    [price] of [coins] may be [NULL]. *)
Definition update_coin_price_by_symbol (policy : UpdatePolicy)
    (auth_uid : option uuid) (symbol : string) (p : JS.number)
    (db : Database) : Database + PostgrestError :=
  let hit := fun c => String.eqb (Coin.symbol c) symbol
                      && may_update_coin policy auth_uid c in
  if existsb hit (coins db) then
    match decimal_20_8 p with
    | inl price =>
        inl {| coins := update_where hit (Coin.set_price price) (coins db);
               user_balances := user_balances db;
               transactions := transactions db;
               orders := orders db |}
    | inr e => inr e
    end
  else inl db.

(** ** Reading with a policy, an order and a limit *)

(** Which rows of [transactions] a caller may read.  The migration declares
    the policy [USING (auth.uid() = user_id)]: the caller's own rows.
    Policies are alternatives, and further ones (for an administrator, say)
    are configured in the backend, outside the repository:
    [may_select_transaction] stands for them. *)
Record SelectPolicy : Type := {
  may_select_transaction : option uuid -> Transaction.Row -> bool
}.

Definition own_transaction (auth_uid : option uuid) (t : Transaction.Row)
  : bool :=
  with_check auth_uid (Some (Transaction.user_id t)).

Definition visible_transactions (policy : SelectPolicy)
    (auth_uid : option uuid) (db : Database) : list Transaction.Row :=
  filter (fun t => own_transaction auth_uid t
                   || may_select_transaction policy auth_uid t)
         (transactions db).

(** [.eq('status', 'pending')]: a null status does not match. *)
Definition is_pending (s : option TransactionStatus) : bool :=
  match s with Some pending => true | _ => false end.

(** [.order(column, ...)]: the rows sorted so that [before x y] holds of
    every row [x] and the row [y] that follows it.  Rows that compare equal
    come in an order the backend chooses; here they keep the order of the
    table. *)
Fixpoint insert_by {A : Type} (before : A -> A -> bool) (x : A)
    (rows : list A) : list A :=
  match rows with
  | [] => [x]
  | y :: rows' =>
      if before x y then x :: rows else y :: insert_by before x rows'
  end.

Definition order_by {A : Type} (before : A -> A -> bool) (rows : list A)
  : list A :=
  fold_right (insert_by before) [] rows.

(** [.order('created_at', { ascending: false })], the time of a row given
    by [created_at]. *)
Definition newest_first {A : Type} (created_at : A -> Z) (x y : A) : bool :=
  (created_at y <=? created_at x)%Z.

(** [.limit(n)] *)
Definition limit {A : Type} (n : nat) (rows : list A) : list A :=
  firstn n rows.

(** The embedded resource [coin:coins(...)]: the coin the foreign key
    [coin_id] points to, [null] when there is none. *)
Definition coin_of (db : Database) (coin_id : uuid) : option Coin.Row :=
  find (fun c => String.eqb (Coin.id c) coin_id) (coins db).

End Backend.

(* ================================================================== *)
(** * The handlers *)
(* ================================================================== *)

(** What running a handler leaves behind: the toast it shows, the form state
    of the page, and the tables.  The re-fetch some handlers end with only
    reloads what the page displays and is not part of the outcome. *)
Record Outcome (S : Type) : Type := {
  toast : Toast;
  state : S;
  db : Database
}.
Arguments toast {S} o.
Arguments state {S} o.
Arguments db {S} o.

(** The handler went through its [try] block and reported success. *)
Definition succeeded {S : Type} (o : Outcome S) : bool :=
  is_success (toast o).

(** ** The Assets page: the component [Assets], second half of
    [src/src/pages/Admin.tsx] (lines 466-932) *)

Module Assets.

Record BalanceCoin : Type := {
  coin_id : uuid;
  coin_symbol : string;
  coin_name : string;
  coin_price : option JS.number
}.

(** [interface Balance]: a row of [user_balances] with its coin embedded. *)
Record Balance : Type := {
  id : uuid;
  balance : option JS.number;
  locked_balance : option JS.number;
  coin : BalanceCoin
}.

Record State : Type := {
  depositAmount : string;
  withdrawAmount : string;
  withdrawAddress : string
}.

Definition walletAddresses : list (string * string) :=
  [ ("BTC", "1LyZHu2xzqYyzLesS7UYecXUTW6AGngBFR");
    ("ETH", "0x1016a1ff1907e77afa6f4889f8796b4c3237252d");
    ("USDT (ERC20)", "0x1016a1ff1907e77afa6f4889f8796b4c3237252d");
    ("USDT (TRC20)", "TBdEXqVLqdrdD2mtPGysRQRQj53PEMsT1o") ].

Fixpoint property (o : list (string * string)) (key : string)
  : option string :=
  match o with
  | [] => None
  | (k, v) :: o' => if String.eqb k key then Some v else property o' key
  end.

(** [fetchBalances]: the rows of [user_balances] with
    [user_id = user.id], each with the columns of its coin
    ([coin:coins(id, symbol, name, price)], joined on the foreign key
    [coin_id]). *)
Definition embed_coin (d : Database) (b : UserBalance.Row) : list Balance :=
  match find (fun c => String.eqb (Coin.id c) (UserBalance.coin_id b)) (coins d) with
  | Some c =>
      [ {| id := UserBalance.id b;
           balance := UserBalance.balance b;
           locked_balance := UserBalance.locked_balance b;
           coin := {| coin_id := Coin.id c;
                      coin_symbol := Coin.symbol c;
                      coin_name := Coin.name c;
                      coin_price := Coin.price c |} |} ]
  | None => []
  end.

Definition fetchBalances (d : Database) (user : uuid) : list Balance :=
  flat_map (embed_coin d)
    (filter (fun b => String.eqb (UserBalance.user_id b) user) (user_balances d)).

(** [balances.reduce((sum, balance) =>
       sum + (balance.balance * balance.coin.price), 0)] *)
Definition totalValue (balances : list Balance) : JS.number :=
  fold_left
    (fun sum b =>
       JS.add sum (JS.mul (JS.to_number (balance b))
                          (JS.to_number (coin_price (coin b)))))
    balances PrimFloat.zero.

(** The value of one row: [balance.balance * balance.coin.price]. *)
Definition value (b : Balance) : JS.number :=
  JS.mul (JS.to_number (balance b)) (JS.to_number (coin_price (coin b))).

(** The sum of the rows' values, the rows taken in order from zero: written
    after the words, by recursion on the rows from the last one back. *)
Fixpoint sum_backwards (reversed : list Balance) : JS.number :=
  match reversed with
  | [] => PrimFloat.zero
  | b :: earlier => JS.add (sum_backwards earlier) (value b)
  end.

Definition sum_of_values (balances : list Balance) : JS.number :=
  sum_backwards (rev balances).

(** The same row with another locked balance. *)
Definition with_locked (l : option JS.number) (b : Balance) : Balance :=
  {| id := id b; balance := balance b; locked_balance := l; coin := coin b |}.

Definition handleDeposit (user : option uuid) (new_id : uuid)
    (coinSymbol : string) (st : State) (d : Database) : Outcome State :=
  if JS.falsy (depositAmount st) then
    {| toast := toast_error "Please enter deposit amount";
       state := st; db := d |}
  else
    let attempt :=
      coinData <- require (Backend.coin_by_symbol d coinSymbol) "Coin not found" ;;
      throw_if_error
        (Backend.insert_transaction user new_id
           {| Transaction.ins_user_id := user;
              Transaction.ins_coin_id := Coin.id coinData;
              Transaction.ins_type := tx_deposit;
              Transaction.ins_amount := JS.parseFloat (depositAmount st);
              Transaction.ins_status := Some pending;
              Transaction.ins_wallet_address :=
                property walletAddresses coinSymbol |} d) in
    match attempt with
    | Normal d' =>
        {| toast := toast_success
             "Deposit request submitted! Please wait for admin approval.";
           state := {| depositAmount := "";
                       withdrawAmount := withdrawAmount st;
                       withdrawAddress := withdrawAddress st |};
           db := d' |}
    | Throw e =>
        {| toast := toast_caught e "Failed to submit deposit request";
           state := st; db := d |}
    end.

Definition handleWithdraw (user : option uuid) (new_id : uuid)
    (coinSymbol : string) (st : State) (d : Database) : Outcome State :=
  if JS.falsy (withdrawAmount st) || JS.falsy (withdrawAddress st) then
    {| toast := toast_error "Please enter withdrawal amount and address";
       state := st; db := d |}
  else
    let attempt :=
      coinData <- require (Backend.coin_by_symbol d coinSymbol) "Coin not found" ;;
      throw_if_error
        (Backend.insert_transaction user new_id
           {| Transaction.ins_user_id := user;
              Transaction.ins_coin_id := Coin.id coinData;
              Transaction.ins_type := tx_withdrawal;
              Transaction.ins_amount := JS.parseFloat (withdrawAmount st);
              Transaction.ins_status := Some pending;
              Transaction.ins_wallet_address := Some (withdrawAddress st) |} d) in
    match attempt with
    | Normal d' =>
        {| toast := toast_success
             "Withdrawal request submitted! Please wait for admin approval.";
           state := {| depositAmount := depositAmount st;
                       withdrawAmount := "";
                       withdrawAddress := "" |};
           db := d' |}
    | Throw e =>
        {| toast := toast_caught e "Failed to submit withdrawal request";
           state := st; db := d |}
    end.

(** [interface Transaction] of the page: what [fetchTransactions]
    selects.  The column [created_at] is the time at which the backend
    stamped the row, in microseconds. *)
Record TransactionCoin : Type := {
  symbol : string;
  name : string
}.

Record Transaction : Type := {
  transaction_id : uuid;
  type : TransactionType;
  amount : JS.number;
  status : option TransactionStatus;
  wallet_address : option string;
  created_at : Z;
  transaction_coin : option TransactionCoin
}.

Definition select_transaction (stamp : uuid -> Z) (d : Database)
    (t : Transaction.Row) : Transaction :=
  {| transaction_id := Transaction.id t;
     type := Transaction.type t;
     amount := Transaction.amount t;
     status := Transaction.status t;
     wallet_address := Transaction.wallet_address t;
     created_at := stamp (Transaction.id t);
     transaction_coin :=
       option_map (fun c => {| symbol := Coin.symbol c; name := Coin.name c |})
                  (Backend.coin_of d (Transaction.coin_id t)) |}.

(** [fetchTransactions]: the ten newest transactions of the user, newest
    first.  [stamp] gives the column [created_at] of the row with a given
    id.  The page runs it for the user who is signed in, whose own rows the
    policy of the migration lets them read. *)
Definition fetchTransactions (stamp : uuid -> Z) (d : Database) (user : uuid)
  : list Transaction :=
  Backend.limit 10
    (Backend.order_by (Backend.newest_first created_at)
       (map (select_transaction stamp d)
            (filter (fun t => String.eqb (Transaction.user_id t) user)
                    (transactions d)))).

(** The card Pending Transactions:
    [transactions.filter(t => t.status === 'pending').length] *)
Definition pendingCount (transactions : list Transaction) : nat :=
  List.length (filter (fun t => Backend.is_pending (status t)) transactions).

End Assets.

(** ** The Admin page: the component [Admin], first half of
    [src/src/pages/Admin.tsx] (lines 1-466) *)

Module Admin.

Record State : Type := {
  moonPrice : string;
  priceChange : string
}.

Section WithPolicy.

Variable policy : Backend.UpdatePolicy.

(** [now] is [new Date().toISOString()]. *)
Definition approveTransaction (user : option uuid) (now : string)
    (transactionId : uuid) (approve : bool) (st : State) (d : Database)
  : Outcome State :=
  let attempt :=
    throw_if_error
      (Backend.update_transaction_by_id policy user transactionId
         {| Transaction.upd_status := if approve then completed else rejected;
            Transaction.upd_admin_approved_by := user;
            Transaction.upd_admin_approved_at := now |} d) in
  match attempt with
  | Normal d' =>
      {| toast := toast_success
           ("Transaction " ++ (if approve then "approved" else "rejected")
            ++ " successfully!");
         state := st; db := d' |}
  | Throw e =>
      {| toast := toast_caught e "Failed to update transaction";
         state := st; db := d |}
  end.

(** [currentPrice.price * (1 + parseFloat(priceChange) / 100)] *)
Definition newPrice (currentPrice : Coin.Row) (priceChange : string)
  : JS.number :=
  let changePercent := JS.div (JS.parseFloat priceChange) 100%float in
  JS.mul (JS.to_number (Coin.price currentPrice))
         (JS.add 1%float changePercent).

Definition updateMoonPriceByPercentage (user : option uuid) (st : State)
    (d : Database) : Outcome State :=
  if JS.falsy (priceChange st) then
    {| toast := toast_error "Please enter a percentage change";
       state := st; db := d |}
  else
    let attempt :=
      currentPrice <- require (Backend.coin_by_symbol d "MOON")
                              "Could not fetch current price" ;;
      let p := newPrice currentPrice (priceChange st) in
      d' <- throw_if_error
              (Backend.update_coin_price_by_symbol policy user "MOON" p d) ;;
      Normal (p, d') in
    match attempt with
    | Normal (p, d') =>
        {| toast := toast_success
             ("MOON price updated by " ++ priceChange st ++ "%!");
           state := {| moonPrice := JS.NumberToString p; priceChange := "" |};
           db := d' |}
    | Throw e =>
        {| toast := toast_caught e "Failed to update MOON price";
           state := st; db := d |}
    end.

(** [updateMoonPrice] *)
Definition updateMoonPrice (user : option uuid) (st : State) (d : Database)
  : Outcome State :=
  if JS.falsy (moonPrice st) then
    {| toast := toast_error "Please enter a price"; state := st; db := d |}
  else
    let attempt :=
      throw_if_error
        (Backend.update_coin_price_by_symbol policy user "MOON"
           (JS.parseFloat (moonPrice st)) d) in
    match attempt with
    | Normal d' =>
        {| toast := toast_success "MOON price updated successfully!";
           state := st; db := d' |}
    | Throw e =>
        {| toast := toast_caught e "Failed to update MOON price";
           state := st; db := d |}
    end.

End WithPolicy.

(** [fetchMoonPrice]: the price of the one coin with the symbol MOON, as
    text.  With no such coin, or several, [single()] reports an error; with a
    null price [data.price.toString()] throws; either way the [catch] block
    leaves the field as it was. *)
Definition fetchMoonPrice (st : State) (d : Database) : State :=
  match Backend.coin_by_symbol d "MOON" with
  | Some c =>
      match Coin.price c with
      | Some p =>
          {| moonPrice := JS.NumberToString p; priceChange := priceChange st |}
      | None => st
      end
  | None => st
  end.

(** [interface Transaction] of the page: what [fetchTransactions]
    selects.  The column [created_at] is the time at which the backend
    stamped the row, in microseconds; [coin] is null when the foreign key
    points to no coin. *)
Record TransactionCoin : Type := {
  symbol : string;
  name : string
}.

Record Transaction : Type := {
  id : uuid;
  user_id : uuid;
  type : TransactionType;
  amount : JS.number;
  status : option TransactionStatus;
  wallet_address : option string;
  created_at : Z;
  coin : option TransactionCoin
}.

Definition select_transaction (stamp : uuid -> Z) (d : Database)
    (t : Transaction.Row) : Transaction :=
  {| id := Transaction.id t;
     user_id := Transaction.user_id t;
     type := Transaction.type t;
     amount := Transaction.amount t;
     status := Transaction.status t;
     wallet_address := Transaction.wallet_address t;
     created_at := stamp (Transaction.id t);
     coin :=
       option_map (fun c => {| symbol := Coin.symbol c; name := Coin.name c |})
                  (Backend.coin_of d (Transaction.coin_id t)) |}.

(** [fetchTransactions]: the pending transactions the caller may read,
    newest first.  [stamp] gives the column [created_at] of the row with a
    given id, in microseconds. *)
Definition fetchTransactions (select : Backend.SelectPolicy)
    (stamp : uuid -> Z) (user : option uuid) (d : Database)
  : list Transaction :=
  Backend.order_by (Backend.newest_first created_at)
    (map (select_transaction stamp d)
         (filter (fun t => Backend.is_pending (Transaction.status t))
                 (Backend.visible_transactions select user d))).

End Admin.

(** ** The Trade page: the component [Trade], second half of
    [src/unnamed/part_002] (lines 180-410) *)

Module Trade.

(** [interface Coin] of the page: what [fetchCoins] selects. *)
Record Coin : Type := {
  id : uuid;
  symbol : string;
  name : string;
  price : option JS.number
}.

(** [from('coins').select('id, symbol, name, price').eq('is_active', true)] *)
Definition fetchCoins (d : Database) : list Coin :=
  map (fun c => {| id := Coin.id c; symbol := Coin.symbol c;
                   name := Coin.name c; price := Coin.price c |})
      (filter Backend.is_active_true (coins d)).

(** The page keeps the coins it fetched when it mounted, and the form. *)
Record State : Type := {
  coins : list Coin;
  selectedPair : string;
  orderType : OrderType;
  amount : string;
  price_field : string;   (* the state variable [price] *)
  loading : bool
}.

(** [coins.find(c => c.symbol === s)?.id], [s] possibly undefined. *)
Definition find_id (cs : list Coin) (s : option string) : option uuid :=
  match s with
  | Some s =>
      option_map id (find (fun c => String.eqb (symbol c) s) cs)
  | None => None
  end.

(** [!id] for [string | undefined]. *)
Definition missing (i : option uuid) : bool :=
  match i with
  | Some s => JS.falsy s
  | None => true
  end.

Definition is_limit (t : OrderType) : bool :=
  match t with limit => true | market => false end.

Definition capitalized (s : OrderSide) : string :=
  match s with buy => "Buy" | sell => "Sell" end.

Definition set_loading (l : bool) (st : State) : State :=
  {| coins := coins st; selectedPair := selectedPair st;
     orderType := orderType st; amount := amount st;
     price_field := price_field st; loading := l |}.

Definition handleTrade (user : option uuid) (new_id : uuid)
    (side : OrderSide) (st : State) (d : Database) : Outcome State :=
  if JS.falsy (amount st) || (is_limit (orderType st) && JS.falsy (price_field st))
  then
    {| toast := toast_error "Please fill in all required fields";
       state := st; db := d |}
  else
    let attempt :=
      let pair := JS.split "/" (selectedPair st) in
      let baseId := find_id (coins st) (nth_error pair 0) in
      let quoteId := find_id (coins st) (nth_error pair 1) in
      if missing baseId || missing quoteId
      then Throw (JsError "Invalid trading pair")
      else
        match baseId, quoteId with
        | Some b, Some q =>
            throw_if_error
              (Backend.insert_order user new_id
                 {| Order.ins_user_id := user;
                    Order.ins_base_coin_id := b;
                    Order.ins_quote_coin_id := q;
                    Order.ins_type := orderType st;
                    Order.ins_side := side;
                    Order.ins_amount := JS.parseFloat (amount st);
                    Order.ins_price :=
                      if is_limit (orderType st)
                      then Some (JS.parseFloat (price_field st))
                      else None |} d)
        | _, _ => Throw (JsError "Invalid trading pair")
        end in
    match attempt with
    | Normal d' =>
        {| toast := toast_success
             (capitalized side ++ " order placed successfully!");
           state := {| coins := coins st; selectedPair := selectedPair st;
                       orderType := orderType st; amount := "";
                       price_field := ""; loading := false |};
           db := d' |}
    | Throw e =>
        {| toast := toast_caught e "Failed to place order";
           state := set_loading false st; db := d |}
    end.

(** One click on Buy or Sell: who is signed in, the id the backend draws,
    the side, and the form at that moment. *)
Record Click : Type := {
  click_user : option uuid;
  click_id : uuid;
  click_side : OrderSide;
  click_form : State
}.

(** The tables after a series of clicks. *)
Definition run (clicks : list Click) (d : Database) : Database :=
  fold_left
    (fun d c => db (handleTrade (click_user c) (click_id c) (click_side c)
                                (click_form c) d))
    clicks d.

(** A limit price is present if and only if the order is a limit order. *)
Definition price_iff_limit (o : Order.Row) : Prop :=
  Order.price o <> None <-> Order.type o = limit.

(** The pairs the page offers. *)
Definition tradingPairs : list string :=
  ["BTC/USDT"; "ETH/USDT"; "BNB/USDT"; "XRP/USDT"; "MOON/USDT"].

End Trade.

(** ** The Market page: the component [Market], first half of
    [src/unnamed/part_002] (lines 1-180) *)

Module Market.

Definition formatMarketCap (value : JS.number) : string :=
  if JS.ge value 1e9%float then
    "$" ++ JS.toFixed (JS.div value 1e9%float) 2 ++ "B"
  else if JS.ge value 1e6%float then
    "$" ++ JS.toFixed (JS.div value 1e6%float) 2 ++ "M"
  else if JS.ge value 1e3%float then
    "$" ++ JS.toFixed (JS.div value 1e3%float) 2 ++ "K"
  else
    "$" ++ JS.toFixed value 2.

(** [.order('market_cap', { ascending: false })]: the larger market
    capitalisation first, and a null one before all (descending order puts
    nulls first). *)
Definition market_cap_first (x y : Coin.Row) : bool :=
  match Coin.market_cap x, Coin.market_cap y with
  | None, _ => true
  | Some _, None => false
  | Some a, Some b => JS.ge a b
  end.

(** [fetchCoins]: the active coins, by market capitalisation. *)
Definition fetchCoins (d : Database) : list Coin.Row :=
  Backend.order_by market_cap_first (filter Backend.is_active_true (coins d)).

(** The cell 24h Change of a row: the arrow is the one up when
    [coin.price_change_24h >= 0], and the text is
    [Math.abs(coin.price_change_24h).toFixed(2)] followed by a percent
    sign. *)
Definition change_is_up (c : Coin.Row) : bool :=
  JS.ge (JS.to_number (Coin.price_change_24h c)) 0%float.

Definition change_text (c : Coin.Row) : string :=
  JS.toFixed (JS.abs (JS.to_number (Coin.price_change_24h c))) 2 ++ "%".

End Market.

(** ** The charts: [fetchBitcoinPrices] of [CryptoChart]
    ([src/src/components/CryptoChart.tsx]) and of [PortfolioCard]
    ([src/unnamed/part_000]) *)

Module CryptoChart.

Record Point : Type := {
  date : string;
  price : JS.number
}.

Section Formatting.

(** [new Date(timestamp).toLocaleDateString('en-US', options)], which
    depends on the time zone of the browser. *)
Variable toLocaleDateString : JS.number -> string.

(** [data.prices.slice(-days).map(([timestamp, price]) => ...)] *)
Definition points (days : nat) (prices : list (JS.number * JS.number))
  : list Point :=
  map (fun tp => {| date := toLocaleDateString (fst tp);
                    price := JS.round (snd tp) |})
      (JS.slice_last days prices).

(** The chart of the Trade page and of the dashboard: the last 30 days. *)
Definition fetchBitcoinPrices (prices : list (JS.number * JS.number))
  : list Point :=
  points 30 prices.

End Formatting.

End CryptoChart.

Module PortfolioCard.

(** The card of the dashboard: the last 180 days. *)
Definition fetchBitcoinPrices (toLocaleDateString : JS.number -> string)
    (prices : list (JS.number * JS.number)) : list CryptoChart.Point :=
  CryptoChart.points toLocaleDateString 180 prices.

End PortfolioCard.

(* ================================================================== *)
(** * The coins of the migration *)
(* ================================================================== *)

Module Migration.

(** A row inserted with the columns [(symbol, name, is_custom, price,
    logo_url)]; the other columns take their defaults, and [id] is drawn by
    the backend. *)
Definition coin (id : uuid) (symbol name : string) (is_custom : bool)
    (price : JS.number) (logo_url : option string) : Coin.Row :=
  {| Coin.id := id; Coin.symbol := symbol; Coin.name := name;
     Coin.is_custom := Some is_custom; Coin.price := Some price;
     Coin.price_change_24h := Some 0%float;
     Coin.market_cap := Some 0%float;
     Coin.volume_24h := Some 0%float;
     Coin.logo_url := logo_url; Coin.is_active := Some true |}.

(** [INSERT INTO public.coins ... VALUES ...], [id_of] giving the id drawn
    for each symbol. *)
Definition default_coins (id_of : string -> uuid) : list Coin.Row :=
  [ coin (id_of "BTC") "BTC" "Bitcoin" false 43000%float None;
    coin (id_of "ETH") "ETH" "Ethereum" false 2300%float None;
    coin (id_of "BNB") "BNB" "BNB" false 220%float None;
    coin (id_of "XRP") "XRP" "XRP" false 0.52%float None;
    coin (id_of "USDT") "USDT" "Tether" false 1.00%float None;
    coin (id_of "MOON") "MOON" "Moon Token" true 0.001%float None ].

(** The tables right after the migration. *)
Definition initial (id_of : string -> uuid) : Database :=
  {| coins := default_coins id_of; user_balances := [];
     transactions := []; orders := [] |}.

End Migration.

(* ================================================================== *)
(** * The application: the handlers that write, one after the other *)
(* ================================================================== *)

Module App.

(** One run of a handler of a page, with what it is given. *)
Inductive Action : Type :=
| deposit (user : option uuid) (new_id : uuid) (coinSymbol : string)
    (form : Assets.State)
| withdraw (user : option uuid) (new_id : uuid) (coinSymbol : string)
    (form : Assets.State)
| trade (user : option uuid) (new_id : uuid) (side : OrderSide)
    (form : Trade.State)
| approve (user : option uuid) (now : string) (transactionId : uuid)
    (decision : bool) (form : Admin.State)
| set_moon_price (user : option uuid) (form : Admin.State)
| change_moon_price (user : option uuid) (form : Admin.State).

Section WithPolicy.

Variable policy : Backend.UpdatePolicy.

(** The tables an action leaves. *)
Definition perform (a : Action) (d : Database) : Database :=
  match a with
  | deposit user new_id coinSymbol form =>
      db (Assets.handleDeposit user new_id coinSymbol form d)
  | withdraw user new_id coinSymbol form =>
      db (Assets.handleWithdraw user new_id coinSymbol form d)
  | trade user new_id side form =>
      db (Trade.handleTrade user new_id side form d)
  | approve user now transactionId decision form =>
      db (Admin.approveTransaction policy user now transactionId decision
            form d)
  | set_moon_price user form =>
      db (Admin.updateMoonPrice policy user form d)
  | change_moon_price user form =>
      db (Admin.updateMoonPriceByPercentage policy user form d)
  end.

Definition run (actions : list Action) (d : Database) : Database :=
  fold_left (fun d a => perform a d) actions d.

End WithPolicy.

End App.

(* ================================================================== *)
(** * A small database to run the handlers on *)
(* ================================================================== *)

Module Fixture.

Definition coin (id symbol name : string) (custom : bool) (p : JS.number)
  : Coin.Row :=
  {| Coin.id := id; Coin.symbol := symbol; Coin.name := name;
     Coin.is_custom := Some custom; Coin.price := Some p;
     Coin.price_change_24h := Some PrimFloat.zero;
     Coin.market_cap := Some PrimFloat.zero;
     Coin.volume_24h := Some PrimFloat.zero;
     Coin.logo_url := None; Coin.is_active := Some true |}.

(** Three of the coins the migration inserts, at its prices. *)
Definition btc : Coin.Row := coin "c-btc" "BTC" "Bitcoin" false 43000%float.
Definition usdt : Coin.Row := coin "c-usdt" "USDT" "Tether" false 1%float.
Definition moon : Coin.Row := coin "c-moon" "MOON" "Moon Token" true 0.001%float.

Definition alice : uuid := "u-alice".
Definition admin : uuid := "u-admin".

(** Alice holds 1 BTC, none of it locked, and nothing else. *)
Definition alice_btc : UserBalance.Row :=
  {| UserBalance.id := "b-1"; UserBalance.user_id := alice;
     UserBalance.coin_id := "c-btc";
     UserBalance.balance := Some 1%float;
     UserBalance.locked_balance := Some 0%float |}.

Definition db0 : Database :=
  {| coins := [btc; usdt; moon];
     user_balances := [alice_btc];
     transactions := [];
     orders := [] |}.

Definition transaction (id : uuid) (t : TransactionType) (a : JS.number)
    (s : TransactionStatus) : Transaction.Row :=
  {| Transaction.id := id; Transaction.user_id := alice;
     Transaction.coin_id := "c-btc"; Transaction.type := t;
     Transaction.amount := a; Transaction.price := None;
     Transaction.fee := Some PrimFloat.zero;
     Transaction.status := Some s;
     Transaction.transaction_hash := None;
     Transaction.wallet_address := None;
     Transaction.admin_approved_by := None;
     Transaction.admin_approved_at := None |}.

Definition with_transactions (ts : list Transaction.Row) : Database :=
  {| coins := coins db0; user_balances := user_balances db0;
     transactions := ts; orders := orders db0 |}.

(** A backend that lets every caller update every row. *)
Definition permissive : Backend.UpdatePolicy :=
  {| Backend.may_update_coin := fun _ _ => true;
     Backend.may_update_transaction := fun _ _ => true |}.

(** The migration as it stands: no UPDATE policy on either table. *)
Definition no_update_policy : Backend.UpdatePolicy :=
  {| Backend.may_update_coin := fun _ _ => false;
     Backend.may_update_transaction := fun _ _ => false |}.

Definition withdraw_form (amount address : string) : Assets.State :=
  {| Assets.depositAmount := ""; Assets.withdrawAmount := amount;
     Assets.withdrawAddress := address |}.

Definition deposit_form (amount : string) : Assets.State :=
  {| Assets.depositAmount := amount; Assets.withdrawAmount := "";
     Assets.withdrawAddress := "" |}.

Definition admin_form (change : string) : Admin.State :=
  {| Admin.moonPrice := "0.001"; Admin.priceChange := change |}.

Definition trade_form (pair : string) (t : OrderType) (amount price : string)
  : Trade.State :=
  {| Trade.coins := Trade.fetchCoins db0; Trade.selectedPair := pair;
     Trade.orderType := t; Trade.amount := amount;
     Trade.price_field := price; Trade.loading := false |}.

End Fixture.

(* ================================================================== *)
(** * Vocabulary of the statements *)
(* ================================================================== *)

(** The balance record of a user for a coin, and what it holds: 0 when
    there is no record. *)
Definition balance_row (d : Database) (user coin : uuid)
  : option UserBalance.Row :=
  find (fun b => String.eqb (UserBalance.user_id b) user
                 && String.eqb (UserBalance.coin_id b) coin)
       (user_balances d).

Definition available (d : Database) (user coin : uuid) : JS.number :=
  match balance_row d user coin with
  | Some b => JS.to_number (UserBalance.balance b)
  | None => PrimFloat.zero
  end.

Definition locked (d : Database) (user coin : uuid) : JS.number :=
  match balance_row d user coin with
  | Some b => JS.to_number (UserBalance.locked_balance b)
  | None => PrimFloat.zero
  end.

(** The column [DECIMAL(20, 8)] takes the number [x] and then holds [a]:
    [x] is finite and, rounded to eight decimals, below [10^12] in absolute
    value. *)
Definition held_as (x a : JS.number) : Prop :=
  Backend.decimal_20_8 x = inl (Some a).

Definition accepted (x : JS.number) : Prop := exists a, held_as x a.

(** The column refuses the number [x]: it is finite and, rounded to eight
    decimals, at least [10^12] in absolute value. *)
Definition refused (x : JS.number) : Prop :=
  Backend.decimal_20_8 x = inr numeric_value_out_of_range.

(** A number that is neither NaN nor an infinity. *)
Definition finite (x : JS.number) : bool :=
  match Prim2SF x with
  | S754_zero _ | S754_finite _ _ _ => true
  | _ => false
  end.

(** Both request handlers share one shape: validate the form, look the coin
    up, insert a pending transaction.  [request_outcome] says what such a run
    leaves behind, for the transaction type [t], the amount field [amount]
    and the wallet address [wallet] it was given. *)
Definition request_outcome (filled : bool) (t : TransactionType)
    (amount : string) (wallet : option string)
    (user : option uuid) (new_id : uuid) (coinSymbol : string)
    (d : Database) (o : Outcome Assets.State) : Prop :=
  (* balances, coins and orders are never written *)
  user_balances (db o) = user_balances d /\
  coins (db o) = coins d /\
  orders (db o) = orders d /\
  (* when the request goes through *)
  (succeeded o = true <->
     filled = true /\
     Backend.coin_by_symbol d coinSymbol <> None /\
     accepted (JS.parseFloat amount) /\
     user <> None /\
     Backend.transaction_id_taken d new_id = false) /\
  (* what it then adds *)
  (succeeded o = true ->
     exists uid c a,
       user = Some uid /\ Backend.coin_by_symbol d coinSymbol = Some c /\
       held_as (JS.parseFloat amount) a /\
       transactions (db o) = (transactions d ++
         [ {| Transaction.id := new_id;
              Transaction.user_id := uid;
              Transaction.coin_id := Coin.id c;
              Transaction.type := t;
              Transaction.amount := a;
              Transaction.price := None;
              Transaction.fee := Some PrimFloat.zero;
              Transaction.status := Some pending;
              Transaction.transaction_hash := None;
              Transaction.wallet_address := wallet;
              Transaction.admin_approved_by := None;
              Transaction.admin_approved_at := None |} ])%list) /\
  (* and otherwise nothing changes *)
  (succeeded o = false -> db o = d).

(** The ids [handleTrade] looks up for the selected pair. *)
Definition base_id (st : Trade.State) : option uuid :=
  Trade.find_id (Trade.coins st) (nth_error (JS.split "/" (Trade.selectedPair st)) 0).
Definition quote_id (st : Trade.State) : option uuid :=
  Trade.find_id (Trade.coins st) (nth_error (JS.split "/" (Trade.selectedPair st)) 1).

(** The form lacks a required field. *)
Definition incomplete (st : Trade.State) : bool :=
  JS.falsy (Trade.amount st)
  || (Trade.is_limit (Trade.orderType st) && JS.falsy (Trade.price_field st)).

(** The object [handleTrade] inserts for the coins [b] and [q]. *)
Definition order_of (user : option uuid) (side : OrderSide) (st : Trade.State)
    (b q : uuid) : Order.Insert :=
  {| Order.ins_user_id := user;
     Order.ins_base_coin_id := b;
     Order.ins_quote_coin_id := q;
     Order.ins_type := Trade.orderType st;
     Order.ins_side := side;
     Order.ins_amount := JS.parseFloat (Trade.amount st);
     Order.ins_price :=
       if Trade.is_limit (Trade.orderType st)
       then Some (JS.parseFloat (Trade.price_field st))
       else None |}.

(** An order that has a price is a limit order. *)
Definition price_only_if_limit (o : Order.Row) : Prop :=
  Order.price o <> None -> Order.type o = limit.

(** No active coin of the table has the symbol [s]. *)
Definition not_listed (d : Database) (s : string) : Prop :=
  forall c, In c (coins d) -> Coin.symbol c = s ->
            Coin.is_active c <> Some true.

(** The two symbols of the selected pair: what stands before the first
    slash and what stands between the first and the second, if anything. *)
Definition base_symbol (st : Trade.State) : option string :=
  nth_error (JS.split "/" (Trade.selectedPair st)) 0.
Definition quote_symbol (st : Trade.State) : option string :=
  nth_error (JS.split "/" (Trade.selectedPair st)) 1.

(** The four ways a run of [handleTrade] can end. *)
Inductive trade_run (user : option uuid) (new_id : uuid) (side : OrderSide)
    (st : Trade.State) (d : Database) : Outcome Trade.State -> Prop :=
| run_incomplete :
    incomplete st = true ->
    trade_run user new_id side st d
      {| toast := toast_error "Please fill in all required fields";
         state := st; db := d |}
| run_invalid_pair :
    incomplete st = false ->
    Trade.missing (base_id st) || Trade.missing (quote_id st) = true ->
    trade_run user new_id side st d
      {| toast := toast_caught (JsError "Invalid trading pair")
                               "Failed to place order";
         state := Trade.set_loading false st; db := d |}
| run_refused (b q : uuid) (e : PostgrestError) :
    incomplete st = false ->
    base_id st = Some b -> quote_id st = Some q ->
    Trade.missing (base_id st) || Trade.missing (quote_id st) = false ->
    Backend.insert_order user new_id (order_of user side st b q) d = inr e ->
    trade_run user new_id side st d
      {| toast := toast_caught (Postgrest e) "Failed to place order";
         state := Trade.set_loading false st; db := d |}
| run_placed (b q : uuid) (d' : Database) :
    incomplete st = false ->
    base_id st = Some b -> quote_id st = Some q ->
    Trade.missing (base_id st) || Trade.missing (quote_id st) = false ->
    Backend.insert_order user new_id (order_of user side st b q) d = inl d' ->
    trade_run user new_id side st d
      {| toast := toast_success
                    (Trade.capitalized side ++ " order placed successfully!");
         state := {| Trade.coins := Trade.coins st;
                     Trade.selectedPair := Trade.selectedPair st;
                     Trade.orderType := Trade.orderType st;
                     Trade.amount := ""; Trade.price_field := "";
                     Trade.loading := false |};
         db := d' |}.

(** ** Vocabulary of the statements on the whole application *)

(** What the application may do to a coin that is there: nothing, or set
    the price of a coin named MOON. *)
Definition coin_kept (c c' : Coin.Row) : Prop :=
  c' = c \/ (Coin.symbol c = "MOON" /\ exists p, c' = Coin.set_price p c).

(** A status an administrator's decision leaves. *)
Definition settled (s : option TransactionStatus) : Prop :=
  s = Some completed \/ s = Some rejected.

(** What the application may do to a transaction that is there: nothing, or
    record a decision; who asked, for which coin, for how much and to which
    address is not touched. *)
Definition transaction_kept (t t' : Transaction.Row) : Prop :=
  Transaction.id t' = Transaction.id t /\
  Transaction.user_id t' = Transaction.user_id t /\
  Transaction.coin_id t' = Transaction.coin_id t /\
  Transaction.type t' = Transaction.type t /\
  Transaction.amount t' = Transaction.amount t /\
  Transaction.price t' = Transaction.price t /\
  Transaction.fee t' = Transaction.fee t /\
  Transaction.transaction_hash t' = Transaction.transaction_hash t /\
  Transaction.wallet_address t' = Transaction.wallet_address t /\
  (t' = t \/
   (settled (Transaction.status t') /\
    Transaction.admin_approved_at t' <> None)).

(** A transaction as a request leaves it, or as a decision leaves it. *)
Definition pending_or_decided (t : Transaction.Row) : Prop :=
  Transaction.status t = Some pending \/ settled (Transaction.status t).

(** An order nobody has touched since it was placed. *)
Definition untouched (o : Order.Row) : Prop :=
  Order.status o = Some open /\ Order.filled_amount o = Some 0%float.

(** The keys the migration declares, on the columns of the model: primary
    keys, [UNIQUE (symbol)] on coins, [UNIQUE (user_id, coin_id)] on
    balances, and the foreign keys to [coins]. *)
Definition constraints (d : Database) : Prop :=
  NoDup (map Coin.id (coins d)) /\
  NoDup (map Coin.symbol (coins d)) /\
  NoDup (map UserBalance.id (user_balances d)) /\
  NoDup (map (fun b => (UserBalance.user_id b, UserBalance.coin_id b))
             (user_balances d)) /\
  (forall b, In b (user_balances d) ->
             Backend.has_coin d (UserBalance.coin_id b) = true) /\
  NoDup (map Transaction.id (transactions d)) /\
  (forall t, In t (transactions d) ->
             Backend.has_coin d (Transaction.coin_id t) = true) /\
  NoDup (map Order.id (orders d)) /\
  (forall o, In o (orders d) ->
             Backend.has_coin d (Order.base_coin_id o) = true /\
             Backend.has_coin d (Order.quote_coin_id o) = true).

(** The five things a handler can do to the tables. *)
Inductive written (d : Database) : Database -> Prop :=
| written_nothing : written d d
| written_transaction (new_id uid : uuid) (a : JS.number)
    (v : Transaction.Insert) :
    Backend.transaction_id_taken d new_id = false ->
    Backend.has_coin d (Transaction.ins_coin_id v) = true ->
    Transaction.ins_status v = Some pending ->
    written d
      (Backend.add_transaction d (Backend.new_transaction new_id uid a v))
| written_order (new_id uid : uuid) (a : JS.number) (p : option JS.number)
    (v : Order.Insert) :
    Backend.order_id_taken d new_id = false ->
    Backend.has_coin d (Order.ins_base_coin_id v) = true ->
    Backend.has_coin d (Order.ins_quote_coin_id v) = true ->
    written d (Backend.add_order d (Backend.new_order new_id uid a p v))
| written_decision (hit : Transaction.Row -> bool) (u : Transaction.Update) :
    Transaction.upd_status u = completed \/ Transaction.upd_status u = rejected ->
    written d
      {| coins := coins d; user_balances := user_balances d;
         transactions :=
           Backend.update_where hit (Transaction.apply_update u)
                                (transactions d);
         orders := orders d |}
| written_price (hit : Coin.Row -> bool) (p : option JS.number) :
    (forall c, hit c = true -> Coin.symbol c = "MOON") ->
    written d
      {| coins := Backend.update_where hit (Coin.set_price p) (coins d);
         user_balances := user_balances d;
         transactions := transactions d;
         orders := orders d |}.

(** Does the character occur in the string? *)
Fixpoint occurs (c : ascii) (s : string) : bool :=
  match s with
  | EmptyString => false
  | String x r => (x =? c)%char || occurs c r
  end.

(** How often it does. *)
Fixpoint occurrences (c : ascii) (s : string) : nat :=
  match s with
  | EmptyString => O
  | String x r => (if (x =? c)%char then 1 else 0) + occurrences c r
  end.

(** The form of the Trade page as it is when the page has loaded the coins
    of [d]: a market order for [amount] on [pair]. *)
Definition market_order_form (d : Database) (pair amount : string)
  : Trade.State :=
  {| Trade.coins := Trade.fetchCoins d; Trade.selectedPair := pair;
     Trade.orderType := market; Trade.amount := amount;
     Trade.price_field := ""; Trade.loading := false |}.

(** The coins the buttons of the Assets page name. *)
Definition deposit_buttons : list string := ["BTC"; "ETH"; "USDT"; "MOON"].

(** A number that is an integer: a zero, or a finite [m * 2^e] with [e] not
    negative or [2^(-e)] dividing [m]. *)
Definition whole (x : JS.number) : bool :=
  match Prim2SF x with
  | S754_zero _ => true
  | S754_finite _ m e => (0 <=? e)%Z || (Z.pos m mod 2 ^ (- e) =? 0)%Z
  | _ => false
  end.


(* ================================================================== *)
(** * Properties *)
(* ================================================================== *)

(** ** The table client *)

Lemma falsy_iff (s : string) : JS.falsy s = true <-> s = "".
Proof.
  destruct s; simpl; split; intro H; try reflexivity; discriminate.
Qed.

Lemma falsy_false_iff (s : string) : JS.falsy s = false <-> s <> "".
Proof.
  destruct s; simpl; split; intro H; try reflexivity; try discriminate.
  now elim H.
Qed.

Lemma single_some {A : Type} (rows : list A) (r : A) :
  Backend.single rows = Some r <-> rows = [r].
Proof.
  destruct rows as [|a [|b rows]]; simpl; split; intro H;
    try discriminate; now inversion H.
Qed.

Lemma coin_by_symbol_in (d : Database) (s : string) (c : Coin.Row) :
  Backend.coin_by_symbol d s = Some c ->
  In c (coins d) /\ Coin.symbol c = s.
Proof.
  unfold Backend.coin_by_symbol, Backend.coins_where_symbol.
  intro H. apply single_some in H.
  assert (Hin : In c (filter (fun c => String.eqb (Coin.symbol c) s) (coins d)))
    by (rewrite H; now left).
  apply filter_In in Hin. destruct Hin as [Hin Heq].
  split; [exact Hin | now apply String.eqb_eq].
Qed.

Lemma coin_by_symbol_has_coin (d : Database) (s : string) (c : Coin.Row) :
  Backend.coin_by_symbol d s = Some c ->
  Backend.has_coin d (Coin.id c) = true.
Proof.
  intro H. apply coin_by_symbol_in in H. destruct H as [Hin _].
  unfold Backend.has_coin. apply existsb_exists.
  exists c. split; [exact Hin | apply String.eqb_refl].
Qed.

Lemma with_check_iff (a u : option uuid) :
  Backend.with_check a u = true <-> exists i, a = Some i /\ u = Some i.
Proof.
  unfold Backend.with_check. split.
  - destruct a as [a|], u as [u|]; intro H; try discriminate.
    apply String.eqb_eq in H. subst. now exists u.
  - intros [i [-> ->]]. apply String.eqb_refl.
Qed.

(** *** The column [DECIMAL(20, 8)] *)

(** The only error of the conversion is the overflow. *)
Lemma decimal_20_8_error (x : JS.number) (e : PostgrestError) :
  Backend.decimal_20_8 x = inr e -> e = numeric_value_out_of_range.
Proof.
  unfold Backend.decimal_20_8.
  destruct (JS.stringify x) as [|neg s e10]; [discriminate|].
  cbv zeta. destruct (10 ^ 20 <=? Backend.units s e10)%Z; [|discriminate].
  intro H. now inversion H.
Qed.

Lemma stringify_null (x : JS.number) :
  JS.stringify x = JS.json_null <-> finite x = false.
Proof.
  unfold JS.stringify, finite.
  destruct (Prim2SF x) as [sg| sg | |sg m e]; try (split; [reflexivity|]);
    try (split; discriminate); try reflexivity.
  destruct (JS.shortest_digits m e) as [[s k] n]. split; discriminate.
Qed.

(** The column is left null exactly for the numbers that are not finite,
    which travel as [null]. *)
Lemma decimal_20_8_null (x : JS.number) :
  Backend.decimal_20_8 x = inl None <-> finite x = false.
Proof.
  rewrite <- stringify_null. unfold Backend.decimal_20_8.
  destruct (JS.stringify x) as [|neg s e10].
  - split; reflexivity.
  - cbv zeta. destruct (10 ^ 20 <=? Backend.units s e10)%Z;
      split; discriminate.
Qed.

Lemma held_as_finite (x a : JS.number) : held_as x a -> finite x = true.
Proof.
  unfold held_as. intro H.
  destruct (finite x) eqn:Hf; [reflexivity|].
  apply decimal_20_8_null in Hf. congruence.
Qed.

(** What the column makes of a number: it holds a value, is left null, or
    refuses. *)
Lemma decimal_20_8_cases (x : JS.number) :
  (exists a, held_as x a) \/
  (Backend.decimal_20_8 x = inl None /\ finite x = false) \/
  (Backend.decimal_20_8 x = inr numeric_value_out_of_range /\
   finite x = true).
Proof.
  unfold held_as.
  destruct (Backend.decimal_20_8 x) as [[a|]|e] eqn:H.
  - left. now exists a.
  - right. left. split; [reflexivity | now apply decimal_20_8_null].
  - right. right. rewrite (decimal_20_8_error x e H). split; [reflexivity|].
    destruct (finite x) eqn:Hf; [reflexivity|].
    apply decimal_20_8_null in Hf. congruence.
Qed.

(** An insert into [transactions] is accepted exactly when the column takes
    the amount, the caller is signed in and writes a row of their own, the
    id is not taken and the coin exists; it then appends the new row and
    touches nothing else. *)
Lemma insert_transaction_inl (a : option uuid) (new_id : uuid)
    (v : Transaction.Insert) (d d' : Database) :
  Backend.insert_transaction a new_id v d = inl d' <->
  exists uid amount,
    a = Some uid /\ Transaction.ins_user_id v = Some uid /\
    held_as (Transaction.ins_amount v) amount /\
    Backend.transaction_id_taken d new_id = false /\
    Backend.has_coin d (Transaction.ins_coin_id v) = true /\
    d' = Backend.add_transaction d
           (Backend.new_transaction new_id uid amount v).
Proof.
  unfold Backend.insert_transaction, held_as. split.
  - destruct (Backend.decimal_20_8 (Transaction.ins_amount v))
      as [amount|e]; [|discriminate].
    destruct (Backend.with_check a (Transaction.ins_user_id v)) eqn:Hc;
      [|discriminate]. simpl.
    apply with_check_iff in Hc. destruct Hc as [i [Ha Hu]]. rewrite Hu.
    destruct amount as [amount|]; [|discriminate].
    destruct (Backend.transaction_id_taken d new_id); [discriminate|].
    destruct (Backend.has_coin d (Transaction.ins_coin_id v)); [|discriminate].
    simpl. intro H. inversion H. exists i, amount. repeat split; assumption.
  - intros [uid [amount [Ha [Hu [Hamount [Hfree [Hcoin Hd]]]]]]].
    assert (Hc : Backend.with_check a (Transaction.ins_user_id v) = true)
      by (apply with_check_iff; now exists uid).
    rewrite Hamount, Hc, Hu, Hfree, Hcoin, Hd. reflexivity.
Qed.

Lemma insert_order_inl (a : option uuid) (new_id : uuid)
    (v : Order.Insert) (d d' : Database) :
  Backend.insert_order a new_id v d = inl d' <->
  exists uid amount price,
    a = Some uid /\ Order.ins_user_id v = Some uid /\
    held_as (Order.ins_amount v) amount /\
    Backend.nullable_decimal_20_8 (Order.ins_price v) = inl price /\
    Backend.order_id_taken d new_id = false /\
    Backend.has_coin d (Order.ins_base_coin_id v) = true /\
    Backend.has_coin d (Order.ins_quote_coin_id v) = true /\
    d' = Backend.add_order d (Backend.new_order new_id uid amount price v).
Proof.
  unfold Backend.insert_order, held_as. split.
  - destruct (Backend.decimal_20_8 (Order.ins_amount v))
      as [amount|e]; [|discriminate].
    destruct (Backend.nullable_decimal_20_8 (Order.ins_price v))
      as [price|e]; [|discriminate].
    destruct (Backend.with_check a (Order.ins_user_id v)) eqn:Hc;
      [|discriminate]. simpl.
    apply with_check_iff in Hc. destruct Hc as [i [Ha Hu]]. rewrite Hu.
    destruct amount as [amount|]; [|discriminate].
    destruct (Backend.order_id_taken d new_id); [discriminate|].
    destruct (Backend.has_coin d (Order.ins_base_coin_id v)); [|discriminate].
    destruct (Backend.has_coin d (Order.ins_quote_coin_id v)); [|discriminate].
    simpl. intro H. inversion H. exists i, amount, price.
    repeat split; assumption.
  - intros [uid [amount [price [Ha [Hu [Hamount [Hprice [Hfree [Hb [Hq Hd]]]]]]]]]].
    assert (Hc : Backend.with_check a (Order.ins_user_id v) = true)
      by (apply with_check_iff; now exists uid).
    rewrite Hamount, Hprice, Hc, Hu, Hfree, Hb, Hq, Hd. reflexivity.
Qed.

(** ** JavaScript numbers on examples *)

Example parseFloat_examples :
  map JS.parseFloat ["5"; "0.1"; "-2.5"; "1e3"; "  12px"; ".5"; "5."; "-0"; "1e400"]
  = [ 5%float; 0.1%float; (-2.5)%float; 1000%float; 12%float; 0.5%float;
      5%float; (-0)%float; PrimFloat.infinity ].
Proof. vm_compute. reflexivity. Qed.

Example parseFloat_no_literal :
  map (fun s => JS.NumberToString (JS.parseFloat s)) [""; "abc"; "."; "-"; "e5"]
  = ["NaN"; "NaN"; "NaN"; "NaN"; "NaN"].
Proof. vm_compute. reflexivity. Qed.

Example NumberToString_examples :
  map JS.NumberToString
    [ 0.1%float; JS.add 0.1%float 0.2%float; 43000%float; 0.000001%float;
      1e-7%float; 123456789012345680000%float; 1e21%float; (-2.5)%float ]
  = [ "0.1"; "0.30000000000000004"; "43000"; "0.000001"; "1e-7";
      "123456789012345680000"; "1e+21"; "-2.5" ].
Proof. vm_compute. reflexivity. Qed.

Example toFixed_examples :
  map (fun x => JS.toFixed x 2)
    [ 1234.5678%float; 1.005%float; 8.345%float; 0%float; (-0.001)%float;
      999.995%float; 1e20%float; 1e21%float ]
  = [ "1234.57"; "1.00"; "8.35"; "0.00"; "-0.00"; "1000.00";
      "100000000000000000000.00"; "1e+21" ].
Proof. vm_compute. reflexivity. Qed.

Example split_examples :
  map (JS.split "/") ["BTC/USDT"; "BTC"; ""; "a/b/c"]
  = [ ["BTC"; "USDT"]; ["BTC"]; [""]; ["a"; "b"; "c"] ].
Proof. reflexivity. Qed.

(** ** Assets: deposit and withdrawal requests *)

Lemma request_outcome_of_attempt (filled : bool) (t : TransactionType)
    (amount : string) (wallet : option string)
    (user : option uuid) (new_id : uuid) (coinSymbol : string)
    (d : Database) (ok_text fallback : string) (st st' : Assets.State) :
  filled = true ->
  let attempt :=
    coinData <- require (Backend.coin_by_symbol d coinSymbol) "Coin not found" ;;
    throw_if_error
      (Backend.insert_transaction user new_id
         {| Transaction.ins_user_id := user;
            Transaction.ins_coin_id := Coin.id coinData;
            Transaction.ins_type := t;
            Transaction.ins_amount := JS.parseFloat amount;
            Transaction.ins_status := Some pending;
            Transaction.ins_wallet_address := wallet |} d) in
  request_outcome filled t amount wallet user new_id coinSymbol d
    match attempt with
    | Normal d' => {| toast := toast_success ok_text; state := st'; db := d' |}
    | Throw e => {| toast := toast_caught e fallback; state := st; db := d |}
    end.
Proof.
  intros Hf attempt. subst attempt filled. unfold request_outcome, succeeded.
  destruct (Backend.coin_by_symbol d coinSymbol) as [c|] eqn:Hc; simpl.
  2:{ repeat split; try reflexivity; try discriminate.
      intros [_ [H _]]. now elim H. }
  match goal with
  | |- context [Backend.insert_transaction ?a ?i ?v ?d] =>
      destruct (Backend.insert_transaction a i v d) as [d'|e] eqn:Hi
  end; simpl.
  - apply insert_transaction_inl in Hi.
    destruct Hi as [uid [a [Hu [_ [Ha [Hfresh [_ Hd]]]]]]]. simpl in *.
    subst d' user.
    repeat split; try reflexivity; try discriminate; auto.
    + now exists a.
    + intros _. exists uid, c, a. repeat split. exact Ha.
  - repeat split; try reflexivity; try discriminate.
    intros [_ [_ [[a Ha] [Hu Hfresh]]]]. exfalso.
    destruct user as [uid|]; [|now elim Hu].
    assert (Hok : Backend.insert_transaction (Some uid) new_id
              {| Transaction.ins_user_id := Some uid;
                 Transaction.ins_coin_id := Coin.id c;
                 Transaction.ins_type := t;
                 Transaction.ins_amount := JS.parseFloat amount;
                 Transaction.ins_status := Some pending;
                 Transaction.ins_wallet_address := wallet |} d
            = inl (Backend.add_transaction d
                     (Backend.new_transaction new_id uid a
                        {| Transaction.ins_user_id := Some uid;
                           Transaction.ins_coin_id := Coin.id c;
                           Transaction.ins_type := t;
                           Transaction.ins_amount := JS.parseFloat amount;
                           Transaction.ins_status := Some pending;
                           Transaction.ins_wallet_address := wallet |}))).
    { apply insert_transaction_inl. exists uid, a. simpl.
      repeat split; auto. eapply coin_by_symbol_has_coin; eauto. }
    congruence.
Qed.

Lemma request_outcome_not_filled (t : TransactionType)
    (amount : string) (wallet : option string)
    (user : option uuid) (new_id : uuid) (coinSymbol : string)
    (d : Database) (text : string) (st : Assets.State) :
  request_outcome false t amount wallet user new_id coinSymbol d
    {| toast := toast_error text; state := st; db := d |}.
Proof.
  unfold request_outcome, succeeded. simpl.
  repeat split; try reflexivity; try discriminate.
  intros [H _]. discriminate.
Qed.

Lemma insert_transaction_with_balances (a : option uuid) (new_id : uuid)
    (v : Transaction.Insert) (d : Database)
    (balances : list UserBalance.Row) :
  Backend.insert_transaction a new_id v (with_balances d balances)
  = match Backend.insert_transaction a new_id v d with
    | inl d' => inl (with_balances d' balances)
    | inr e => inr e
    end.
Proof.
  unfold Backend.insert_transaction, Backend.transaction_id_taken,
    Backend.has_coin. simpl.
  destruct (Backend.decimal_20_8 (Transaction.ins_amount v)) as [amount|e];
    [|reflexivity].
  destruct (Backend.with_check a (Transaction.ins_user_id v)); simpl;
    [|reflexivity].
  destruct (Transaction.ins_user_id v); [|reflexivity].
  destruct amount; [|reflexivity].
  repeat match goal with
         | |- context [if ?b then _ else _] => destruct b; simpl
         end; reflexivity.
Qed.

(** C7, as the code has it.  [handleDeposit] never writes a balance:
    whatever the form, the user and the tables, [user_balances] (hence every
    available and locked balance of every user and asset) is the same
    afterwards, and so are [coins] and [orders].  It goes through exactly
    when an amount is entered that the column takes, the coin exists, the
    user is signed in and the new id is free; it then appends one
    transaction, of type deposit and status pending, with no approval
    recorded, its amount as the column holds it.  Otherwise the tables are
    unchanged.  No approval credits the deposit afterwards: whatever the
    administrator decides on whatever transaction, the balances are still
    what they were before the deposit. *)
Theorem handleDeposit_pending_and_balances_untouched :
  forall (user : option uuid) (new_id : uuid) (coinSymbol : string)
         (st : Assets.State) (d : Database),
    let o := Assets.handleDeposit user new_id coinSymbol st d in
    user_balances (db o) = user_balances d /\
    coins (db o) = coins d /\
    orders (db o) = orders d /\
    (succeeded o = true <->
       Assets.depositAmount st <> "" /\
       Backend.coin_by_symbol d coinSymbol <> None /\
       accepted (JS.parseFloat (Assets.depositAmount st)) /\
       user <> None /\
       Backend.transaction_id_taken d new_id = false) /\
    (succeeded o = true ->
       exists uid c t,
         user = Some uid /\ Backend.coin_by_symbol d coinSymbol = Some c /\
         transactions (db o) = (transactions d ++ [t])%list /\
         Transaction.status t = Some pending /\
         Transaction.type t = tx_deposit /\
         Transaction.id t = new_id /\
         Transaction.user_id t = uid /\
         Transaction.coin_id t = Coin.id c /\
         held_as (JS.parseFloat (Assets.depositAmount st))
                 (Transaction.amount t) /\
         Transaction.admin_approved_by t = None /\
         Transaction.admin_approved_at t = None) /\
    (succeeded o = false -> db o = d) /\
    (forall (policy : Backend.UpdatePolicy) (admin : option uuid)
            (now : string) (transactionId : uuid) (approve : bool)
            (form : Admin.State),
       user_balances
         (db (Admin.approveTransaction policy admin now transactionId approve
                form (db o)))
       = user_balances d).
Proof.
  intros user new_id coinSymbol st d o.
  assert (H : request_outcome (negb (JS.falsy (Assets.depositAmount st)))
                tx_deposit (Assets.depositAmount st)
                (Assets.property Assets.walletAddresses coinSymbol)
                user new_id coinSymbol d o).
  { subst o. unfold Assets.handleDeposit.
    destruct (JS.falsy (Assets.depositAmount st)) eqn:Hf; simpl negb.
    - apply request_outcome_not_filled.
    - now apply request_outcome_of_attempt. }
  destruct H as [Hb [Hc [Ho [Hiff [Hrow Hfail]]]]].
  split; [exact Hb|]. split; [exact Hc|]. split; [exact Ho|].
  split; [|split; [|split; [exact Hfail|]]].
  - rewrite Hiff, negb_true_iff, falsy_false_iff. reflexivity.
  - intro Hs. destruct (Hrow Hs) as [uid [c [a [Hu [Hcoin [Ha Ht]]]]]].
    eexists uid, c, _. repeat split; try eassumption; try reflexivity.
  - intros policy admin now transactionId approve form.
    unfold Admin.approveTransaction. simpl. exact Hb.
Qed.

(** The theorem above on the fixture.  Alice deposits 0.123456789 BTC: the
    request goes through and the transaction is pending, with the amount
    0.12345679 the column holds.  A deposit of 1000000000000 does not go
    through, and neither does a deposit by nobody. *)
Lemma handleDeposit_pending_and_balances_untouched_witness :
  let o := Assets.handleDeposit (Some Fixture.alice) "tx-1" "BTC"
             (Fixture.deposit_form "0.123456789") Fixture.db0 in
  let o' := Assets.handleDeposit (Some Fixture.alice) "tx-1" "BTC"
              (Fixture.deposit_form "1000000000000") Fixture.db0 in
  let o'' := Assets.handleDeposit None "tx-1" "BTC"
               (Fixture.deposit_form "1") Fixture.db0 in
  succeeded o = true /\
  (exists t,
     transactions (db o) = [t] /\
     Transaction.status t = Some pending /\
     Transaction.type t = tx_deposit /\
     Transaction.amount t = 0.12345679%float) /\
  user_balances (db o) = [Fixture.alice_btc] /\
  succeeded o' = false /\ db o' = Fixture.db0 /\
  succeeded o'' = false /\ db o'' = Fixture.db0.
Proof.
  intros o o' o''.
  destruct (handleDeposit_pending_and_balances_untouched
              (Some Fixture.alice) "tx-1" "BTC"
              (Fixture.deposit_form "0.123456789") Fixture.db0)
    as [Hb [_ [_ [Hiff [Hrow _]]]]].
  fold o in Hb, Hiff, Hrow.
  assert (Hheld : held_as (JS.parseFloat "0.123456789") 0.12345679%float)
    by (vm_compute; reflexivity).
  assert (Hs : succeeded o = true).
  { apply Hiff. split; [discriminate|]. split; [discriminate|].
    split; [now exists 0.12345679%float|]. split; [discriminate|].
    reflexivity. }
  split; [exact Hs|].
  destruct (Hrow Hs) as [uid [c [t [_ [_ [Ht [Hst [Hty [_ [_ [_ [Ha _]]]]]]]]]]]].
  split.
  { exists t. split; [exact Ht|]. split; [exact Hst|]. split; [exact Hty|].
    unfold held_as in Ha, Hheld. simpl in Ha. congruence. }
  split; [exact Hb|].
  destruct (handleDeposit_pending_and_balances_untouched
              (Some Fixture.alice) "tx-1" "BTC"
              (Fixture.deposit_form "1000000000000") Fixture.db0)
    as [_ [_ [_ [Hiff' [_ [Hfail' _]]]]]].
  fold o' in Hiff', Hfail'.
  assert (Hs' : succeeded o' = false).
  { destruct (succeeded o') eqn:E; [|reflexivity].
    destruct (proj1 Hiff' eq_refl) as [_ [_ [[a Ha'] _]]].
    vm_compute in Ha'. discriminate. }
  split; [exact Hs'|]. split; [exact (Hfail' Hs')|].
  destruct (handleDeposit_pending_and_balances_untouched
              None "tx-1" "BTC" (Fixture.deposit_form "1") Fixture.db0)
    as [_ [_ [_ [Hiff'' [_ [Hfail'' _]]]]]].
  fold o'' in Hiff'', Hfail''.
  assert (Hs'' : succeeded o'' = false).
  { destruct (succeeded o'') eqn:E; [|reflexivity].
    destruct (proj1 Hiff'' eq_refl) as [_ [_ [_ [Hu _]]]]. now elim Hu. }
  split; [exact Hs''|]. exact (Hfail'' Hs'').
Defined.

(** C7 fails on the code in its last clause.  Alice has 1 BTC available and
    deposits 10; the administrator approves the deposit, which is then
    completed.  Alice has 1 BTC available as before, not 11: nothing in the
    repository credits a deposit, on approval or later. *)
Lemma handleDeposit_approved_is_not_credited :
  let o1 := Assets.handleDeposit (Some Fixture.alice) "tx-1" "BTC"
              (Fixture.deposit_form "10") Fixture.db0 in
  let o2 := Admin.approveTransaction Fixture.permissive (Some Fixture.admin)
              "2026-01-01T00:00:00.000Z" "tx-1" true (Fixture.admin_form "")
              (db o1) in
  available Fixture.db0 Fixture.alice "c-btc" = 1%float /\
  toast o1 = toast_success
               "Deposit request submitted! Please wait for admin approval." /\
  map (fun t => (Transaction.type t, Transaction.status t, Transaction.amount t))
      (transactions (db o1))
  = [(tx_deposit, Some pending, 10%float)] /\
  toast o2 = toast_success "Transaction approved successfully!" /\
  map (fun t => (Transaction.status t, Transaction.admin_approved_by t))
      (transactions (db o2))
  = [(Some completed, Some Fixture.admin)] /\
  available (db o2) Fixture.alice "c-btc" = 1%float /\
  JS.strict_eq (available (db o2) Fixture.alice "c-btc")
               (JS.add (available Fixture.db0 Fixture.alice "c-btc")
                       10%float) = false /\
  user_balances (db o2) = user_balances Fixture.db0.
Proof.
  vm_compute. repeat split.
Qed.

(** C1, as the code has it.  [handleWithdraw] reads no balance and writes
    none: it goes through exactly when an amount that the column takes and
    an address are entered, the coin exists, the user is signed in and the
    new id is free, whatever the user holds; it then appends one
    transaction, of type withdrawal and status pending, its amount as the
    column holds it, and [user_balances] stays as it was (nothing moves from
    available to locked).  Otherwise the tables are unchanged. *)
Theorem handleWithdraw_pending_without_lock :
  forall (user : option uuid) (new_id : uuid) (coinSymbol : string)
         (st : Assets.State) (d : Database),
    let o := Assets.handleWithdraw user new_id coinSymbol st d in
    user_balances (db o) = user_balances d /\
    coins (db o) = coins d /\
    orders (db o) = orders d /\
    (succeeded o = true <->
       (Assets.withdrawAmount st <> "" /\ Assets.withdrawAddress st <> "") /\
       Backend.coin_by_symbol d coinSymbol <> None /\
       accepted (JS.parseFloat (Assets.withdrawAmount st)) /\
       user <> None /\
       Backend.transaction_id_taken d new_id = false) /\
    (succeeded o = true ->
       exists uid c t,
         user = Some uid /\ Backend.coin_by_symbol d coinSymbol = Some c /\
         transactions (db o) = (transactions d ++ [t])%list /\
         Transaction.status t = Some pending /\
         Transaction.type t = tx_withdrawal /\
         Transaction.id t = new_id /\
         Transaction.user_id t = uid /\
         Transaction.coin_id t = Coin.id c /\
         held_as (JS.parseFloat (Assets.withdrawAmount st))
                 (Transaction.amount t) /\
         Transaction.wallet_address t = Some (Assets.withdrawAddress st)) /\
    (succeeded o = false -> db o = d) /\
    (forall balances : list UserBalance.Row,
       toast (Assets.handleWithdraw user new_id coinSymbol st
                (with_balances d balances))
       = toast o).
Proof.
  intros user new_id coinSymbol st d o.
  assert (H : request_outcome
                (negb (JS.falsy (Assets.withdrawAmount st)
                       || JS.falsy (Assets.withdrawAddress st)))
                tx_withdrawal (Assets.withdrawAmount st)
                (Some (Assets.withdrawAddress st))
                user new_id coinSymbol d o).
  { subst o. unfold Assets.handleWithdraw.
    destruct (JS.falsy (Assets.withdrawAmount st)
              || JS.falsy (Assets.withdrawAddress st)) eqn:Hf; simpl negb.
    - apply request_outcome_not_filled.
    - now apply request_outcome_of_attempt. }
  assert (Hfilled :
            negb (JS.falsy (Assets.withdrawAmount st)
                  || JS.falsy (Assets.withdrawAddress st)) = true <->
            Assets.withdrawAmount st <> "" /\ Assets.withdrawAddress st <> "").
  { rewrite negb_true_iff, orb_false_iff, !falsy_false_iff. tauto. }
  destruct H as [Hb [Hc [Ho [Hiff [Hrow Hfail]]]]].
  split; [exact Hb|]. split; [exact Hc|]. split; [exact Ho|].
  split; [|split; [|split; [exact Hfail|]]].
  - rewrite Hiff, Hfilled. reflexivity.
  - intro Hs. destruct (Hrow Hs) as [uid [c [a [Hu [Hcoin [Ha Ht]]]]]].
    eexists uid, c, _. repeat split; try eassumption; try reflexivity.
  - intro balances. subst o. unfold Assets.handleWithdraw.
    destruct (JS.falsy (Assets.withdrawAmount st)
              || JS.falsy (Assets.withdrawAddress st)); [reflexivity|].
    change (Backend.coin_by_symbol (with_balances d balances) coinSymbol)
      with (Backend.coin_by_symbol d coinSymbol).
    destruct (Backend.coin_by_symbol d coinSymbol) as [c|]; [|reflexivity].
    cbn [bind require].
    rewrite insert_transaction_with_balances.
    match goal with
    | |- context [Backend.insert_transaction ?a ?i ?v d] =>
        destruct (Backend.insert_transaction a i v d)
    end; reflexivity.
Qed.

(** The theorem above on the fixture.  Alice asks to withdraw 0.123456789
    BTC: the request goes through and the transaction is pending, with the
    amount 0.12345679 the column holds, and her balance row is as it was.  A
    request for 1000000000000 does not go through. *)
Lemma handleWithdraw_pending_without_lock_witness :
  let o := Assets.handleWithdraw (Some Fixture.alice) "tx-1" "BTC"
             (Fixture.withdraw_form "0.123456789" "bc1qxyz") Fixture.db0 in
  let o' := Assets.handleWithdraw (Some Fixture.alice) "tx-1" "BTC"
              (Fixture.withdraw_form "1000000000000" "bc1qxyz")
              Fixture.db0 in
  succeeded o = true /\
  (exists t,
     transactions (db o) = [t] /\
     Transaction.status t = Some pending /\
     Transaction.type t = tx_withdrawal /\
     Transaction.amount t = 0.12345679%float) /\
  user_balances (db o) = [Fixture.alice_btc] /\
  succeeded o' = false /\ db o' = Fixture.db0.
Proof.
  intros o o'.
  destruct (handleWithdraw_pending_without_lock
              (Some Fixture.alice) "tx-1" "BTC"
              (Fixture.withdraw_form "0.123456789" "bc1qxyz") Fixture.db0)
    as [Hb [_ [_ [Hiff [Hrow _]]]]].
  fold o in Hb, Hiff, Hrow.
  assert (Hheld : held_as (JS.parseFloat "0.123456789") 0.12345679%float)
    by (vm_compute; reflexivity).
  assert (Hs : succeeded o = true).
  { apply Hiff. split; [split; discriminate|]. split; [discriminate|].
    split; [now exists 0.12345679%float|]. split; [discriminate|].
    reflexivity. }
  split; [exact Hs|].
  destruct (Hrow Hs) as [uid [c [t [_ [_ [Ht [Hst [Hty [_ [_ [_ [Ha _]]]]]]]]]]]].
  split.
  { exists t. split; [exact Ht|]. split; [exact Hst|]. split; [exact Hty|].
    unfold held_as in Ha, Hheld. simpl in Ha. congruence. }
  split; [exact Hb|].
  destruct (handleWithdraw_pending_without_lock
              (Some Fixture.alice) "tx-1" "BTC"
              (Fixture.withdraw_form "1000000000000" "bc1qxyz") Fixture.db0)
    as [_ [_ [_ [Hiff' [_ [Hfail' _]]]]]].
  fold o' in Hiff', Hfail'.
  assert (Hs' : succeeded o' = false).
  { destruct (succeeded o') eqn:E; [|reflexivity].
    destruct (proj1 Hiff' eq_refl) as [_ [_ [[a Ha'] _]]].
    vm_compute in Ha'. discriminate. }
  split; [exact Hs' | exact (Hfail' Hs')].
Defined.

(** C1 fails on the code.  Alice has 1 BTC available, none locked, and asks
    to withdraw 5: the request is accepted and stored as pending, nothing is
    locked, and a second request for 5 against the same balance is accepted
    as well. *)
Lemma handleWithdraw_accepts_more_than_available :
  let form := Fixture.withdraw_form "5" "bc1qxyz" in
  let o1 := Assets.handleWithdraw (Some Fixture.alice) "tx-1" "BTC" form
              Fixture.db0 in
  let o2 := Assets.handleWithdraw (Some Fixture.alice) "tx-2" "BTC" form
              (db o1) in
  available Fixture.db0 Fixture.alice "c-btc" = 1%float /\
  JS.parseFloat "5" = 5%float /\
  JS.ge (available Fixture.db0 Fixture.alice "c-btc") (JS.parseFloat "5") = false /\
  toast o1 = toast_success
               "Withdrawal request submitted! Please wait for admin approval." /\
  map (fun t => (Transaction.type t, Transaction.status t, Transaction.amount t))
      (transactions (db o1))
  = [(tx_withdrawal, Some pending, 5%float)] /\
  available (db o1) Fixture.alice "c-btc" = 1%float /\
  locked (db o1) Fixture.alice "c-btc" = 0%float /\
  toast o2 = toast o1 /\
  map Transaction.id (transactions (db o2)) = ["tx-1"; "tx-2"] /\
  user_balances (db o2) = user_balances Fixture.db0.
Proof.
  vm_compute. repeat split.
Qed.

(** ** Admin: approval of transactions *)

Lemma nth_error_update_where {A : Type} (hit : A -> bool) (f : A -> A)
    (rows : list A) (i : nat) (r : A) :
  nth_error rows i = Some r ->
  nth_error (Backend.update_where hit f rows) i
  = Some (if hit r then f r else r).
Proof.
  intro H. unfold Backend.update_where.
  rewrite nth_error_map, H. reflexivity.
Qed.

Lemma in_update_where {A : Type} (hit : A -> bool) (f : A -> A)
    (rows : list A) (r : A) :
  In r rows -> In (if hit r then f r else r) (Backend.update_where hit f rows).
Proof.
  intro H. unfold Backend.update_where.
  apply (in_map (fun r => if hit r then f r else r)) in H. exact H.
Qed.

(** C2, as the code has it.  [approveTransaction] always reports success and
    changes nothing but rows of [transactions]: no balance is credited,
    released or unlocked, for a deposit or a withdrawal, on approval or on
    rejection.  Row by row, a transaction whose id is the given one, and
    which the backend lets the caller update, gets the status completed
    (approve) or rejected (reject), [admin_approved_at] set to the time of
    the call and [admin_approved_by] set to the signed-in user, its other
    columns kept; every other row is unchanged. *)
Theorem approveTransaction_sets_status_only :
  forall (policy : Backend.UpdatePolicy) (user : option uuid) (now : string)
         (transactionId : uuid) (approve : bool) (st : Admin.State)
         (d : Database),
    let o := Admin.approveTransaction policy user now transactionId approve st d in
    let decided := if approve then completed else rejected in
    succeeded o = true /\
    user_balances (db o) = user_balances d /\
    coins (db o) = coins d /\
    orders (db o) = orders d /\
    List.length (transactions (db o)) = List.length (transactions d) /\
    forall (i : nat) (t : Transaction.Row),
      nth_error (transactions d) i = Some t ->
      exists t',
        nth_error (transactions (db o)) i = Some t' /\
        if String.eqb (Transaction.id t) transactionId
           && Backend.may_update_transaction policy user t
        then
          Transaction.status t' = Some decided /\
          Transaction.admin_approved_at t' = Some now /\
          Transaction.admin_approved_by t'
          = match user with
            | Some a => Some a
            | None => Transaction.admin_approved_by t
            end /\
          Transaction.id t' = Transaction.id t /\
          Transaction.user_id t' = Transaction.user_id t /\
          Transaction.coin_id t' = Transaction.coin_id t /\
          Transaction.type t' = Transaction.type t /\
          Transaction.amount t' = Transaction.amount t
        else t' = t.
Proof.
  intros. subst o decided. unfold Admin.approveTransaction, succeeded. simpl.
  repeat (split; [reflexivity|]).
  split.
  - unfold Backend.update_where. apply length_map.
  - intros i t Ht. eexists. split.
    + apply nth_error_update_where. exact Ht.
    + simpl.
      destruct (String.eqb (Transaction.id t) transactionId
                && Backend.may_update_transaction policy user t);
        [|reflexivity].
      simpl. repeat split; reflexivity.
Qed.

(** C3, as the code has it.  [approveTransaction] does not look at the
    current status.  Called on a transaction that is already completed,
    rejected or cancelled it reports success, not an error; where the backend
    lets the caller update the row, the row leaves with the status of the
    new decision and the new attribution; no balance changes, so a second
    approval has no balance effect either. *)
Theorem approveTransaction_has_no_status_guard :
  forall (policy : Backend.UpdatePolicy) (user : option uuid) (now : string)
         (transactionId : uuid) (approve : bool) (st : Admin.State)
         (d : Database) (t : Transaction.Row),
    In t (transactions d) ->
    Transaction.id t = transactionId ->
    Transaction.status t <> Some pending ->
    let o := Admin.approveTransaction policy user now transactionId approve st d in
    let u := {| Transaction.upd_status := if approve then completed else rejected;
                Transaction.upd_admin_approved_by := user;
                Transaction.upd_admin_approved_at := now |} in
    toast o = toast_success
                ("Transaction " ++ (if approve then "approved" else "rejected")
                 ++ " successfully!") /\
    user_balances (db o) = user_balances d /\
    In (if Backend.may_update_transaction policy user t
        then Transaction.apply_update u t else t)
       (transactions (db o)) /\
    Transaction.status (Transaction.apply_update u t)
    = Some (if approve then completed else rejected).
Proof.
  intros policy user now transactionId approve st d t Hin Hid _ o u.
  subst o. unfold Admin.approveTransaction. simpl.
  repeat (split; [reflexivity|]). split; [|reflexivity].
  apply (in_update_where
           (fun t => String.eqb (Transaction.id t) transactionId
                     && Backend.may_update_transaction policy user t)
           (Transaction.apply_update u)) in Hin.
  rewrite Hid, String.eqb_refl in Hin. exact Hin.
Qed.

(** C2 fails on the code.  Alice has 1 BTC available.  A pending deposit of
    10 BTC is approved: the transaction is completed, and Alice still has
    1 BTC available, not 11.  A pending withdrawal of 1 BTC is rejected: the
    transaction is rejected, and her available and locked balances are what
    they were. *)
Lemma approveTransaction_leaves_balances :
  let now := "2026-01-01T00:00:00.000Z" in
  let d := Fixture.with_transactions
             [ Fixture.transaction "tx-1" tx_deposit 10%float pending;
               Fixture.transaction "tx-2" tx_withdrawal 1%float pending ] in
  let o1 := Admin.approveTransaction Fixture.permissive (Some Fixture.admin)
              now "tx-1" true (Fixture.admin_form "") d in
  let o2 := Admin.approveTransaction Fixture.permissive (Some Fixture.admin)
              now "tx-2" false (Fixture.admin_form "") (db o1) in
  map Transaction.status (transactions (db o1)) = [Some completed; Some pending] /\
  available d Fixture.alice "c-btc" = 1%float /\
  available (db o1) Fixture.alice "c-btc" = 1%float /\
  JS.strict_eq (available (db o1) Fixture.alice "c-btc")
               (JS.add (available d Fixture.alice "c-btc") 10%float) = false /\
  map Transaction.status (transactions (db o2)) = [Some completed; Some rejected] /\
  available (db o2) Fixture.alice "c-btc" = 1%float /\
  locked (db o2) Fixture.alice "c-btc" = locked d Fixture.alice "c-btc" /\
  user_balances (db o2) = user_balances d.
Proof.
  vm_compute. repeat split.
Qed.

(** C3 fails on the code.  A deposit that is already completed is rejected
    afterwards: the call reports success, and the transaction is now
    rejected, attributed to the admin of the second call.  Where the backend
    lets nobody update the row, the call reports success all the same. *)
Lemma approveTransaction_overwrites_completed :
  let now := "2026-01-02T00:00:00.000Z" in
  let d := Fixture.with_transactions
             [ Fixture.transaction "tx-1" tx_deposit 10%float completed ] in
  let o := Admin.approveTransaction Fixture.permissive (Some Fixture.admin)
             now "tx-1" false (Fixture.admin_form "") d in
  let o' := Admin.approveTransaction Fixture.no_update_policy
              (Some Fixture.admin) now "tx-1" false (Fixture.admin_form "") d in
  map Transaction.status (transactions d) = [Some completed] /\
  toast o = toast_success "Transaction rejected successfully!" /\
  map Transaction.status (transactions (db o)) = [Some rejected] /\
  map Transaction.admin_approved_by (transactions (db o))
  = [Some Fixture.admin] /\
  map Transaction.admin_approved_at (transactions (db o)) = [Some now] /\
  toast o' = toast_success "Transaction rejected successfully!" /\
  db o' = d.
Proof.
  vm_compute. repeat split.
Qed.

(** The theorem above at this very call. *)
Lemma approveTransaction_has_no_status_guard_witness :
  let now := "2026-01-02T00:00:00.000Z" in
  let t := Fixture.transaction "tx-1" tx_deposit 10%float completed in
  let d := Fixture.with_transactions [t] in
  let o := Admin.approveTransaction Fixture.permissive (Some Fixture.admin)
             now "tx-1" false (Fixture.admin_form "") d in
  (In t (transactions d) /\ Transaction.id t = "tx-1" /\
   Transaction.status t <> Some pending) /\
  toast o = toast_success "Transaction rejected successfully!" /\
  user_balances (db o) = user_balances d /\
  In (Transaction.apply_update
        {| Transaction.upd_status := rejected;
           Transaction.upd_admin_approved_by := Some Fixture.admin;
           Transaction.upd_admin_approved_at := now |} t)
     (transactions (db o)) /\
  Transaction.status
    (Transaction.apply_update
       {| Transaction.upd_status := rejected;
          Transaction.upd_admin_approved_by := Some Fixture.admin;
          Transaction.upd_admin_approved_at := now |} t)
  = Some rejected.
Proof.
  intros now t d o.
  assert (Hin : In t (transactions d)) by (left; reflexivity).
  assert (Hid : Transaction.id t = "tx-1") by reflexivity.
  assert (Hst : Transaction.status t <> Some pending) by discriminate.
  split; [repeat split; assumption|].
  exact (approveTransaction_has_no_status_guard Fixture.permissive
           (Some Fixture.admin) now "tx-1" false (Fixture.admin_form "")
           d t Hin Hid Hst).
Defined.

(** ** Admin: price of the MOON coin by percentage *)

Lemma filter_update_where {A : Type} (keep hit : A -> bool) (f : A -> A)
    (rows : list A) :
  (forall r, keep (f r) = keep r) ->
  filter keep (Backend.update_where hit f rows)
  = Backend.update_where hit f (filter keep rows).
Proof.
  intro Hk. unfold Backend.update_where.
  induction rows as [|r rows IH]; simpl; [reflexivity|].
  assert (Hr : keep (if hit r then f r else r) = keep r)
    by (destruct (hit r); [apply Hk | reflexivity]).
  rewrite Hr. destruct (keep r); simpl; now rewrite IH.
Qed.

Lemma update_where_none {A : Type} (hit : A -> bool) (f : A -> A)
    (rows : list A) :
  (forall r, In r rows -> hit r = false) ->
  Backend.update_where hit f rows = rows.
Proof.
  unfold Backend.update_where.
  induction rows as [|r rows IH]; simpl; intro H; [reflexivity|].
  rewrite (H r) by now left. f_equal. apply IH. intros; apply H; now right.
Qed.

Lemma existsb_update_where {A : Type} (hit keep : A -> bool) (f : A -> A)
    (rows : list A) :
  (forall r, keep (f r) = keep r) ->
  existsb keep (Backend.update_where hit f rows) = existsb keep rows.
Proof.
  intro Hk. unfold Backend.update_where.
  induction rows as [|r rows IH]; simpl; [reflexivity|].
  rewrite IH. destruct (hit r); [now rewrite Hk | reflexivity].
Qed.

(** What the update of the price of the coins named MOON does: with no
    such coin that the caller may update, nothing; otherwise the column
    takes the number and every such coin gets what it holds, or the column
    refuses the number. *)
Lemma update_coin_price_cases (policy : Backend.UpdatePolicy)
    (user : option uuid) (p : JS.number) (d : Database) :
  let hit := fun c => String.eqb (Coin.symbol c) "MOON"
                      && Backend.may_update_coin policy user c in
  (existsb hit (coins d) = false /\
   Backend.update_coin_price_by_symbol policy user "MOON" p d = inl d) \/
  (existsb hit (coins d) = true /\
   exists price,
     Backend.decimal_20_8 p = inl price /\
     Backend.update_coin_price_by_symbol policy user "MOON" p d
     = inl {| coins := Backend.update_where hit (Coin.set_price price)
                                            (coins d);
              user_balances := user_balances d;
              transactions := transactions d;
              orders := orders d |}) \/
  (existsb hit (coins d) = true /\
   Backend.decimal_20_8 p = inr numeric_value_out_of_range /\
   Backend.update_coin_price_by_symbol policy user "MOON" p d
   = inr numeric_value_out_of_range).
Proof.
  intro hit. unfold Backend.update_coin_price_by_symbol. fold hit.
  destruct (existsb hit (coins d)); [|now left].
  right. destruct (Backend.decimal_20_8 p) as [price|e] eqn:Hp.
  - left. split; [reflexivity|]. now exists price.
  - right. rewrite (decimal_20_8_error p e Hp). now repeat split.
Qed.

(** With one coin named MOON, the update has a row to write exactly when
    the caller may update that coin. *)
Lemma existsb_hit_moon (policy : Backend.UpdatePolicy) (user : option uuid)
    (d : Database) (moon : Coin.Row) :
  Backend.coin_by_symbol d "MOON" = Some moon ->
  existsb (fun c => String.eqb (Coin.symbol c) "MOON"
                    && Backend.may_update_coin policy user c) (coins d)
  = Backend.may_update_coin policy user moon.
Proof.
  intro Hmoon. pose proof (coin_by_symbol_in _ _ _ Hmoon) as [Hin Hsym].
  unfold Backend.coin_by_symbol, Backend.coins_where_symbol in Hmoon.
  apply single_some in Hmoon.
  destruct (Backend.may_update_coin policy user moon) eqn:Hmay.
  - apply existsb_exists. exists moon. split; [exact Hin|].
    now rewrite Hsym, Hmay.
  - destruct (existsb _ (coins d)) eqn:E; [|reflexivity].
    apply existsb_exists in E. destruct E as [c [Hc Hs]].
    apply andb_true_iff in Hs. destruct Hs as [Hs Hm].
    assert (Hf : In c (filter (fun c => String.eqb (Coin.symbol c) "MOON")
                              (coins d)))
      by (apply filter_In; now split).
    rewrite Hmoon in Hf. destruct Hf as [<-|[]]. congruence.
Qed.

(** After the price of the one MOON coin was set, where the caller may
    update it, the coin found under MOON is the same coin at that price. *)
Lemma coin_by_symbol_after_update (policy : Backend.UpdatePolicy)
    (user : option uuid) (price : option JS.number) (d : Database)
    (moon : Coin.Row) :
  Backend.coin_by_symbol d "MOON" = Some moon ->
  Backend.may_update_coin policy user moon = true ->
  Backend.coin_by_symbol
    {| coins :=
         Backend.update_where
           (fun c => String.eqb (Coin.symbol c) "MOON"
                     && Backend.may_update_coin policy user c)
           (Coin.set_price price) (coins d);
       user_balances := user_balances d;
       transactions := transactions d;
       orders := orders d |} "MOON"
  = Some (Coin.set_price price moon).
Proof.
  intros Hmoon Hmay.
  pose proof (coin_by_symbol_in _ _ _ Hmoon) as [_ Hsym].
  unfold Backend.coin_by_symbol, Backend.coins_where_symbol in *. simpl.
  apply single_some in Hmoon.
  rewrite filter_update_where by reflexivity.
  rewrite Hmoon. simpl. rewrite Hsym, Hmay. reflexivity.
Qed.

(** C6, as the code has it.  With a percentage entered and the MOON coin
    found, [updateMoonPriceByPercentage] computes, in the arithmetic of
    JavaScript numbers, [newPrice = oldPrice * (1 + pct / 100)] from the
    price it read and the entered percentage [pct], and sends that value as
    the coin's price.  Where the backend lets the caller update the row, the
    column takes the value and the MOON coin is afterwards the same row with
    the price the column holds, which is [newPrice] rounded to eight
    decimals, and null when [newPrice] is not finite; or the column refuses
    the value, the error is shown and nothing changes.  Where the backend
    does not let the caller update the row, success is reported and the form
    shows [newPrice], but nothing is stored.  The rows of the other coins
    and the other tables are never changed. *)
Theorem updateMoonPriceByPercentage_formula :
  forall (policy : Backend.UpdatePolicy) (user : option uuid)
         (st : Admin.State) (d : Database) (moon : Coin.Row),
    Admin.priceChange st <> "" ->
    Backend.coin_by_symbol d "MOON" = Some moon ->
    let o := Admin.updateMoonPriceByPercentage policy user st d in
    let pct := JS.parseFloat (Admin.priceChange st) in
    let oldPrice := JS.to_number (Coin.price moon) in
    let newPrice := JS.mul oldPrice (JS.add 1%float (JS.div pct 100%float)) in
    (succeeded o = true ->
       Admin.moonPrice (state o) = JS.NumberToString newPrice /\
       Admin.priceChange (state o) = "") /\
    (Backend.may_update_coin policy user moon = true ->
       forall stored : option JS.number,
         Backend.decimal_20_8 newPrice = inl stored ->
         succeeded o = true /\
         Backend.coin_by_symbol (db o) "MOON"
         = Some (Coin.set_price stored moon) /\
         (stored = None <-> finite newPrice = false)) /\
    (Backend.may_update_coin policy user moon = true ->
       Backend.decimal_20_8 newPrice = inr numeric_value_out_of_range ->
       toast o = toast_caught (Postgrest numeric_value_out_of_range)
                              "Failed to update MOON price" /\
       state o = st /\ db o = d) /\
    (Backend.may_update_coin policy user moon = false ->
       succeeded o = true /\ db o = d) /\
    (forall c, In c (coins d) -> Coin.symbol c <> "MOON" -> In c (coins (db o))) /\
    user_balances (db o) = user_balances d /\
    transactions (db o) = transactions d /\
    orders (db o) = orders d.
Proof.
  intros policy user st d moon Hpct Hmoon o pct oldPrice newPrice.
  subst o. unfold Admin.updateMoonPriceByPercentage.
  apply falsy_false_iff in Hpct. rewrite Hpct, Hmoon. cbn [bind require].
  change (Admin.newPrice moon (Admin.priceChange st)) with newPrice.
  pose proof (existsb_hit_moon policy user d moon Hmoon) as Hex.
  destruct (update_coin_price_cases policy user newPrice d)
    as [[Hno ->] | [[Hyes [price [Hprice ->]]] | [Hyes [Hprice ->]]]];
    cbn [throw_if_error bind toast state db succeeded is_success
         Admin.moonPrice Admin.priceChange coins user_balances transactions
         orders].
  - rewrite Hex in Hno.
    split; [intros _; now split|].
    split; [intro Hmay; congruence|].
    split; [intro Hmay; congruence|].
    split; [intros _; now split|].
    split; [intros c Hc _; exact Hc|]. now repeat split.
  - rewrite Hex in Hyes.
    split; [intros _; now split|].
    split.
    { intros _ stored Hs. assert (stored = price) by congruence. subst stored.
      split; [reflexivity|].
      split; [now apply coin_by_symbol_after_update|].
      split.
      - intros ->. now apply decimal_20_8_null.
      - intro Hf. apply decimal_20_8_null in Hf. congruence. }
    split; [intros _ Hr; congruence|].
    split; [intro Hmay; congruence|].
    split; [|now repeat split].
    intros c Hc Hne.
    apply (in_update_where
             (fun c => String.eqb (Coin.symbol c) "MOON"
                       && Backend.may_update_coin policy user c)
             (Coin.set_price price)) in Hc.
    apply String.eqb_neq in Hne. rewrite Hne in Hc. exact Hc.
  - rewrite Hex in Hyes.
    split; [discriminate|].
    split; [intros _ stored Hs; congruence|].
    split; [intros _ _; now repeat split|].
    split; [intro Hmay; congruence|].
    split; [intros c Hc _; exact Hc|]. now repeat split.
Qed.

(** The theorem above on the coins of the migration, 5 entered: the price
    sent for MOON is 0.001 * (1 + 5 / 100), which is 0.0010500000000000002
    in binary64, and the column holds 0.00105. *)
Lemma updateMoonPriceByPercentage_formula_witness :
  let st := Fixture.admin_form "5" in
  let o := Admin.updateMoonPriceByPercentage Fixture.permissive
             (Some Fixture.admin) st Fixture.db0 in
  (Admin.priceChange st <> "" /\
   Backend.coin_by_symbol Fixture.db0 "MOON" = Some Fixture.moon) /\
  succeeded o = true /\
  Admin.moonPrice (state o) = "0.0010500000000000002" /\
  Backend.coin_by_symbol (db o) "MOON"
  = Some (Coin.set_price (Some 0.00105%float) Fixture.moon).
Proof.
  intros st o.
  assert (H1 : Admin.priceChange st <> "") by discriminate.
  assert (H2 : Backend.coin_by_symbol Fixture.db0 "MOON" = Some Fixture.moon)
    by reflexivity.
  split; [split; assumption|].
  destruct (updateMoonPriceByPercentage_formula Fixture.permissive
              (Some Fixture.admin) st Fixture.db0 Fixture.moon H1 H2)
    as [Hform [Hset _]].
  assert (Hstored :
            Backend.decimal_20_8
              (JS.mul (JS.to_number (Coin.price Fixture.moon))
                      (JS.add 1%float
                         (JS.div (JS.parseFloat (Admin.priceChange st))
                                 100%float)))
            = inl (Some 0.00105%float)) by (vm_compute; reflexivity).
  destruct (Hset eq_refl _ Hstored) as [Hs [Hcoin _]].
  split; [exact Hs|]. split; [|exact Hcoin].
  etransitivity; [exact (proj1 (Hform Hs)) | vm_compute; reflexivity].
Defined.

(** C6 fails on the code.  MOON is at 0.001 and the administrator enters
    5.  The new price is computed as 0.0010500000000000002, which the form
    then shows; the column holds 0.00105, another number, and that is what
    the Admin page loads the next time.  With the policies of the migration
    alone, which let nobody update a coin, the same call reports success,
    the form shows the new price, and the price in the table is still
    0.001. *)
Lemma updateMoonPriceByPercentage_does_not_store_newPrice :
  let st := Fixture.admin_form "5" in
  let newPrice := JS.mul 0.001%float
                    (JS.add 1%float (JS.div (JS.parseFloat "5") 100%float)) in
  let o := Admin.updateMoonPriceByPercentage Fixture.permissive
             (Some Fixture.admin) st Fixture.db0 in
  let o' := Admin.updateMoonPriceByPercentage Fixture.no_update_policy
              (Some Fixture.admin) st Fixture.db0 in
  JS.NumberToString newPrice = "0.0010500000000000002" /\
  toast o = toast_success "MOON price updated by 5%!" /\
  Admin.moonPrice (state o) = "0.0010500000000000002" /\
  option_map Coin.price (Backend.coin_by_symbol (db o) "MOON")
  = Some (Some 0.00105%float) /\
  JS.strict_eq 0.00105%float newPrice = false /\
  Admin.moonPrice (Admin.fetchMoonPrice (state o) (db o)) = "0.00105" /\
  toast o' = toast_success "MOON price updated by 5%!" /\
  Admin.moonPrice (state o') = "0.0010500000000000002" /\
  option_map Coin.price (Backend.coin_by_symbol (db o') "MOON")
  = Some (Some 0.001%float) /\
  db o' = Fixture.db0.
Proof.
  vm_compute. repeat split.
Qed.

(** ** Trade: placing an order *)

Lemma handleTrade_run (user : option uuid) (new_id : uuid) (side : OrderSide)
    (st : Trade.State) (d : Database) :
  trade_run user new_id side st d (Trade.handleTrade user new_id side st d).
Proof.
  unfold Trade.handleTrade.
  fold (incomplete st). fold (base_id st). fold (quote_id st).
  destruct (incomplete st) eqn:Hi; [now constructor|].
  destruct (Trade.missing (base_id st) || Trade.missing (quote_id st)) eqn:Hm;
    [now constructor|].
  destruct (base_id st) as [b|] eqn:Hb; [|discriminate].
  destruct (quote_id st) as [q|] eqn:Hq;
    [|simpl in Hm; rewrite orb_true_r in Hm; discriminate].
  fold (order_of user side st b q).
  destruct (Backend.insert_order user new_id (order_of user side st b q) d)
    as [d'|e] eqn:Hins; rewrite <- Hb, <- Hq in Hm.
  - exact (run_placed user new_id side st d b q d' Hi Hb Hq Hm Hins).
  - exact (run_refused user new_id side st d b q e Hi Hb Hq Hm Hins).
Qed.

Lemma incomplete_iff (st : Trade.State) :
  incomplete st = true <->
  Trade.amount st = "" \/
  (Trade.orderType st = limit /\ Trade.price_field st = "").
Proof.
  unfold incomplete.
  rewrite orb_true_iff, andb_true_iff, !falsy_iff.
  destruct (Trade.orderType st); simpl; intuition discriminate.
Qed.

Lemma insert_order_with_balances (a : option uuid) (new_id : uuid)
    (v : Order.Insert) (d : Database) (balances : list UserBalance.Row) :
  Backend.insert_order a new_id v (with_balances d balances)
  = match Backend.insert_order a new_id v d with
    | inl d' => inl (with_balances d' balances)
    | inr e => inr e
    end.
Proof.
  unfold Backend.insert_order, Backend.order_id_taken, Backend.has_coin. simpl.
  destruct (Backend.decimal_20_8 (Order.ins_amount v)) as [amount|e];
    [|reflexivity].
  destruct (Backend.nullable_decimal_20_8 (Order.ins_price v)) as [price|e];
    [|reflexivity].
  destruct (Backend.with_check a (Order.ins_user_id v)); simpl; [|reflexivity].
  destruct (Order.ins_user_id v); [|reflexivity].
  destruct amount; [|reflexivity].
  repeat match goal with
         | |- context [if ?b then _ else _] => destruct b; simpl
         end; reflexivity.
Qed.

(** C4, as the code has it.  [handleTrade] never writes a balance and never
    reads one: [user_balances], [coins] and [transactions] are the same
    afterwards, and the toast it shows is the same whatever the balances are
    (no funds check on either side).  When it goes through it appends one
    order, in the open state with nothing filled, of the side clicked and
    the kind selected, its amount being the amount entered as the column
    holds it; otherwise the tables are unchanged. *)
Theorem handleTrade_open_order_without_lock :
  forall (user : option uuid) (new_id : uuid) (side : OrderSide)
         (st : Trade.State) (d : Database),
    let o := Trade.handleTrade user new_id side st d in
    user_balances (db o) = user_balances d /\
    coins (db o) = coins d /\
    transactions (db o) = transactions d /\
    (forall balances : list UserBalance.Row,
       toast (Trade.handleTrade user new_id side st (with_balances d balances))
       = toast o) /\
    (succeeded o = true ->
       exists uid r,
         user = Some uid /\
         orders (db o) = (orders d ++ [r])%list /\
         Order.status r = Some open /\
         Order.filled_amount r = Some 0%float /\
         Order.id r = new_id /\
         Order.user_id r = uid /\
         Order.side r = side /\
         Order.type r = Trade.orderType st /\
         held_as (JS.parseFloat (Trade.amount st)) (Order.amount r)) /\
    (succeeded o = false -> db o = d).
Proof.
  intros user new_id side st d o.
  assert (Hbal : forall balances,
             toast (Trade.handleTrade user new_id side st (with_balances d balances))
             = toast o).
  { intro balances. subst o. unfold Trade.handleTrade.
    destruct (JS.falsy (Trade.amount st)
              || Trade.is_limit (Trade.orderType st)
                 && JS.falsy (Trade.price_field st)); [reflexivity|].
    match goal with
    | |- context [if ?b then Throw _ else _] => destruct b; [reflexivity|]
    end.
    repeat match goal with
           | |- context [match ?x with Some _ => _ | None => _ end] =>
               destruct x; [|reflexivity]
           end.
    rewrite insert_order_with_balances.
    match goal with
    | |- context [Backend.insert_order ?a ?i ?v ?d] =>
        destruct (Backend.insert_order a i v d)
    end; reflexivity. }
  pose proof (handleTrade_run user new_id side st d) as Hrun.
  fold o in Hrun. clearbody o.
  destruct Hrun as [Hi | Hi Hm | b q e Hi Hb Hq Hm Hins | b q d' Hi Hb Hq Hm Hins];
    unfold succeeded in *; simpl in *;
    try (repeat split; try reflexivity; try assumption; discriminate).
  apply insert_order_inl in Hins.
  destruct Hins as [uid [a [p [Hu [_ [Ha [_ [_ [_ [_ Hd]]]]]]]]]]. subst d'. simpl.
  repeat split; try reflexivity; try assumption; try discriminate.
  intros _. exists uid. eexists. repeat split; try eassumption; try reflexivity.
Qed.

(** The theorem above on the fixture: Alice, who has no USDT, buys
    0.123456789 BTC at the market; the order is stored open, for the amount
    0.12345679 the column holds. *)
Lemma handleTrade_open_order_without_lock_witness :
  let st := Fixture.trade_form "BTC/USDT" market "0.123456789" "" in
  let o := Trade.handleTrade (Some Fixture.alice) "o-1" buy st Fixture.db0 in
  succeeded o = true /\
  (exists r,
     orders (db o) = [r] /\ Order.status r = Some open /\
     Order.filled_amount r = Some 0%float /\ Order.side r = buy /\
     Order.amount r = 0.12345679%float) /\
  user_balances (db o) = [Fixture.alice_btc].
Proof.
  intros st o.
  assert (Hs : succeeded o = true) by reflexivity.
  split; [exact Hs|].
  destruct (handleTrade_open_order_without_lock (Some Fixture.alice) "o-1"
              buy st Fixture.db0) as [Hb [_ [_ [_ [Hrow _]]]]].
  fold o in Hb, Hrow.
  destruct (Hrow Hs) as [uid [r [_ [Hr [Hst [Hf [_ [_ [Hside [_ Ha]]]]]]]]]].
  split; [|exact Hb].
  exists r. split; [exact Hr|]. split; [exact Hst|]. split; [exact Hf|].
  split; [exact Hside|].
  assert (Hheld : held_as (JS.parseFloat "0.123456789") 0.12345679%float)
    by (vm_compute; reflexivity).
  unfold held_as in Ha, Hheld. simpl in Ha. congruence.
Defined.

Lemma find_id_fetchCoins_none (d : Database) (s : string) :
  Trade.find_id (Trade.fetchCoins d) (Some s) = None <-> not_listed d s.
Proof.
  unfold Trade.find_id, Trade.fetchCoins, not_listed.
  induction (coins d) as [|c cs IH]; simpl.
  - split; [intros _ c []|reflexivity].
  - unfold Backend.is_active_true at 1.
    destruct (Coin.is_active c) as [[|]|] eqn:Ha; simpl.
    + destruct (String.eqb (Coin.symbol c) s) eqn:Hs; simpl.
      * split; [discriminate|]. intro H. exfalso.
        apply (H c); [now left | now apply String.eqb_eq | exact Ha].
      * rewrite IH. split; intros H c' Hin Hsym.
        -- destruct Hin as [<-|Hin]; [|now apply H].
           apply String.eqb_neq in Hs. now elim Hs.
        -- apply H; [now right | exact Hsym].
    + rewrite IH. split; intros H c' Hin Hsym.
      * destruct Hin as [<-|Hin]; [congruence | now apply H].
      * apply H; [now right | exact Hsym].
    + rewrite IH. split; intros H c' Hin Hsym.
      * destruct Hin as [<-|Hin]; [congruence | now apply H].
      * apply H; [now right | exact Hsym].
Qed.

(** A coin the page finds under a symbol was an active coin of the table
    the page loaded its coins from. *)
Lemma find_id_fetchCoins_some (d : Database) (s : string) (i : uuid) :
  Trade.find_id (Trade.fetchCoins d) (Some s) = Some i ->
  exists c, In c (coins d) /\ Coin.is_active c = Some true /\
            Coin.symbol c = s /\ Coin.id c = i.
Proof.
  unfold Trade.find_id, Trade.fetchCoins.
  induction (coins d) as [|c cs IH]; simpl; [discriminate|].
  unfold Backend.is_active_true at 1.
  destruct (Coin.is_active c) as [[|]|] eqn:Ha; simpl.
  - destruct (String.eqb (Coin.symbol c) s) eqn:Hs; simpl.
    + intro H. inversion H. exists c. apply String.eqb_eq in Hs.
      repeat split; auto.
    + intro H. destruct (IH H) as [c' [Hin H']]. exists c'.
      split; [now right | exact H'].
  - intro H. destruct (IH H) as [c' [Hin H']]. exists c'.
    split; [now right | exact H'].
  - intro H. destruct (IH H) as [c' [Hin H']]. exists c'.
    split; [now right | exact H'].
Qed.

Lemma find_id_none_missing (cs : list Trade.Coin) :
  Trade.missing (Trade.find_id cs None) = true.
Proof. reflexivity. Qed.

(** The price the column [price] of [orders] is sent: that of the price
    field for a limit order, [null] for a market order. *)
Lemma order_of_price (user : option uuid) (side : OrderSide)
    (st : Trade.State) (b q : uuid) :
  Backend.nullable_decimal_20_8 (Order.ins_price (order_of user side st b q))
  = match Trade.orderType st with
    | limit => Backend.decimal_20_8 (JS.parseFloat (Trade.price_field st))
    | market => inl None
    end.
Proof.
  unfold order_of. simpl. destruct (Trade.orderType st); reflexivity.
Qed.

(** The column does not look at the sign of a number. *)
Lemma accepted_opp (x : JS.number) : accepted (PrimFloat.opp x) <-> accepted x.
Proof.
  unfold accepted, held_as, Backend.decimal_20_8, JS.stringify.
  rewrite opp_spec.
  destruct (Prim2SF x) as [sg| sg | |sg m e]; cbn [SFopp].
  - reflexivity.
  - reflexivity.
  - reflexivity.
  - destruct (JS.shortest_digits m e) as [[s k] n]. cbv zeta.
    destruct (10 ^ 20 <=? Backend.units s (n - k))%Z;
      split; intros [a H]; try discriminate; eexists; reflexivity.
Qed.

(** C5, as the code has it.  Before it creates any order [handleTrade]
    rejects a form with no amount, or with the kind limit and no price
    (both with the message to fill in all required fields), and then a pair
    that has no second symbol or one of whose symbols was not that of an
    active coin of the table when the page loaded its coins (Invalid
    trading pair): in each case the tables are unchanged.  An order that
    goes through is for two coins that were active then.  The amount is
    only required to be entered and to be a number the columns take: the
    order goes through exactly when the form is complete, the column takes
    the amount, and the price of a limit order, both coins are found, the
    user is signed in, the id is free and the coins still exist; the sign of
    the amount plays no part, for the handler or for the column. *)
Theorem handleTrade_validation :
  forall (user : option uuid) (new_id : uuid) (side : OrderSide)
         (st : Trade.State) (d0 d : Database),
    Trade.coins st = Trade.fetchCoins d0 ->
    let o := Trade.handleTrade user new_id side st d in
    ((Trade.amount st = "" \/
      (Trade.orderType st = limit /\ Trade.price_field st = "")) ->
       toast o = toast_error "Please fill in all required fields" /\
       state o = st /\ db o = d) /\
    (incomplete st = false ->
     (quote_symbol st = None \/
      exists s, (base_symbol st = Some s \/ quote_symbol st = Some s) /\
                not_listed d0 s) ->
       toast o = toast_caught (JsError "Invalid trading pair")
                              "Failed to place order" /\
       db o = d) /\
    (succeeded o = true <->
       incomplete st = false /\
       accepted (JS.parseFloat (Trade.amount st)) /\
       (Trade.orderType st = limit ->
        exists p, Backend.decimal_20_8 (JS.parseFloat (Trade.price_field st))
                  = inl p) /\
       user <> None /\
       Backend.order_id_taken d new_id = false /\
       exists b q,
         base_id st = Some b /\ b <> "" /\
         quote_id st = Some q /\ q <> "" /\
         Backend.has_coin d b = true /\ Backend.has_coin d q = true) /\
    (succeeded o = true ->
       exists cb cq,
         In cb (coins d0) /\ Coin.is_active cb = Some true /\
         In cq (coins d0) /\ Coin.is_active cq = Some true /\
         base_symbol st = Some (Coin.symbol cb) /\
         quote_symbol st = Some (Coin.symbol cq) /\
         base_id st = Some (Coin.id cb) /\
         quote_id st = Some (Coin.id cq)) /\
    (forall x : JS.number, accepted (PrimFloat.opp x) <-> accepted x).
Proof.
  intros user new_id side st d0 d Hload o.
  pose proof (handleTrade_run user new_id side st d) as Hrun.
  fold o in Hrun. clearbody o.
  assert (Hmissing :
            (quote_symbol st = None \/
             exists s, (base_symbol st = Some s \/ quote_symbol st = Some s) /\
                       not_listed d0 s) ->
            Trade.missing (base_id st) || Trade.missing (quote_id st) = true).
  { unfold base_id, quote_id. fold (base_symbol st). fold (quote_symbol st).
    rewrite Hload.
    intros [Hq | [s [[Hb|Hq] Hs]]].
    - rewrite Hq. cbn [Trade.find_id Trade.missing]. apply orb_true_r.
    - rewrite Hb. apply find_id_fetchCoins_none in Hs. rewrite Hs.
      reflexivity.
    - rewrite Hq. apply find_id_fetchCoins_none in Hs. rewrite Hs.
      cbn [Trade.missing]. apply orb_true_r. }
  assert (Hfound : forall b q, base_id st = Some b -> quote_id st = Some q ->
            exists cb cq,
              In cb (coins d0) /\ Coin.is_active cb = Some true /\
              In cq (coins d0) /\ Coin.is_active cq = Some true /\
              base_symbol st = Some (Coin.symbol cb) /\
              quote_symbol st = Some (Coin.symbol cq) /\
              base_id st = Some (Coin.id cb) /\
              quote_id st = Some (Coin.id cq)).
  { intros b q Hb Hq. pose proof Hb as Hb'. pose proof Hq as Hq'.
    unfold base_id in Hb'. unfold quote_id in Hq'.
    fold (base_symbol st) in Hb'. fold (quote_symbol st) in Hq'.
    rewrite Hload in Hb', Hq'.
    destruct (base_symbol st) as [sb|]; [|discriminate].
    destruct (quote_symbol st) as [sq|]; [|discriminate].
    apply find_id_fetchCoins_some in Hb', Hq'.
    destruct Hb' as [cb [Hinb [Hab [Hsb Hib]]]].
    destruct Hq' as [cq [Hinq [Haq [Hsq Hiq]]]].
    exists cb, cq. subst sb sq b q. repeat split; assumption. }
  split; [|split; [|split; [|split; [|exact accepted_opp]]]].
  - intro Hinc. apply incomplete_iff in Hinc.
    destruct Hrun; try congruence. simpl. auto.
  - intros Hinc Hmiss. apply Hmissing in Hmiss.
    destruct Hrun; try congruence. simpl. auto.
  - unfold succeeded.
    destruct Hrun as [Hi | Hi Hm | b q e Hi Hb Hq Hm Hins | b q d' Hi Hb Hq Hm Hins];
      simpl.
    + split; [discriminate|]. intros [H _]. congruence.
    + split; [discriminate|].
      intros [_ [_ [_ [_ [_ [b [q [Hb [Hbne [Hq [Hqne _]]]]]]]]]]].
      rewrite Hb, Hq in Hm. simpl in Hm.
      apply falsy_false_iff in Hbne, Hqne. rewrite Hbne, Hqne in Hm.
      discriminate.
    + split; [discriminate|].
      intros [_ [[a Ha] [Hp [Hu [Hfree [b' [q' [Hb' [_ [Hq' [_ [Hcb Hcq]]]]]]]]]]]].
      assert (b' = b) by congruence. assert (q' = q) by congruence.
      subst b' q'. destruct user as [uid|]; [|now elim Hu].
      assert (Hprice : exists p,
                Backend.nullable_decimal_20_8
                  (Order.ins_price (order_of (Some uid) side st b q))
                = inl p).
      { rewrite order_of_price.
        destruct (Trade.orderType st); [now exists None | now apply Hp]. }
      destruct Hprice as [p Hprice].
      assert (Hok : Backend.insert_order (Some uid) new_id
                      (order_of (Some uid) side st b q) d
                    = inl (Backend.add_order d
                             (Backend.new_order new_id uid a p
                                (order_of (Some uid) side st b q)))).
      { apply insert_order_inl. exists uid, a, p. simpl. repeat split; auto. }
      congruence.
    + split; [|reflexivity]. intros _.
      apply insert_order_inl in Hins.
      destruct Hins as [uid [a [p [Hu [_ [Ha [Hp [Hfree [Hcb [Hcq _]]]]]]]]]].
      simpl in Ha, Hcb, Hcq.
      rewrite order_of_price in Hp.
      rewrite Hb, Hq in Hm. simpl in Hm. apply orb_false_iff in Hm.
      destruct Hm as [Hmb Hmq].
      split; [exact Hi|]. split; [now exists a|].
      split; [intro Hl; rewrite Hl in Hp; now exists p|].
      split; [congruence|]. split; [exact Hfree|].
      exists b, q. repeat split; auto; now apply falsy_false_iff.
  - unfold succeeded.
    destruct Hrun as [Hi | Hi Hm | b q e Hi Hb Hq Hm Hins | b q d' Hi Hb Hq Hm Hins];
      simpl; try discriminate.
    intros _. now apply (Hfound b q).
Qed.

(** The theorem above on the fixture, the page having loaded the coins of
    the fixture.  An order on BTC/DOGE is rejected as an invalid pair, no
    coin being named DOGE; an order for the amount -1 on BTC/USDT goes
    through; an order for 1000000000000 does not. *)
Lemma handleTrade_validation_witness :
  let form := fun pair amount => Fixture.trade_form pair market amount "" in
  let run := fun pair amount =>
    Trade.handleTrade (Some Fixture.alice) "o-1" buy (form pair amount)
                      Fixture.db0 in
  (forall pair amount,
     Trade.coins (form pair amount) = Trade.fetchCoins Fixture.db0) /\
  toast (run "BTC/DOGE" "1")
  = toast_caught (JsError "Invalid trading pair") "Failed to place order" /\
  succeeded (run "BTC/USDT" "-1") = true /\
  succeeded (run "BTC/USDT" "1000000000000") = false.
Proof.
  intros form run.
  assert (Hload : forall pair amount,
             Trade.coins (form pair amount) = Trade.fetchCoins Fixture.db0)
    by reflexivity.
  split; [exact Hload|].
  split; [|split].
  - destruct (handleTrade_validation (Some Fixture.alice) "o-1" buy
                (form "BTC/DOGE" "1") Fixture.db0 Fixture.db0
                (Hload "BTC/DOGE" "1")) as [_ [Hpair _]].
    apply Hpair; [reflexivity|].
    right. exists "DOGE". split; [now right|].
    intros c [<-|[<-|[<-|[]]]]; discriminate.
  - destruct (handleTrade_validation (Some Fixture.alice) "o-1" buy
                (form "BTC/USDT" "-1") Fixture.db0 Fixture.db0
                (Hload "BTC/USDT" "-1")) as [_ [_ [Hiff _]]].
    apply Hiff. split; [reflexivity|].
    split; [exists (-1)%float; vm_compute; reflexivity|].
    split; [discriminate|]. split; [discriminate|]. split; [reflexivity|].
    exists "c-btc", "c-usdt". repeat split; discriminate.
  - destruct (handleTrade_validation (Some Fixture.alice) "o-1" buy
                (form "BTC/USDT" "1000000000000") Fixture.db0 Fixture.db0
                (Hload "BTC/USDT" "1000000000000")) as [_ [_ [Hiff _]]].
    fold (run "BTC/USDT" "1000000000000") in Hiff.
    destruct (succeeded (run "BTC/USDT" "1000000000000")); [|reflexivity].
    destruct (proj1 Hiff eq_refl) as [_ [[a Ha] _]].
    vm_compute in Ha. discriminate.
Defined.

Lemma price_only_if_limit_new_order (user : option uuid) (new_id uid : uuid)
    (side : OrderSide) (st : Trade.State) (b q : uuid) (a : JS.number)
    (p : option JS.number) :
  Backend.nullable_decimal_20_8 (Order.ins_price (order_of user side st b q))
  = inl p ->
  price_only_if_limit
    (Backend.new_order new_id uid a p (order_of user side st b q)).
Proof.
  rewrite order_of_price. unfold price_only_if_limit. simpl.
  destruct (Trade.orderType st); [|reflexivity].
  intro H. inversion H. intro Hn. now elim Hn.
Qed.

Lemma handleTrade_keeps_price_only_if_limit (user : option uuid)
    (new_id : uuid) (side : OrderSide) (st : Trade.State) (d : Database) :
  Forall price_only_if_limit (orders d) ->
  Forall price_only_if_limit
    (orders (db (Trade.handleTrade user new_id side st d))).
Proof.
  intro Hall.
  destruct (handleTrade_run user new_id side st d)
    as [Hi | Hi Hm | b q e Hi Hb Hq Hm Hins | b q d' Hi Hb Hq Hm Hins];
    simpl; try exact Hall.
  apply insert_order_inl in Hins.
  destruct Hins as [uid [a [p [_ [_ [_ [Hp [_ [_ [_ Hd]]]]]]]]]]. subst d'.
  simpl. apply Forall_app. split; [exact Hall|].
  constructor; [now apply price_only_if_limit_new_order | constructor].
Qed.

(** C8, as the code has it.  The order a successful [handleTrade] stores
    has the kind selected in the form.  A market order is stored with no
    price, whatever the price field holds, so an order that has a price is a
    limit order: this is kept by every call, and holds of every order stored
    by any series of calls that starts from an empty [orders] table.  A
    limit order has the price that the column makes of the number parsed
    from the price field: that number rounded to eight decimals when it is
    finite, and no price when it is not.  So a stored order has a price
    present if and only if it is a limit order exactly when it is a market
    order or its price field parses to a finite number. *)
Theorem handleTrade_price_iff_limit :
  forall (user : option uuid) (new_id : uuid) (side : OrderSide)
         (st : Trade.State) (d : Database),
    let o := Trade.handleTrade user new_id side st d in
    (succeeded o = true ->
       exists r,
         orders (db o) = (orders d ++ [r])%list /\
         Order.type r = Trade.orderType st /\
         match Trade.orderType st with
         | limit =>
             Backend.decimal_20_8 (JS.parseFloat (Trade.price_field st))
             = inl (Order.price r)
         | market => Order.price r = None
         end /\
         price_only_if_limit r /\
         (Trade.price_iff_limit r <->
          (Trade.orderType st = limit ->
           finite (JS.parseFloat (Trade.price_field st)) = true))) /\
    (Forall price_only_if_limit (orders d) ->
     Forall price_only_if_limit (orders (db o))) /\
    (forall clicks : list Trade.Click,
       orders d = [] ->
       Forall price_only_if_limit (orders (Trade.run clicks d))).
Proof.
  intros user new_id side st d o.
  split; [|split].
  - pose proof (handleTrade_run user new_id side st d) as Hrun.
    fold o in Hrun. clearbody o. unfold succeeded.
    destruct Hrun as [Hi | Hi Hm | b q e Hi Hb Hq Hm Hins | b q d' Hi Hb Hq Hm Hins];
      simpl; try discriminate.
    intros _. apply insert_order_inl in Hins.
    destruct Hins as [uid [a [p [_ [_ [_ [Hp [_ [_ [_ Hd]]]]]]]]]]. subst d'.
    simpl.
    eexists. split; [reflexivity|]. split; [reflexivity|].
    pose proof (price_only_if_limit_new_order user new_id uid side st b q a p
                  Hp) as Honly.
    rewrite order_of_price in Hp.
    unfold Trade.price_iff_limit, price_only_if_limit in *. simpl in *.
    destruct (Trade.orderType st).
    + assert (Hn : p = None) by congruence. subst p.
      split; [reflexivity|]. split; [exact Honly|].
      split; [discriminate|]. intros _. split; [intro H; now elim H|].
      discriminate.
    + split; [exact Hp|]. split; [exact Honly|].
      destruct p as [p|].
      * apply held_as_finite in Hp. split; [intros _ _; exact Hp|].
        intros _. split; [reflexivity | discriminate].
      * apply decimal_20_8_null in Hp. split.
        -- intros [_ H]. now elim (H eq_refl).
        -- intro H. rewrite (H eq_refl) in Hp. discriminate.
  - apply handleTrade_keeps_price_only_if_limit.
  - intros clicks Hempty.
    assert (Hgen : forall cs d0, Forall price_only_if_limit (orders d0) ->
                     Forall price_only_if_limit (orders (Trade.run cs d0))).
    { induction cs as [|c cs IH]; intros d0 H0; simpl; [exact H0|].
      apply IH. now apply handleTrade_keeps_price_only_if_limit. }
    apply Hgen. rewrite Hempty. constructor.
Qed.

(** The theorem above on the fixture: a limit order at the price
    0.123456789 is stored with the price 0.12345679, and a market order
    with 100 left in the price field is stored with no price. *)
Lemma handleTrade_price_iff_limit_witness :
  let o1 := Trade.handleTrade (Some Fixture.alice) "o-1" buy
              (Fixture.trade_form "BTC/USDT" limit "1" "0.123456789")
              Fixture.db0 in
  let o2 := Trade.handleTrade (Some Fixture.alice) "o-2" buy
              (Fixture.trade_form "BTC/USDT" market "1" "100")
              Fixture.db0 in
  (succeeded o1 = true /\ succeeded o2 = true) /\
  (exists r, orders (db o1) = [r] /\ Order.type r = limit /\
             Order.price r = Some 0.12345679%float /\
             Trade.price_iff_limit r) /\
  (exists r, orders (db o2) = [r] /\ Order.type r = market /\
             Order.price r = None /\ Trade.price_iff_limit r).
Proof.
  intros o1 o2.
  assert (H1 : succeeded o1 = true) by reflexivity.
  assert (H2 : succeeded o2 = true) by reflexivity.
  split; [split; assumption|]. split.
  - destruct (handleTrade_price_iff_limit (Some Fixture.alice) "o-1" buy
                (Fixture.trade_form "BTC/USDT" limit "1" "0.123456789")
                Fixture.db0) as [Hrow _].
    destruct (Hrow H1) as [r [Hr [Ht [Hp [_ Hiff]]]]].
    exists r. split; [exact Hr|]. split; [exact Ht|].
    simpl in Hp, Hiff.
    assert (Hheld : Backend.decimal_20_8 (JS.parseFloat "0.123456789")
                    = inl (Some 0.12345679%float)) by (vm_compute; reflexivity).
    split; [congruence|]. apply Hiff. intros _. reflexivity.
  - destruct (handleTrade_price_iff_limit (Some Fixture.alice) "o-2" buy
                (Fixture.trade_form "BTC/USDT" market "1" "100")
                Fixture.db0) as [Hrow _].
    destruct (Hrow H2) as [r [Hr [Ht [Hp [_ Hiff]]]]].
    exists r. split; [exact Hr|]. split; [exact Ht|].
    simpl in Hp, Hiff. split; [exact Hp|]. apply Hiff. discriminate.
Defined.

(** C8 fails on the code.  A limit order at the price 0.123456789 is
    stored with the price 0.12345679, which is not the price entered: the
    column keeps eight decimals.  A limit order whose price field holds
    1e400 is accepted as well: [parseFloat] gives Infinity, which travels as
    [null], and the column [price] may be null; the order is stored as a
    limit order with no price. *)
Lemma handleTrade_limit_price_not_as_entered :
  let o1 := Trade.handleTrade (Some Fixture.alice) "o-1" buy
              (Fixture.trade_form "BTC/USDT" limit "1" "0.123456789")
              Fixture.db0 in
  let o2 := Trade.handleTrade (Some Fixture.alice) "o-2" buy
              (Fixture.trade_form "BTC/USDT" limit "1" "1e400")
              Fixture.db0 in
  toast o1 = toast_success "Buy order placed successfully!" /\
  map (fun r => (Order.type r, Order.amount r, Order.price r)) (orders (db o1))
  = [(limit, 1%float, Some 0.12345679%float)] /\
  JS.strict_eq 0.12345679%float (JS.parseFloat "0.123456789") = false /\
  JS.parseFloat "1e400" = PrimFloat.infinity /\
  toast o2 = toast_success "Buy order placed successfully!" /\
  map (fun r => (Order.type r, Order.amount r, Order.price r)) (orders (db o2))
  = [(limit, 1%float, None)] /\
  (forall r, In r (orders (db o2)) -> ~ Trade.price_iff_limit r).
Proof.
  split; [vm_compute; reflexivity|].
  split; [vm_compute; reflexivity|].
  split; [vm_compute; reflexivity|].
  split; [vm_compute; reflexivity|].
  split; [vm_compute; reflexivity|].
  split; [vm_compute; reflexivity|].
  intros r Hr. vm_compute in Hr. destruct Hr as [<-|[]].
  unfold Trade.price_iff_limit. simpl. intros [_ H].
  now elim (H eq_refl).
Qed.

(** C4 fails on the code.  Alice has 1 BTC and no USDT.  Her limit order to
    buy 1 BTC at 100 USDT, which would need 100 USDT, is accepted and stored
    as open; so is her order to sell 5 BTC.  No balance changes. *)
Lemma handleTrade_accepts_without_funds :
  let o1 := Trade.handleTrade (Some Fixture.alice) "o-1" buy
              (Fixture.trade_form "BTC/USDT" limit "1" "100") Fixture.db0 in
  let o2 := Trade.handleTrade (Some Fixture.alice) "o-2" sell
              (Fixture.trade_form "BTC/USDT" market "5" "") (db o1) in
  available Fixture.db0 Fixture.alice "c-usdt" = 0%float /\
  JS.mul (JS.parseFloat "1") (JS.parseFloat "100") = 100%float /\
  toast o1 = toast_success "Buy order placed successfully!" /\
  available Fixture.db0 Fixture.alice "c-btc" = 1%float /\
  JS.parseFloat "5" = 5%float /\
  toast o2 = toast_success "Sell order placed successfully!" /\
  map (fun r => (Order.side r, Order.amount r, Order.price r, Order.status r))
      (orders (db o2))
  = [ (buy, 1%float, Some 100%float, Some open);
      (sell, 5%float, None, Some open) ] /\
  user_balances (db o2) = user_balances Fixture.db0.
Proof.
  vm_compute. repeat split.
Qed.

(** C5 fails on the code.  An order for the amount -1 is accepted and
    stored, and so is one for the amount 0. *)
Lemma handleTrade_accepts_negative_amount :
  let o1 := Trade.handleTrade (Some Fixture.alice) "o-1" buy
              (Fixture.trade_form "BTC/USDT" market "-1" "") Fixture.db0 in
  let o2 := Trade.handleTrade (Some Fixture.alice) "o-2" sell
              (Fixture.trade_form "BTC/USDT" limit "0" "100") (db o1) in
  JS.lt (JS.parseFloat "-1") 0%float = true /\
  toast o1 = toast_success "Buy order placed successfully!" /\
  JS.parseFloat "0" = 0%float /\
  toast o2 = toast_success "Sell order placed successfully!" /\
  map (fun r => (Order.id r, Order.amount r, Order.status r)) (orders (db o2))
  = [ ("o-1", (-1)%float, Some open); ("o-2", 0%float, Some open) ].
Proof.
  vm_compute. repeat split.
Qed.

(** ** Assets: the total shown *)

Lemma sum_backwards_fold (rows : list Assets.Balance) :
  Assets.sum_backwards rows
  = fold_right (fun b sum => JS.add sum (Assets.value b)) PrimFloat.zero rows.
Proof.
  induction rows as [|b rows IH]; simpl; [reflexivity|]. now rewrite IH.
Qed.

Lemma totalValue_sum_of_values (balances : list Assets.Balance) :
  Assets.totalValue balances = Assets.sum_of_values balances.
Proof.
  unfold Assets.totalValue, Assets.sum_of_values.
  rewrite sum_backwards_fold.
  symmetry.
  exact (fold_left_rev_right
           (fun b sum => JS.add sum (Assets.value b)) balances PrimFloat.zero).
Qed.

Lemma totalValue_ext (f : Assets.Balance -> Assets.Balance)
    (balances : list Assets.Balance) :
  (forall b, Assets.value (f b) = Assets.value b) ->
  Assets.totalValue (map f balances) = Assets.totalValue balances.
Proof.
  intro Hf. unfold Assets.totalValue.
  generalize PrimFloat.zero.
  induction balances as [|b bs IH]; intro acc; simpl; [reflexivity|].
  rewrite IH. f_equal. f_equal. apply (Hf b).
Qed.

Lemma in_fetchBalances (d : Database) (user : uuid) (b : Assets.Balance) :
  In b (Assets.fetchBalances d user) <->
  exists r c,
    In r (user_balances d) /\ UserBalance.user_id r = user /\
    find (fun c => String.eqb (Coin.id c) (UserBalance.coin_id r)) (coins d)
    = Some c /\
    b = {| Assets.id := UserBalance.id r;
           Assets.balance := UserBalance.balance r;
           Assets.locked_balance := UserBalance.locked_balance r;
           Assets.coin := {| Assets.coin_id := Coin.id c;
                             Assets.coin_symbol := Coin.symbol c;
                             Assets.coin_name := Coin.name c;
                             Assets.coin_price := Coin.price c |} |}.
Proof.
  unfold Assets.fetchBalances. rewrite in_flat_map. split.
  - intros [r [Hr Hb]]. apply filter_In in Hr. destruct Hr as [Hr Hu].
    apply String.eqb_eq in Hu. unfold Assets.embed_coin in Hb.
    destruct (find _ (coins d)) as [c|] eqn:Hc; [|destruct Hb].
    destruct Hb as [Hb|[]]. exists r, c. repeat split; auto.
  - intros [r [c [Hr [Hu [Hc Hb]]]]]. exists r. split.
    + apply filter_In. split; [exact Hr | now apply String.eqb_eq].
    + unfold Assets.embed_coin. rewrite Hc. left. now symmetry.
Qed.

(** C9.  The total the Assets page shows is the sum, over the balance rows
    it holds and in their order, of available balance times coin price
    (JavaScript numbers, a null column counting as 0); the locked balance of
    a row does not enter it: with any other locked balances the total is the
    same.  The rows the page holds are those of [user_balances] whose user
    is the signed-in one, each with its coin's price. *)
Theorem totalValue_sums_available_times_price :
  forall balances : list Assets.Balance,
    Assets.totalValue balances = Assets.sum_of_values balances /\
    (forall relock : Assets.Balance -> option JS.number,
       Assets.totalValue
         (map (fun b => Assets.with_locked (relock b) b) balances)
       = Assets.totalValue balances) /\
    (forall (d : Database) (user : uuid),
       balances = Assets.fetchBalances d user ->
       forall b, In b balances ->
         exists r c,
           In r (user_balances d) /\ UserBalance.user_id r = user /\
           In c (coins d) /\ Coin.id c = UserBalance.coin_id r /\
           Assets.value b
           = JS.mul (JS.to_number (UserBalance.balance r))
                    (JS.to_number (Coin.price c))).
Proof.
  intro balances. split; [apply totalValue_sum_of_values|]. split.
  - intro relock. apply totalValue_ext. reflexivity.
  - intros d user -> b Hb. apply in_fetchBalances in Hb.
    destruct Hb as [r [c [Hr [Hu [Hc ->]]]]].
    exists r, c. apply find_some in Hc. destruct Hc as [Hin Hid].
    apply String.eqb_eq in Hid. repeat split; auto.
Qed.

(** Alice holds 2 BTC at 43000 and 10 USDT at 1, with 1 BTC and 4 USDT locked
    besides: the page shows 86010. *)
Example totalValue_example :
  Assets.totalValue
    (Assets.fetchBalances
       {| coins := [Fixture.btc; Fixture.usdt; Fixture.moon];
          user_balances :=
            [ {| UserBalance.id := "b-1"; UserBalance.user_id := Fixture.alice;
                 UserBalance.coin_id := "c-btc";
                 UserBalance.balance := Some 2%float;
                 UserBalance.locked_balance := Some 1%float |};
              {| UserBalance.id := "b-2"; UserBalance.user_id := Fixture.admin;
                 UserBalance.coin_id := "c-btc";
                 UserBalance.balance := Some 7%float;
                 UserBalance.locked_balance := None |};
              {| UserBalance.id := "b-3"; UserBalance.user_id := Fixture.alice;
                 UserBalance.coin_id := "c-usdt";
                 UserBalance.balance := Some 10%float;
                 UserBalance.locked_balance := Some 4%float |} ];
          transactions := []; orders := [] |}
       Fixture.alice)
  = 86010%float.
Proof. vm_compute. reflexivity. Qed.

(** ** Market: formatting of market capitalisation and volume *)

(** *** Comparison of numbers *)

Lemma SFcompare_antisym (x y : spec_float) :
  SFcompare y x = option_map CompOpp (SFcompare x y).
Proof.
  destruct x as [sx|sx| |sx mx ex], y as [sy|sy| |sy my ey]; simpl;
    try reflexivity;
    try (destruct sx; reflexivity); try (destruct sy; reflexivity);
    try (destruct sx, sy; reflexivity).
  f_equal. destruct sx, sy; try reflexivity;
    rewrite (Z.compare_antisym ex ey); destruct (ex ?= ey)%Z; simpl;
    try reflexivity.
  - now rewrite (Pos.compare_cont_antisym mx my Eq).
  - now rewrite (Pos.compare_cont_antisym mx my Eq).
Qed.

Lemma SFcompare_defined (x y a b : spec_float) (c c' : comparison) :
  SFcompare a x = Some c -> SFcompare y b = Some c' ->
  SFcompare x y <> None.
Proof.
  destruct x, y, a, b; simpl; intros; discriminate.
Qed.

(** [x < y] excludes [x >= y]. *)
Lemma lt_not_ge (x y : JS.number) : JS.lt x y = true -> JS.ge x y = false.
Proof.
  unfold JS.lt, JS.ge. rewrite ltb_spec, leb_spec. unfold SFltb, SFleb.
  rewrite (SFcompare_antisym (Prim2SF x) (Prim2SF y)).
  destruct (SFcompare (Prim2SF x) (Prim2SF y)) as [[| |]|]; simpl;
    intro H; try discriminate; reflexivity.
Qed.

(** For numbers (not NaN), [x < y] when not [x >= y]. *)
Lemma not_ge_lt (x y a : JS.number) :
  JS.ge x a = true -> JS.ge y y = true -> JS.ge x y = false ->
  JS.lt x y = true.
Proof.
  unfold JS.lt, JS.ge. rewrite ltb_spec, !leb_spec. unfold SFltb, SFleb.
  intros Hx Hy.
  destruct (SFcompare (Prim2SF a) (Prim2SF x)) as [cx|] eqn:Hcx; [|discriminate].
  destruct (SFcompare (Prim2SF y) (Prim2SF y)) as [cy|] eqn:Hcy; [|discriminate].
  pose proof (SFcompare_defined _ _ _ _ _ _ Hcx Hcy) as Hdef.
  rewrite (SFcompare_antisym (Prim2SF x) (Prim2SF y)).
  destruct (SFcompare (Prim2SF x) (Prim2SF y)) as [[| |]|]; simpl;
    intro H; try discriminate; try reflexivity.
  now elim Hdef.
Qed.

(** Below a smaller positive constant is not at or above a larger one: the
    exponents of the two constants already decide it. *)
Lemma lt_not_ge_larger (x lo hi : JS.number) (ml mh : positive) (el eh : Z) :
  Prim2SF lo = S754_finite false ml el ->
  Prim2SF hi = S754_finite false mh eh ->
  (el < eh)%Z ->
  JS.lt x lo = true -> JS.ge x hi = false.
Proof.
  unfold JS.lt, JS.ge. rewrite ltb_spec, leb_spec. unfold SFltb, SFleb.
  intros -> -> Hlt.
  destruct (Prim2SF x) as [s|s| |s m e]; simpl;
    try (destruct s; simpl); intro H; try discriminate H; try reflexivity.
  revert H.
  destruct (e ?= el)%Z eqn:He; try discriminate; intros _.
  - apply Z.compare_eq in He. subst e.
    assert (H : (eh ?= el)%Z = Gt) by (change (eh > el)%Z; lia).
    now rewrite H.
  - change (e < el)%Z in He.
    assert (H : (eh ?= e)%Z = Gt) by (change (eh > e)%Z; lia).
    now rewrite H.
Qed.

(** And it is below the larger one. *)
Lemma lt_lt_larger (x lo hi : JS.number) (ml mh : positive) (el eh : Z) :
  Prim2SF lo = S754_finite false ml el ->
  Prim2SF hi = S754_finite false mh eh ->
  (el < eh)%Z ->
  JS.lt x lo = true -> JS.lt x hi = true.
Proof.
  unfold JS.lt. rewrite !ltb_spec. unfold SFltb.
  intros -> -> Hlt.
  destruct (Prim2SF x) as [s|s| |s m e]; cbn [SFcompare];
    try (destruct s); intro H; try discriminate H; try reflexivity.
  revert H.
  destruct (e ?= el)%Z eqn:He; try discriminate; intros _.
  - apply Z.compare_eq in He. subst e.
    assert (H : (el ?= eh)%Z = Lt) by exact Hlt.
    now rewrite H.
  - change (e < el)%Z in He.
    assert (H : (e ?= eh)%Z = Lt) by (change (e < eh)%Z; lia).
    now rewrite H.
Qed.

Lemma append_empty_r (s : string) : s ++ "" = s.
Proof.
  induction s as [|c s IH]; simpl; [reflexivity | now rewrite IH].
Qed.

(** *** Digits *)

Lemma is_digit_digit_char (d : Z) : JS.is_digit (JS.digit_char d) = true.
Proof.
  unfold JS.digit_char.
  assert (H : (0 <= d mod 10 < 10)%Z) by (apply Z.mod_pos_bound; lia).
  assert (Hn : (Z.to_nat (d mod 10) < 10)%nat) by lia.
  destruct (Z.to_nat (d mod 10)) as [|[|[|[|[|[|[|[|[|[|n]]]]]]]]]];
    try reflexivity; lia.
Qed.

Lemma digits_aux_digits (fuel : nat) (n : Z) (acc : string) :
  JS.all_digits acc = true -> JS.all_digits (JS.digits_aux fuel n acc) = true.
Proof.
  revert n acc. induction fuel as [|fuel IH]; intros n acc Hacc;
    cbn [JS.digits_aux].
  - cbn [JS.all_digits]. now rewrite is_digit_digit_char.
  - destruct (n <? 10)%Z.
    + cbn [JS.all_digits]. now rewrite is_digit_digit_char.
    + apply IH. cbn [JS.all_digits]. now rewrite is_digit_digit_char.
Qed.

Lemma digits_aux_not_empty (fuel : nat) (n : Z) (acc : string) :
  JS.digits_aux fuel n acc <> "".
Proof.
  revert n acc. induction fuel as [|fuel IH]; intros n acc;
    cbn [JS.digits_aux].
  - discriminate.
  - destruct (n <? 10)%Z; [discriminate | apply IH].
Qed.

Lemma fixed_digits_two (n : Z) :
  JS.fixed_digits n 2
  = JS.decimal (n / 10 ^ 2) ++ "."
    ++ String (JS.digit_char (n / 10)) (String (JS.digit_char n) "").
Proof.
  reflexivity.
Qed.

Lemma fixed_digits_two_decimals (n : Z) :
  JS.two_decimals (JS.fixed_digits n 2).
Proof.
  rewrite fixed_digits_two.
  exists "", (JS.decimal (n / 10 ^ 2)), (JS.digit_char (n / 10)), (JS.digit_char n).
  split; [reflexivity|]. split; [now left|].
  split; [apply digits_aux_not_empty|].
  split; [now apply digits_aux_digits|].
  split; apply is_digit_digit_char.
Qed.

(** In its fixed range, [toFixed(2)] gives two decimal places. *)
Lemma toFixed_two_decimals (x : JS.number) :
  JS.fixed_range x = true -> JS.two_decimals (JS.toFixed x 2).
Proof.
  unfold JS.fixed_range, JS.toFixed.
  destruct (Prim2SF x) as [s|s| |s m e]; try discriminate.
  - intros _. apply fixed_digits_two_decimals.
  - intro H. apply negb_true_iff in H. rewrite H, fixed_digits_two.
    set (n := JS.nearest_scaled (JS.magnitude m e) 2).
    exists (if s then "-" else ""), (JS.decimal (n / 10 ^ 2)),
           (JS.digit_char (n / 10)), (JS.digit_char n).
    split; [reflexivity|].
    split; [destruct s; [now right | now left]|].
    split; [apply digits_aux_not_empty|].
    split; [now apply digits_aux_digits|].
    split; apply is_digit_digit_char.
Qed.

(** *** Division by a constant stays small *)

Lemma fexp_eq (k : Z) : fexp prec emax k = Z.max (k - 53) (-1074).
Proof. reflexivity. Qed.

Lemma digits2_pos_lower (m : positive) :
  (2 ^ (Z.pos (digits2_pos m) - 1) <= Z.pos m)%Z.
Proof.
  induction m as [m IH|m IH|]; cbn [digits2_pos].
  - rewrite Pos2Z.inj_succ.
    replace (Z.succ (Z.pos (digits2_pos m)) - 1)%Z
      with (Z.succ (Z.pos (digits2_pos m) - 1)) by lia.
    rewrite Z.pow_succ_r by lia. lia.
  - rewrite Pos2Z.inj_succ.
    replace (Z.succ (Z.pos (digits2_pos m)) - 1)%Z
      with (Z.succ (Z.pos (digits2_pos m) - 1)) by lia.
    rewrite Z.pow_succ_r by lia. lia.
  - reflexivity.
Qed.

Lemma digits2_pos_upper (m : positive) :
  (Z.pos m < 2 ^ Z.pos (digits2_pos m))%Z.
Proof.
  induction m as [m IH|m IH|]; cbn [digits2_pos].
  - rewrite Pos2Z.inj_succ, Z.pow_succ_r by lia. lia.
  - rewrite Pos2Z.inj_succ, Z.pow_succ_r by lia. lia.
  - reflexivity.
Qed.

(** A positive integer below [2^k] has at most [k] binary digits. *)
Lemma digits2_pos_le (m : positive) (k : Z) :
  (0 <= k)%Z -> (Z.pos m < 2 ^ k)%Z -> (Z.pos (digits2_pos m) <= k)%Z.
Proof.
  intros Hk Hm. pose proof (digits2_pos_lower m) as Hl.
  destruct (Z_le_gt_dec (Z.pos (digits2_pos m)) k) as [H|H]; [exact H|].
  exfalso.
  assert (Hp : (2 ^ k <= 2 ^ (Z.pos (digits2_pos m) - 1))%Z)
    by (apply Z.pow_le_mono_r; lia).
  lia.
Qed.

Lemma shr_m_of_loc (m : Z) (l : location) :
  shr_m (shr_record_of_loc m l) = m.
Proof.
  destruct l as [|[| |]]; reflexivity.
Qed.

Lemma shr_1_half (mrs : shr_record) :
  (0 <= shr_m mrs)%Z -> shr_m (shr_1 mrs) = (shr_m mrs / 2)%Z.
Proof.
  destruct mrs as [m r s]. cbn [shr_m shr_1].
  destruct m as [|[p|p|]|p]; cbn [shr_m]; intro H; try lia.
  - reflexivity.
  - rewrite Pos2Z.inj_xI. apply Z.div_unique with (r := 1%Z); lia.
  - rewrite Pos2Z.inj_xO. apply Z.div_unique with (r := 0%Z); lia.
  - reflexivity.
Qed.

(** Aligning a mantissa below [2^54] shifts it by at most one binary place
    and leaves at most 53 binary digits. *)
Lemma shr_fexp_small (m e : Z) (l : location) :
  (0 <= m < 2 ^ 54)%Z -> (-1074 <= e)%Z ->
  (0 <= shr_m (fst (shr_fexp prec emax m e l)) < 2 ^ 53)%Z /\
  (e <= snd (shr_fexp prec emax m e l) <= e + 1)%Z.
Proof.
  intros Hm He. unfold shr_fexp, shr. rewrite fexp_eq.
  assert (Hd : (Zdigits2 m <= 54)%Z /\ (Zdigits2 m <= 53 -> m < 2 ^ 53)%Z).
  { destruct m as [|p|p]; cbn [Zdigits2]; try lia.
    split; [apply digits2_pos_le; lia|].
    intro H. pose proof (digits2_pos_upper p) as Hu.
    assert (2 ^ Z.pos (digits2_pos p) <= 2 ^ 53)%Z
      by (apply Z.pow_le_mono_r; lia).
    lia. }
  destruct Hd as [Hd Hd'].
  destruct (Z.max (Zdigits2 m + e - 53) (-1074) - e)%Z as [|n|n] eqn:Hn;
    cbn [fst snd].
  - rewrite shr_m_of_loc. split; [|lia]. split; [lia|]. apply Hd'. lia.
  - assert (n = 1%positive) by lia. subst n. cbn [iter_pos].
    rewrite shr_1_half, shr_m_of_loc by (rewrite shr_m_of_loc; lia).
    split; [|lia]. split; [apply Z.div_pos; lia|].
    apply Z.div_lt_upper_bound; lia.
  - rewrite shr_m_of_loc. split; [|lia]. split; [lia|]. apply Hd'. lia.
Qed.

Lemma round_nearest_even_le (m : Z) (l : location) :
  (m <= round_nearest_even m l <= m + 1)%Z.
Proof.
  unfold round_nearest_even. destruct l as [|[| |]]; try lia.
  destruct (Z.even m); lia.
Qed.

(** Rounding a quotient below [2^54] at a small exponent gives zero or a
    finite number whose exponent is at most two more. *)
Lemma binary_round_aux_small (q e : Z) (l : location) :
  (0 <= q < 2 ^ 54)%Z -> (-1074 <= e <= 900)%Z ->
  exists s, binary_round_aux prec emax false q e l = s /\
    match s with
    | S754_zero false => True
    | S754_finite false _ e' => (e' <= e + 2)%Z
    | _ => False
    end.
Proof.
  intros Hq He. unfold binary_round_aux.
  pose proof (shr_fexp_small q e l Hq ltac:(lia)) as [Hm1 He1].
  destruct (shr_fexp prec emax q e l) as [mrs1 e1]. cbn [fst snd] in Hm1, He1.
  pose proof (round_nearest_even_le (shr_m mrs1) (loc_of_shr_record mrs1)) as Hr.
  set (m1 := round_nearest_even (shr_m mrs1) (loc_of_shr_record mrs1)) in *.
  assert (Hm1' : (0 <= m1 < 2 ^ 54)%Z).
  { change (2 ^ 54)%Z with (2 * 2 ^ 53)%Z. lia. }
  pose proof (shr_fexp_small m1 e1 loc_Exact Hm1' ltac:(lia)) as [Hm2 He2].
  destruct (shr_fexp prec emax m1 e1 loc_Exact) as [mrs2 e2].
  cbn [fst snd] in Hm2, He2.
  eexists. split; [reflexivity|].
  destruct (shr_m mrs2) as [|p|p]; [exact I| |lia].
  assert (Hle : (e2 <=? emax - prec)%Z = true)
    by (apply Z.leb_le; change (emax - prec)%Z with 971%Z; lia).
  rewrite Hle. lia.
Qed.

(** Dividing a valid non-negative number of exponent [ex] by a positive
    53-digit constant of exponent [ec] gives zero or a finite non-negative
    number of exponent at most 16, as long as [ex - ec <= 67]. *)
Lemma SFdiv_small (mx : positive) (ex : Z) (mc : positive) (ec : Z) :
  bounded prec emax mx ex = true ->
  digits2_pos mc = 53%positive ->
  (-60 <= ec <= 0)%Z ->
  (ex - ec - 53 <= 14)%Z ->
  match SFdiv prec emax (S754_finite false mx ex) (S754_finite false mc ec) with
  | S754_zero false => True
  | S754_finite false _ e => (e <= 16)%Z
  | _ => False
  end.
Proof.
  intros Hb Hdc Hec Hex.
  unfold bounded, canonical_mantissa in Hb. rewrite fexp_eq in Hb.
  apply andb_true_iff in Hb. destruct Hb as [Hcan Hmax].
  apply Z.eqb_eq in Hcan. apply Z.leb_le in Hmax.
  change (emax - prec)%Z with 971%Z in Hmax.
  pose proof (digits2_pos_upper mx) as Hmx.
  pose proof (digits2_pos_lower mc) as Hmc. rewrite Hdc in Hmc.
  change (2 ^ (53 - 1))%Z with 4503599627370496%Z in Hmc.
  set (d1 := Z.pos (digits2_pos mx)) in *.
  assert (Hd1 : (1 <= d1 <= 53)%Z) by (subst d1; lia).
  cbn [SFdiv]. unfold SFdiv_core_binary. cbn [Zdigits2]. rewrite Hdc.
  fold d1. rewrite fexp_eq.
  set (e' := Z.min (Z.max (d1 + ex - (53 + ec) - 53) (-1074)) (ex - ec)).
  assert (He' : (-1074 <= e' <= 14)%Z) by (subst e'; lia).
  assert (Hs : (0 <= ex - ec - e' <= 106 - d1)%Z) by (subst e'; lia).
  set (m' := match (ex - ec - e')%Z with
             | Z.pos _ => Z.shiftl (Z.pos mx) (ex - ec - e')
             | 0%Z => Z.pos mx
             | Z.neg _ => 0%Z
             end).
  assert (Hm' : (0 <= m' < 2 ^ 106)%Z).
  { assert (Hpow : (2 ^ d1 * 2 ^ (ex - ec - e') <= 2 ^ 106)%Z).
    { rewrite <- Z.pow_add_r by lia. apply Z.pow_le_mono_r; lia. }
    assert (Hp1 : (0 < 2 ^ (ex - ec - e'))%Z) by (apply Z.pow_pos_nonneg; lia).
    subst m'. destruct (ex - ec - e')%Z as [|n|n] eqn:Hn.
    - rewrite Z.pow_0_r in Hpow. lia.
    - rewrite Z.shiftl_mul_pow2 by lia. nia.
    - lia. }
  destruct (Z.div_eucl m' (Z.pos mc)) as [q r] eqn:Hqr.
  assert (Hq : q = (m' / Z.pos mc)%Z)
    by (unfold Z.div; now rewrite Hqr).
  assert (Hq54 : (0 <= q < 2 ^ 54)%Z).
  { subst q. split; [apply Z.div_pos; lia|].
    apply Z.div_lt_upper_bound; [lia|].
    change (2 ^ 106)%Z with (4503599627370496 * 2 ^ 54)%Z in Hm'.
    assert (0 < 2 ^ 54)%Z by reflexivity. nia. }
  cbn [xorb].
  destruct (binary_round_aux_small q e' (new_location (Z.pos mc) r) Hq54
              ltac:(lia)) as [res [Hres Hprop]].
  rewrite Hres. destruct res as [[|]|[|]| |[|] m e]; try exact Hprop. lia.
Qed.

(** The quotient of a non-negative number below [bound] by the constant [c]
    is at least 0 and below 1e21, when the exponents of [bound] and [c] are
    at most 67 apart. *)
Lemma div_below_1e21 (x c bound : JS.number) (mc mb : positive) (ec eb : Z) :
  Prim2SF c = S754_finite false mc ec ->
  digits2_pos mc = 53%positive ->
  (-60 <= ec <= 0)%Z ->
  Prim2SF bound = S754_finite false mb eb ->
  (eb - ec - 53 <= 14)%Z ->
  JS.ge x 0%float = true -> JS.lt x bound = true ->
  JS.ge (JS.div x c) 0%float = true /\ JS.lt (JS.div x c) 1e21%float = true.
Proof.
  intros Hc Hdc Hec Hb Heb.
  unfold JS.ge, JS.lt, JS.div.
  rewrite !leb_spec, !ltb_spec, div_spec, Hc, Hb. unfold SFleb, SFltb.
  pose proof (Prim2SF_valid x) as Hv.
  change (Prim2SF 1e21%float) with (S754_finite false 7629394531250000 17).
  change (Prim2SF 0%float) with (S754_zero false).
  destruct (Prim2SF x) as [s|s| |s mx ex]; cbn [SFcompare];
    try discriminate.
  - intros _ _. unfold SF64div. cbn [SFdiv SFcompare]. now split.
  - destruct s; discriminate.
  - destruct s; [discriminate|]. intros _ Hlt. cbn [valid_binary] in Hv.
    assert (Hex : (ex <= eb)%Z).
    { destruct (ex ?= eb)%Z eqn:He; try discriminate.
      - apply Z.compare_eq in He. lia.
      - change (ex < eb)%Z in He. lia. }
    pose proof (SFdiv_small mx ex mc ec Hv Hdc Hec ltac:(lia)) as Hres.
    unfold SF64div.
    destruct (SFdiv prec emax (S754_finite false mx ex) (S754_finite false mc ec))
      as [[|]|[|]| |[|] m e]; try contradiction; cbn [SFcompare].
    + now split.
    + split; [reflexivity|].
      assert (H17 : (e ?= 17)%Z = Lt) by (change (e < 17)%Z; lia).
      now rewrite H17.
Qed.

(** A number that JavaScript finds below 1e21 and at least 0 is in the
    fixed range. *)
Lemma valid_mantissa_bound (m : positive) (e : Z) :
  bounded prec emax m e = true -> (Z.pos m < 2 ^ 53)%Z.
Proof.
  unfold bounded, canonical_mantissa, fexp. intro H.
  apply andb_true_iff in H. destruct H as [H _]. apply Z.eqb_eq in H.
  assert (Hd : (Z.pos (digits2_pos m) <= 53)%Z).
  { change prec with 53%Z in H. lia. }
  pose proof (digits2_pos_upper m) as Hm.
  assert (Hp : (2 ^ Z.pos (digits2_pos m) <= 2 ^ 53)%Z)
    by (apply Z.pow_le_mono_r; lia).
  lia.
Qed.

Lemma below_1e21_fixed_range (q : JS.number) :
  JS.lt q 1e21%float = true -> JS.ge q 0%float = true ->
  JS.fixed_range q = true.
Proof.
  unfold JS.lt, JS.ge, JS.fixed_range.
  rewrite ltb_spec, leb_spec. unfold SFltb, SFleb.
  pose proof (Prim2SF_valid q) as Hv.
  change (Prim2SF 1e21%float) with (S754_finite false 7629394531250000 17).
  change (Prim2SF 0%float) with (S754_zero false).
  destruct (Prim2SF q) as [s|s| |s m e]; cbn [SFcompare];
    try discriminate; try reflexivity.
  - destruct s; discriminate.
  - destruct s; [discriminate|]. intros Hlt _.
    cbn [valid_binary] in Hv.
    apply valid_mantissa_bound in Hv.
    apply negb_true_iff. unfold JS.at_least_1e21, JS.magnitude.
    destruct (0 <=? e)%Z eqn:He.
    + apply Z.leb_le in He. apply Z.leb_gt.
      destruct (e ?= 17)%Z eqn:H17; try discriminate.
      * apply Z.compare_eq in H17. subst e.
        assert (Hm : (Z.pos m < 7629394531250000)%Z).
        { destruct (Pos.compare_cont Eq m 7629394531250000%positive) eqn:Hc;
            try discriminate.
          exact Hc. }
        lia.
      * change (e < 17)%Z in H17.
        assert (Hp : (2 ^ e <= 2 ^ 16)%Z) by (apply Z.pow_le_mono_r; lia).
        nia.
    + apply Z.leb_gt in He. apply Z.leb_gt.
      assert (Hp : (1 <= 2 ^ (- e))%Z) by (apply Z.pow_le_mono_r with (b := 0%Z); lia).
      nia.
Qed.

Lemma loc_of_shr_record_of_loc (m : Z) (l : location) :
  loc_of_shr_record (shr_record_of_loc m l) = l.
Proof.
  destruct l as [|[| |]]; reflexivity.
Qed.

(** A mantissa of 53 binary digits is kept; one of 54 loses its last
    digit. *)
Lemma shr_fexp_normal (m e : Z) (l : location) :
  (2 ^ 52 <= m < 2 ^ 54)%Z -> (-1074 <= e)%Z ->
  shr_fexp prec emax m e l
  = if (m <? 2 ^ 53)%Z then (shr_record_of_loc m l, e)
    else (shr_1 (shr_record_of_loc m l), (e + 1)%Z).
Proof.
  intros Hm He. unfold shr_fexp, shr. rewrite fexp_eq.
  destruct m as [|p|p]; try (exfalso; lia). cbn [Zdigits2].
  pose proof (digits2_pos_lower p) as Hl.
  pose proof (digits2_pos_upper p) as Hu.
  set (d := Z.pos (digits2_pos p)) in *.
  assert (Hd52 : (52 < d)%Z).
  { destruct (Z_lt_le_dec 52 d) as [H|H]; [exact H|]. exfalso.
    assert (2 ^ d <= 2 ^ 52)%Z by (apply Z.pow_le_mono_r; lia). lia. }
  destruct (Z.pos p <? 2 ^ 53)%Z eqn:H53.
  - apply Z.ltb_lt in H53.
    assert (Hd : d = 53%Z).
    { assert (d <= 53)%Z by (subst d; apply digits2_pos_le; lia). lia. }
    rewrite Hd.
    replace (Z.max (53 + e - 53) (-1074) - e)%Z with 0%Z by lia.
    reflexivity.
  - apply Z.ltb_ge in H53.
    assert (Hd : d = 54%Z).
    { assert (d <= 54)%Z by (subst d; apply digits2_pos_le; lia).
      destruct (Z.eq_dec d 53) as [E|E]; [|lia]. rewrite E in Hu. lia. }
    rewrite Hd.
    replace (Z.max (54 + e - 53) (-1074) - e)%Z with 1%Z by lia.
    reflexivity.
Qed.

(** Rounding a quotient of 53 or 54 binary digits: the result is finite; a
    53-digit quotient is rounded as it is, with a carry into the next
    exponent when it rounds up to [2^53]; a 54-digit quotient loses one
    digit. *)
Lemma binary_round_aux_normal (q e : Z) (l : location) :
  (2 ^ 52 <= q < 2 ^ 54 - 2)%Z -> (-1074 <= e <= 900)%Z ->
  exists (m : positive) (er : Z),
    binary_round_aux prec emax false q e l = S754_finite false m er /\
    ((q < 2 ^ 53 /\
      ((Z.pos m = round_nearest_even q l /\ er = e) \/
       (round_nearest_even q l = 2 ^ 53 /\ Z.pos m = 2 ^ 52 /\ er = e + 1)))%Z
     \/ (2 ^ 53 <= q /\ q / 2 <= Z.pos m <= q / 2 + 1 /\ er = e + 1)%Z).
Proof.
  intros Hq He. unfold binary_round_aux.
  rewrite (shr_fexp_normal q e l) by lia.
  destruct (q <? 2 ^ 53)%Z eqn:Hq53.
  - apply Z.ltb_lt in Hq53.
    rewrite shr_m_of_loc, loc_of_shr_record_of_loc.
    pose proof (round_nearest_even_le q l) as Hr.
    set (m1 := round_nearest_even q l) in *.
    rewrite (shr_fexp_normal m1 e loc_Exact) by lia.
    destruct (m1 <? 2 ^ 53)%Z eqn:Hm1.
    + apply Z.ltb_lt in Hm1. rewrite shr_m_of_loc.
      destruct m1 as [|p|p] eqn:Ep; try (exfalso; lia).
      assert (Hle : (e <=? emax - prec)%Z = true)
        by (apply Z.leb_le; change (emax - prec)%Z with 971%Z; lia).
      rewrite Hle. exists p, e. split; [reflexivity|].
      left. split; [exact Hq53|]. left. split; reflexivity.
    + apply Z.ltb_ge in Hm1.
      assert (Em : m1 = (2 ^ 53)%Z) by lia.
      rewrite Em.
      assert (Hle : (e + 1 <=? emax - prec)%Z = true)
        by (apply Z.leb_le; change (emax - prec)%Z with 971%Z; lia).
      cbn [shr_record_of_loc]. change (2 ^ 53)%Z with 9007199254740992%Z.
      cbn [shr_1 shr_m]. rewrite Hle.
      exists 4503599627370496%positive, (e + 1)%Z. split; [reflexivity|].
      left. split; [exact Hq53|]. right. repeat split; reflexivity.
  - apply Z.ltb_ge in Hq53.
    pose proof (shr_1_half (shr_record_of_loc q l)) as Hh.
    rewrite shr_m_of_loc in Hh. specialize (Hh ltac:(lia)).
    set (mrs1 := shr_1 (shr_record_of_loc q l)) in *.
    pose proof (round_nearest_even_le (shr_m mrs1) (loc_of_shr_record mrs1)) as Hr.
    set (m1 := round_nearest_even (shr_m mrs1) (loc_of_shr_record mrs1)) in *.
    rewrite Hh in Hr.
    assert (Hq2 : (2 ^ 52 <= q / 2 < 2 ^ 53 - 1)%Z).
    { split.
      - apply Z.div_le_lower_bound; [lia|].
        change (2 * 2 ^ 52)%Z with (2 ^ 53)%Z. lia.
      - apply Z.div_lt_upper_bound; [lia|].
        change (2 * (2 ^ 53 - 1))%Z with (2 ^ 54 - 2)%Z. lia. }
    rewrite (shr_fexp_normal m1 (e + 1) loc_Exact) by lia.
    assert (Hm1 : (m1 <? 2 ^ 53)%Z = true) by (apply Z.ltb_lt; lia).
    rewrite Hm1, shr_m_of_loc.
    destruct m1 as [|p|p] eqn:Ep; try (exfalso; lia).
    assert (Hle : (e + 1 <=? emax - prec)%Z = true)
      by (apply Z.leb_le; change (emax - prec)%Z with 971%Z; lia).
    rewrite Hle. exists p, (e + 1)%Z. split; [reflexivity|].
    right. split; [exact Hq53|]. split; [lia | reflexivity].
Qed.

(** Division by 1e9 of a number from 1e9 up to, and not including, 1e30
    gives a number below 1e21. *)
Lemma SFdiv_1e9_below_1e21 (mx : positive) (ex : Z) :
  bounded prec emax mx ex = true ->
  (-23 <= ex)%Z ->
  (ex < 47 \/ (ex = 47 /\ Z.pos mx < 7105427357601002))%Z ->
  exists (m : positive) (e : Z),
    SFdiv prec emax (S754_finite false mx ex)
      (S754_finite false 8388608000000000 (-23)) = S754_finite false m e /\
    (e < 17 \/ (e = 17 /\ Z.pos m < 7629394531250000))%Z.
Proof.
  intros Hb Hlo Hhi.
  unfold bounded, canonical_mantissa in Hb. rewrite fexp_eq in Hb.
  apply andb_true_iff in Hb. destruct Hb as [Hcan _].
  apply Z.eqb_eq in Hcan.
  assert (Hd1 : Z.pos (digits2_pos mx) = 53%Z) by lia.
  pose proof (digits2_pos_lower mx) as Hml.
  pose proof (digits2_pos_upper mx) as Hmu.
  rewrite Hd1 in Hml, Hmu.
  change (2 ^ (53 - 1))%Z with 4503599627370496%Z in Hml.
  change (2 ^ 53)%Z with 9007199254740992%Z in Hmu.
  cbn [SFdiv]. unfold SFdiv_core_binary. cbn [Zdigits2]. rewrite Hd1.
  change (Z.pos (digits2_pos 8388608000000000)) with 53%Z.
  rewrite fexp_eq.
  replace (Z.min (Z.max (53 + ex - (53 + -23) - 53) (-1074)) (ex - -23))
    with (ex - 30)%Z by lia.
  replace (ex - -23 - (ex - 30))%Z with 53%Z by lia.
  rewrite Z.shiftl_mul_pow2 by lia.
  change (2 ^ 53)%Z with 9007199254740992%Z.
  pose proof (Z_div_mod (Z.pos mx * 9007199254740992) 8388608000000000
                ltac:(reflexivity)) as Hdiv.
  destruct (Z.div_eucl (Z.pos mx * 9007199254740992) 8388608000000000)
    as [q r].
  destruct Hdiv as [Hqr Hr].
  cbn [xorb].
  set (l := new_location 8388608000000000 r).
  assert (Hq : (4503599627370496 <= q < 18014398509481982)%Z) by lia.
  destruct (binary_round_aux_normal q (ex - 30) l) as [m [er [Hres Hcase]]].
  { change (2 ^ 52)%Z with 4503599627370496%Z.
    change (2 ^ 54 - 2)%Z with 18014398509481982%Z. exact Hq. }
  { lia. }
  rewrite Hres. exists m, er. split; [reflexivity|].
  change (2 ^ 53)%Z with 9007199254740992%Z in Hcase.
  change (2 ^ 52)%Z with 4503599627370496%Z in Hcase.
  assert (Hround : (ex = 47 -> round_nearest_even q l < 7629394531250000)%Z).
  { intro E. subst l. unfold new_location.
    change (Z.even 8388608000000000) with true. cbv beta iota.
    unfold new_location_even.
    destruct (r =? 0)%Z eqn:Hr0; [cbn [round_nearest_even]; lia|].
    destruct (2 * r ?= 8388608000000000)%Z eqn:Hc; cbn [round_nearest_even].
    - apply Z.compare_eq in Hc. destruct (Z.even q); lia.
    - lia.
    - apply Z.compare_gt_iff in Hc. lia. }
  destruct Hcase as [[Hq53 [[Hm He]|[Hr53 [Hm He]]]]|[Hq53 [Hm He]]].
  - destruct (Z.eq_dec ex 47) as [E|E].
    + right. specialize (Hround E). lia.
    + left. lia.
  - destruct (Z.eq_dec ex 47) as [E|E].
    + specialize (Hround E). lia.
    + destruct (Z.eq_dec ex 46) as [E'|E']; [right|left]; lia.
  - destruct (Z.eq_dec ex 47) as [E|E]; [lia|].
    assert (Hq2 : (q / 2 <= 4835703278458516)%Z).
    { apply Z.lt_succ_r. apply Z.div_lt_upper_bound; lia. }
    destruct (Z.eq_dec ex 46) as [E'|E']; [right|left]; lia.
Qed.

Lemma Prim2SF_0 : Prim2SF 0%float = S754_zero false.
Proof. reflexivity. Qed.

Lemma Prim2SF_1e9 :
  Prim2SF 1e9%float = S754_finite false 8388608000000000 (-23).
Proof. reflexivity. Qed.

Lemma Prim2SF_1e21 :
  Prim2SF 1e21%float = S754_finite false 7629394531250000 17.
Proof. reflexivity. Qed.

Lemma Prim2SF_1e30 :
  Prim2SF 1e30%float = S754_finite false 7105427357601002 47.
Proof. reflexivity. Qed.

Lemma compare_cont_Eq_spec (p q : positive) :
  CompareSpec (Z.pos p = Z.pos q) (Z.pos p < Z.pos q)%Z (Z.pos q < Z.pos p)%Z
    (Pos.compare_cont Eq p q).
Proof.
  change (Pos.compare_cont Eq p q) with (Pos.compare p q).
  destruct (Pos.compare_spec p q) as [H|H|H]; constructor; lia.
Qed.

Lemma div_1e9_below_1e21 (x : JS.number) :
  JS.ge x 1e9%float = true -> JS.lt x 1e30%float = true ->
  JS.ge (JS.div x 1e9%float) 0%float = true /\
  JS.lt (JS.div x 1e9%float) 1e21%float = true.
Proof.
  unfold JS.ge, JS.lt, JS.div.
  rewrite !leb_spec, !ltb_spec, div_spec. unfold SFleb, SFltb.
  pose proof (Prim2SF_valid x) as Hv.
  rewrite Prim2SF_1e21, Prim2SF_1e30, Prim2SF_1e9, Prim2SF_0.
  destruct (Prim2SF x) as [s|s| |s mx ex]; cbn [SFcompare];
    try discriminate.
  - destruct s; intros; discriminate.
  - destruct s; [discriminate|]. cbn [valid_binary] in Hv.
    destruct (Z.compare_spec (-23) ex) as [Hlo|Hlo|Hlo].
    all: destruct (Z.compare_spec ex 47) as [Hhi|Hhi|Hhi].
    all: try discriminate.
    all: try (destruct (compare_cont_Eq_spec mx 7105427357601002) as [Hm|Hm|Hm];
           try discriminate).
    all: intros _ _.
    all: (destruct (SFdiv_1e9_below_1e21 mx ex Hv ltac:(lia) ltac:(lia))
        as [m [e [Hres [He|[He Hm']]]]]).
    all:  unfold SF64div; rewrite Hres; clear Hres; cbn [SFcompare];
      (split; [reflexivity|]).
    all: try (destruct (Z.compare_spec e 17); [lia|reflexivity|lia]).
    all: subst e; rewrite Z.compare_refl;
      destruct (compare_cont_Eq_spec m 7629394531250000); [lia|reflexivity|lia].
Qed.

(** *** The bands *)

(** C10, as the code has it.  For a non-negative number [value],
    [formatMarketCap] returns a dollar sign, [toFixed(2)] of a quotient and a
    suffix: [value / 1e9] and B when [value >= 1e9]; [value / 1e6] and M
    when [1e6 <= value < 1e9]; [value / 1e3] and K when
    [1e3 <= value < 1e6]; [value] itself and no suffix when [value < 1e3];
    exactly these four cases arise.  The part between the dollar sign and the
    suffix has exactly two decimal places in the three lower bands, and in
    the first one for every [value] below 1e30. *)
Theorem formatMarketCap_bands :
  forall value : JS.number,
    JS.ge value 0%float = true ->
    (JS.ge value 1e9%float = true ->
       Market.formatMarketCap value
       = "$" ++ JS.toFixed (JS.div value 1e9%float) 2 ++ "B" /\
       (JS.lt value 1e30%float = true ->
        JS.two_decimals (JS.toFixed (JS.div value 1e9%float) 2))) /\
    (JS.ge value 1e6%float = true -> JS.lt value 1e9%float = true ->
       Market.formatMarketCap value
       = "$" ++ JS.toFixed (JS.div value 1e6%float) 2 ++ "M" /\
       JS.two_decimals (JS.toFixed (JS.div value 1e6%float) 2)) /\
    (JS.ge value 1e3%float = true -> JS.lt value 1e6%float = true ->
       Market.formatMarketCap value
       = "$" ++ JS.toFixed (JS.div value 1e3%float) 2 ++ "K" /\
       JS.two_decimals (JS.toFixed (JS.div value 1e3%float) 2)) /\
    (JS.lt value 1e3%float = true ->
       Market.formatMarketCap value = "$" ++ JS.toFixed value 2 /\
       JS.two_decimals (JS.toFixed value 2)) /\
    (JS.ge value 1e9%float = true \/
     (JS.ge value 1e6%float = true /\ JS.lt value 1e9%float = true) \/
     (JS.ge value 1e3%float = true /\ JS.lt value 1e6%float = true) \/
     JS.lt value 1e3%float = true).
Proof.
  intros value Hpos.
  assert (H36 : JS.lt value 1e3%float = true -> JS.ge value 1e6%float = false).
  { apply (lt_not_ge_larger value 1e3%float 1e6%float
             8796093022208000 8589934592000000 (-43) (-33));
      [reflexivity | reflexivity | lia]. }
  assert (H39 : JS.lt value 1e3%float = true -> JS.ge value 1e9%float = false).
  { apply (lt_not_ge_larger value 1e3%float 1e9%float
             8796093022208000 8388608000000000 (-43) (-23));
      [reflexivity | reflexivity | lia]. }
  assert (H69 : JS.lt value 1e6%float = true -> JS.ge value 1e9%float = false).
  { apply (lt_not_ge_larger value 1e6%float 1e9%float
             8589934592000000 8388608000000000 (-33) (-23));
      [reflexivity | reflexivity | lia]. }
  assert (Hlt : forall c, JS.ge c c = true -> JS.ge value c = false ->
                          JS.lt value c = true).
  { intros c Hc Hn. exact (not_ge_lt value c 0%float Hpos Hc Hn). }
  assert (H2 : forall q, JS.ge q 0%float = true /\ JS.lt q 1e21%float = true ->
                         JS.two_decimals (JS.toFixed q 2)).
  { intros q [H0 H21]. apply toFixed_two_decimals.
    now apply below_1e21_fixed_range. }
  unfold Market.formatMarketCap.
  split; [|split; [|split; [|split]]].
  - intros H9. rewrite H9. split; [reflexivity|].
    intro H30. apply H2. now apply div_1e9_below_1e21.
  - intros H6 H9. rewrite (lt_not_ge _ _ H9), H6. split; [reflexivity|].
    apply H2.
    apply (div_below_1e21 value 1e6%float 1e9%float
             8589934592000000 8388608000000000 (-33) (-23));
      [reflexivity | reflexivity | lia | reflexivity | lia
      | exact Hpos | exact H9].
  - intros H3 H6.
    rewrite (H69 H6), (lt_not_ge _ _ H6), H3. split; [reflexivity|].
    apply H2.
    apply (div_below_1e21 value 1e3%float 1e6%float
             8796093022208000 8589934592000000 (-43) (-33));
      [reflexivity | reflexivity | lia | reflexivity | lia
      | exact Hpos | exact H6].
  - intro H3.
    rewrite (H39 H3), (H36 H3), (lt_not_ge _ _ H3). split; [reflexivity|].
    apply H2. split; [exact Hpos|].
    apply (lt_lt_larger value 1e3%float 1e21%float
             8796093022208000 7629394531250000 (-43) 17);
      [reflexivity | reflexivity | lia | exact H3].
  - destruct (JS.ge value 1e9%float) eqn:H9; [now left | right].
    destruct (JS.ge value 1e6%float) eqn:H6;
      [left; split; [reflexivity | now apply Hlt] | right].
    destruct (JS.ge value 1e3%float) eqn:H3;
      [left; split; [reflexivity | now apply Hlt] | right].
    now apply Hlt.
Qed.

Lemma not_two_decimals_1e21 : ~ JS.two_decimals "1e+21".
Proof.
  intros [sg [ip [d1 [d2 [Heq [Hsg _]]]]]].
  destruct Hsg as [-> | ->]; [|discriminate Heq].
  change ("" ++ ip ++ "." ++ String d1 (String d2 ""))
    with (ip ++ String "." (String d1 (String d2 ""))) in Heq.
  destruct ip as [|c1 ip]; [discriminate Heq | injection Heq as _ Heq].
  destruct ip as [|c2 ip]; [discriminate Heq | injection Heq as _ Heq].
  destruct ip as [|c3 ip]; [discriminate Heq | injection Heq as _ Heq].
  destruct ip as [|c4 ip]; [discriminate Heq | injection Heq as _ Heq].
  destruct ip as [|c5 ip]; [discriminate Heq | injection Heq as _ Heq].
  destruct ip; discriminate Heq.
Qed.

(** C10 fails on the code.  The non-negative number 1e30 is at least 1e9;
    its quotient by 1e9 is 1e21, which [toFixed] renders in exponential
    notation: the result is "$1e+21B", with no decimal places.  Infinity
    gives "$InfinityB". *)
Lemma formatMarketCap_exponential_at_1e30 :
  JS.ge 1e30%float 0%float = true /\
  JS.ge 1e30%float 1e9%float = true /\
  JS.div 1e30%float 1e9%float = 1e21%float /\
  JS.lt 1e21%float 1e21%float = false /\
  JS.toFixed 1e21%float 2 = "1e+21" /\
  Market.formatMarketCap 1e30%float = "$" ++ "1e+21" ++ "B" /\
  ~ JS.two_decimals "1e+21" /\
  Market.formatMarketCap PrimFloat.infinity = "$InfinityB".
Proof.
  repeat split; try (vm_compute; reflexivity).
  exact not_two_decimals_1e21.
Qed.

(** The theorem above at 1234567, in the second band, and at 5e29, in the
    first. *)
Lemma formatMarketCap_bands_witness :
  JS.ge 1234567%float 0%float = true /\
  Market.formatMarketCap 1234567%float = "$1.23M" /\
  JS.two_decimals "1.23" /\
  JS.two_decimals (JS.toFixed (JS.div 5e29%float 1e9%float) 2).
Proof.
  assert (H0 : JS.ge 1234567%float 0%float = true) by reflexivity.
  split; [exact H0|].
  destruct (formatMarketCap_bands 1234567%float H0)
    as [_ [HM [_ [_ _]]]].
  destruct (HM eq_refl eq_refl) as [Heq Htwo].
  split; [|split].
  - rewrite Heq. vm_compute. reflexivity.
  - exact Htwo.
  - destruct (formatMarketCap_bands 5e29%float eq_refl) as [HB _].
    destruct (HB eq_refl) as [_ Htwo'].
    exact (Htwo' eq_refl).
Defined.

Example formatMarketCap_examples :
  map Market.formatMarketCap
    [ 846000000000%float; 1000000000%float; 999999999%float; 1234567%float;
      1500%float; 999.999%float; 0%float ]
  = [ "$846.00B"; "$1.00B"; "$1000.00M"; "$1.23M"; "$1.50K"; "$1000.00";
      "$0.00" ].
Proof. vm_compute. reflexivity. Qed.
(* ================================================================== *)
(** * Further properties of the pages *)
(* ================================================================== *)

(** ** Admin: setting the price of the MOON coin *)

Lemma length_update_where {A : Type} (hit : A -> bool) (f : A -> A)
    (rows : list A) :
  List.length (Backend.update_where hit f rows) = List.length rows.
Proof.
  unfold Backend.update_where. apply length_map.
Qed.

Lemma map_update_where {A B : Type} (g : A -> B) (hit : A -> bool)
    (f : A -> A) (rows : list A) :
  (forall r, g (f r) = g r) ->
  map g (Backend.update_where hit f rows) = map g rows.
Proof.
  intro Hg. unfold Backend.update_where. rewrite map_map.
  apply map_ext. intro r. destruct (hit r); [apply Hg | reflexivity].
Qed.

(** X1.  [updateMoonPrice] refuses an empty price field without writing.
    With any text in the field it sends the number [parseFloat] reads from
    it as the price of the coins named MOON.  With no such coin that the
    backend lets the caller update, it reports success and nothing is
    written.  With one, either the column takes the number, success is
    reported and, row by row, a coin named MOON that the caller may update
    becomes the same row at the price the column holds (the number rounded
    to eight decimals, null when it is not finite), every other coin staying
    as it is; or the column refuses the number, the error is shown and
    nothing is written.  The form, the balances, the transactions and the
    orders are never changed. *)
Theorem updateMoonPrice_sets_price :
  forall (policy : Backend.UpdatePolicy) (user : option uuid)
         (st : Admin.State) (d : Database),
    let o := Admin.updateMoonPrice policy user st d in
    let p := JS.parseFloat (Admin.moonPrice st) in
    let hit := fun c => String.eqb (Coin.symbol c) "MOON"
                        && Backend.may_update_coin policy user c in
    state o = st /\
    user_balances (db o) = user_balances d /\
    transactions (db o) = transactions d /\
    orders (db o) = orders d /\
    (Admin.moonPrice st = "" ->
       toast o = toast_error "Please enter a price" /\ db o = d) /\
    (Admin.moonPrice st <> "" ->
       (existsb hit (coins d) = false ->
          toast o = toast_success "MOON price updated successfully!" /\
          db o = d) /\
       (existsb hit (coins d) = true ->
        forall price : option JS.number,
          Backend.decimal_20_8 p = inl price ->
          toast o = toast_success "MOON price updated successfully!" /\
          List.length (coins (db o)) = List.length (coins d) /\
          (forall (i : nat) (c : Coin.Row),
             nth_error (coins d) i = Some c ->
             nth_error (coins (db o)) i
             = Some (if hit c then Coin.set_price price c else c)) /\
          (price = None <-> finite p = false)) /\
       (existsb hit (coins d) = true ->
        Backend.decimal_20_8 p = inr numeric_value_out_of_range ->
          toast o = toast_caught (Postgrest numeric_value_out_of_range)
                                 "Failed to update MOON price" /\
          db o = d)).
Proof.
  intros policy user st d o p hit. subst o. unfold Admin.updateMoonPrice.
  destruct (JS.falsy (Admin.moonPrice st)) eqn:Hf.
  - cbn [toast state db]. repeat (split; [reflexivity|]).
    split; [intros _; now split|].
    intro Hne. apply falsy_iff in Hf. now elim Hne.
  - fold p.
    destruct (update_coin_price_cases policy user p d)
      as [[Hno ->] | [[Hyes [price [Hprice ->]]] | [Hyes [Hprice ->]]]];
      fold hit in Hno || fold hit in Hyes;
      cbn [throw_if_error toast state db coins user_balances transactions
           orders];
      repeat (split; [reflexivity|]);
      (split; [intro He; apply falsy_false_iff in Hf; now elim Hf|]);
      intros _.
    + split; [intros _; now split|]. split; intro H; congruence.
    + split; [intro H; congruence|]. split; [|intros _ H; congruence].
      intros _ price' Hp. assert (price' = price) by congruence. subst price'.
      split; [reflexivity|]. split; [apply length_update_where|].
      split; [intros i c Hc; exact (nth_error_update_where _ _ _ i c Hc)|].
      split.
      * intros ->. now apply decimal_20_8_null.
      * intro Hn. apply decimal_20_8_null in Hn. congruence.
    + split; [intro H; congruence|].
      split; [intros _ price Hp; congruence|]. intros _ _. now split.
Qed.

(** The theorem above on the fixture: the price 0.123456789 is stored as
    0.12345679, and the price 1000000000000 is refused. *)
Lemma updateMoonPrice_sets_price_witness :
  let form := fun text => {| Admin.moonPrice := text;
                             Admin.priceChange := "" |} in
  let run := fun text =>
    Admin.updateMoonPrice Fixture.permissive (Some Fixture.admin)
                          (form text) Fixture.db0 in
  toast (run "0.123456789")
  = toast_success "MOON price updated successfully!" /\
  nth_error (coins (db (run "0.123456789"))) 2
  = Some (Coin.set_price (Some 0.12345679%float) Fixture.moon) /\
  toast (run "1000000000000")
  = toast_caught (Postgrest numeric_value_out_of_range)
                 "Failed to update MOON price" /\
  db (run "1000000000000") = Fixture.db0.
Proof.
  intros form run.
  destruct (updateMoonPrice_sets_price Fixture.permissive
              (Some Fixture.admin) (form "0.123456789") Fixture.db0)
    as [_ [_ [_ [_ [_ Hset]]]]].
  destruct (Hset ltac:(discriminate)) as [_ [Hok _]].
  assert (Hheld : Backend.decimal_20_8 (JS.parseFloat "0.123456789")
                  = inl (Some 0.12345679%float)) by (vm_compute; reflexivity).
  destruct (Hok eq_refl _ Hheld) as [Ht [_ [Hrows _]]].
  split; [exact Ht|].
  split; [exact (Hrows 2%nat Fixture.moon eq_refl)|].
  destruct (updateMoonPrice_sets_price Fixture.permissive
              (Some Fixture.admin) (form "1000000000000") Fixture.db0)
    as [_ [_ [_ [_ [_ Hset']]]]].
  destruct (Hset' ltac:(discriminate)) as [_ [_ Hrefused]].
  assert (Hout : Backend.decimal_20_8 (JS.parseFloat "1000000000000")
                 = inr numeric_value_out_of_range)
    by (vm_compute; reflexivity).
  exact (Hrefused eq_refl Hout).
Defined.



(** X3.  What [fetchMoonPrice] reads back after a price handler is what
    the column holds, not what was sent.  With one coin named MOON that the
    caller may update, and a number the column takes and then holds as
    [held]: after [updateMoonPrice], [fetchMoonPrice] puts the text of
    [held] in the price field; after [updateMoonPriceByPercentage] the form
    shows the text of the new price as computed, and [fetchMoonPrice] then
    replaces it by the text of [held].  When the number sent is not finite
    the column is left null and [fetchMoonPrice] leaves the field as it
    is. *)
Theorem fetchMoonPrice_reads_back :
  forall (policy : Backend.UpdatePolicy) (user : option uuid)
         (st st' : Admin.State) (d : Database) (moon : Coin.Row),
    Backend.coin_by_symbol d "MOON" = Some moon ->
    Backend.may_update_coin policy user moon = true ->
    (Admin.moonPrice st <> "" ->
     let d' := db (Admin.updateMoonPrice policy user st d) in
     let p := JS.parseFloat (Admin.moonPrice st) in
       (forall held, held_as p held ->
          Admin.fetchMoonPrice st' d'
          = {| Admin.moonPrice := JS.NumberToString held;
               Admin.priceChange := Admin.priceChange st' |}) /\
       (finite p = false -> Admin.fetchMoonPrice st' d' = st')) /\
    (Admin.priceChange st <> "" ->
     let o := Admin.updateMoonPriceByPercentage policy user st d in
     let p := Admin.newPrice moon (Admin.priceChange st) in
       (forall held, held_as p held ->
          state o = {| Admin.moonPrice := JS.NumberToString p;
                       Admin.priceChange := "" |} /\
          Admin.fetchMoonPrice (state o) (db o)
          = {| Admin.moonPrice := JS.NumberToString held;
               Admin.priceChange := "" |}) /\
       (finite p = false ->
          Admin.fetchMoonPrice (state o) (db o) = state o)).
Proof.
  intros policy user st st' d moon Hmoon Hmay.
  pose proof (existsb_hit_moon policy user d moon Hmoon) as Hex.
  rewrite Hmay in Hex.
  assert (Hupd : forall p price,
            Backend.decimal_20_8 p = inl price ->
            Backend.update_coin_price_by_symbol policy user "MOON" p d
            = inl {| coins :=
                       Backend.update_where
                         (fun c => String.eqb (Coin.symbol c) "MOON"
                                   && Backend.may_update_coin policy user c)
                         (Coin.set_price price) (coins d);
                     user_balances := user_balances d;
                     transactions := transactions d;
                     orders := orders d |}).
  { intros p price Hp. unfold Backend.update_coin_price_by_symbol.
    now rewrite Hex, Hp. }
  split.
  - intros Hm d' p. subst d'. apply falsy_false_iff in Hm.
    unfold Admin.updateMoonPrice. rewrite Hm. fold p. split.
    + intros held Hheld. rewrite (Hupd p (Some held) Hheld).
      cbn [throw_if_error db]. unfold Admin.fetchMoonPrice.
      rewrite (coin_by_symbol_after_update policy user (Some held) d moon
                 Hmoon Hmay).
      reflexivity.
    + intro Hf. apply decimal_20_8_null in Hf. rewrite (Hupd p None Hf).
      cbn [throw_if_error db]. unfold Admin.fetchMoonPrice.
      rewrite (coin_by_symbol_after_update policy user None d moon
                 Hmoon Hmay).
      reflexivity.
  - intros Hp o p. subst o. apply falsy_false_iff in Hp.
    unfold Admin.updateMoonPriceByPercentage. rewrite Hp, Hmoon.
    cbn [bind require]. fold p. split.
    + intros held Hheld. rewrite (Hupd p (Some held) Hheld).
      cbn [throw_if_error bind state db]. split; [reflexivity|].
      unfold Admin.fetchMoonPrice.
      rewrite (coin_by_symbol_after_update policy user (Some held) d moon
                 Hmoon Hmay).
      reflexivity.
    + intro Hf. apply decimal_20_8_null in Hf. rewrite (Hupd p None Hf).
      cbn [throw_if_error bind state db]. unfold Admin.fetchMoonPrice.
      rewrite (coin_by_symbol_after_update policy user None d moon
                 Hmoon Hmay).
      reflexivity.
Qed.

(** The theorem above on the coins of the fixture, 5 entered as the
    percentage: the form shows 0.0010500000000000002, and [fetchMoonPrice]
    then loads 0.00105. *)
Lemma fetchMoonPrice_reads_back_witness :
  let st := Fixture.admin_form "5" in
  let o := Admin.updateMoonPriceByPercentage Fixture.permissive
             (Some Fixture.admin) st Fixture.db0 in
  (Backend.coin_by_symbol Fixture.db0 "MOON" = Some Fixture.moon /\
   Backend.may_update_coin Fixture.permissive (Some Fixture.admin)
     Fixture.moon = true /\
   Admin.priceChange st <> "") /\
  Admin.moonPrice (state o) = "0.0010500000000000002" /\
  Admin.moonPrice (Admin.fetchMoonPrice (state o) (db o)) = "0.00105".
Proof.
  intros st o.
  assert (H1 : Backend.coin_by_symbol Fixture.db0 "MOON" = Some Fixture.moon)
    by reflexivity.
  assert (H2 : Backend.may_update_coin Fixture.permissive (Some Fixture.admin)
                 Fixture.moon = true) by reflexivity.
  assert (H3 : Admin.priceChange st <> "") by discriminate.
  split; [repeat split; assumption|].
  destruct (fetchMoonPrice_reads_back Fixture.permissive (Some Fixture.admin)
              st st Fixture.db0 Fixture.moon H1 H2) as [_ Hpct].
  destruct (Hpct H3) as [Hheld _].
  assert (Hh : held_as (Admin.newPrice Fixture.moon (Admin.priceChange st))
                       0.00105%float) by (vm_compute; reflexivity).
  destruct (Hheld _ Hh) as [Hstate Hfetch].
  split.
  - etransitivity; [exact (f_equal Admin.moonPrice Hstate)|].
    vm_compute. reflexivity.
  - etransitivity; [exact (f_equal Admin.moonPrice Hfetch)|].
    vm_compute. reflexivity.
Defined.

Lemma update_where_twice {A : Type} (hit : A -> bool) (f g : A -> A)
    (rows : list A) :
  (forall r, hit (f r) = hit r) ->
  (forall r, g (f r) = g r) ->
  Backend.update_where hit g (Backend.update_where hit f rows)
  = Backend.update_where hit g rows.
Proof.
  intros Hh Hg. unfold Backend.update_where. rewrite map_map.
  apply map_ext. intro r. destruct (hit r) eqn:E.
  - now rewrite Hh, E, Hg.
  - now rewrite E.
Qed.

(** Whether [updateMoonPrice] goes through, and the tables it leaves, when
    it is run after an earlier price was set. *)
Lemma update_coin_price_after (policy : Backend.UpdatePolicy)
    (user : option uuid) (p : JS.number) (price : option JS.number)
    (d : Database) :
  (forall u c q, Backend.may_update_coin policy u (Coin.set_price q c)
                 = Backend.may_update_coin policy u c) ->
  let hit := fun c => String.eqb (Coin.symbol c) "MOON"
                      && Backend.may_update_coin policy user c in
  let d1 := {| coins := Backend.update_where hit (Coin.set_price price)
                                             (coins d);
               user_balances := user_balances d;
               transactions := transactions d;
               orders := orders d |} in
  match Backend.update_coin_price_by_symbol policy user "MOON" p d,
        Backend.update_coin_price_by_symbol policy user "MOON" p d1 with
  | inl r, inl r' => existsb hit (coins d) = true -> r' = r
  | inr e, inr e' => e' = e
  | _, _ => False
  end.
Proof.
  intros Hpol hit d1. unfold Backend.update_coin_price_by_symbol.
  fold hit. subst d1. cbn [coins user_balances transactions orders].
  assert (Hh : forall c q, hit (Coin.set_price q c) = hit c).
  { intros c q. unfold hit. simpl. now rewrite Hpol. }
  rewrite existsb_update_where by (intro r; apply Hh).
  destruct (existsb hit (coins d)) eqn:E.
  - destruct (Backend.decimal_20_8 p) as [q|e]; [|reflexivity].
    intros _. rewrite update_where_twice; [reflexivity | |reflexivity].
    intro r. apply Hh.
  - discriminate.
Qed.

(** The tables [updateMoonPrice] leaves: those it found, or those with the
    price of the coins it may update set to what the column holds. *)
Lemma updateMoonPrice_db_cases (policy : Backend.UpdatePolicy)
    (user : option uuid) (st : Admin.State) (d : Database) :
  let hit := fun c => String.eqb (Coin.symbol c) "MOON"
                      && Backend.may_update_coin policy user c in
  db (Admin.updateMoonPrice policy user st d) = d \/
  exists price,
    existsb hit (coins d) = true /\
    db (Admin.updateMoonPrice policy user st d)
    = {| coins := Backend.update_where hit (Coin.set_price price) (coins d);
         user_balances := user_balances d;
         transactions := transactions d;
         orders := orders d |}.
Proof.
  intro hit. unfold Admin.updateMoonPrice.
  destruct (JS.falsy (Admin.moonPrice st)); [now left|].
  destruct (update_coin_price_cases policy user
              (JS.parseFloat (Admin.moonPrice st)) d)
    as [[Hno ->] | [[Hyes [price [Hprice ->]]] | [Hyes [Hprice ->]]]];
    cbn [throw_if_error db]; [now left | | now left].
  right. exists price. now split.
Qed.

Lemma updateMoonPrice_failed_unchanged (policy : Backend.UpdatePolicy)
    (user : option uuid) (st : Admin.State) (d : Database) :
  succeeded (Admin.updateMoonPrice policy user st d) = false ->
  db (Admin.updateMoonPrice policy user st d) = d.
Proof.
  unfold Admin.updateMoonPrice, succeeded.
  destruct (JS.falsy (Admin.moonPrice st)); [reflexivity|].
  destruct (Backend.update_coin_price_by_symbol _ _ _ _ _); simpl;
    [discriminate | reflexivity].
Qed.

(** X4.  Setting the price overwrites: the last price the column took
    wins.  When what the backend lets a caller update does not depend on the
    price of the coin, [updateMoonPrice] after an earlier [updateMoonPrice]
    shows the toast it would have shown without the earlier one; when it
    goes through, it leaves the tables it would have left without the
    earlier one, and when it does not (the column refuses its number) the
    earlier price stays.  Run twice with the same price it changes nothing
    the second time. *)
Theorem updateMoonPrice_last_price_wins :
  forall (policy : Backend.UpdatePolicy) (user : option uuid)
         (st1 st2 : Admin.State) (d : Database),
    (forall u c p, Backend.may_update_coin policy u (Coin.set_price p c)
                   = Backend.may_update_coin policy u c) ->
    let d1 := db (Admin.updateMoonPrice policy user st1 d) in
    let o2 := Admin.updateMoonPrice policy user st2 d1 in
    toast o2 = toast (Admin.updateMoonPrice policy user st2 d) /\
    (succeeded o2 = true ->
       db o2 = db (Admin.updateMoonPrice policy user st2 d)) /\
    (succeeded o2 = false -> db o2 = d1) /\
    db (Admin.updateMoonPrice policy user st2
          (db (Admin.updateMoonPrice policy user st2 d)))
    = db (Admin.updateMoonPrice policy user st2 d).
Proof.
  intros policy user st1 st2 d Hpol.
  assert (Hover : forall st1,
            let d1 := db (Admin.updateMoonPrice policy user st1 d) in
            let o2 := Admin.updateMoonPrice policy user st2 d1 in
            toast o2 = toast (Admin.updateMoonPrice policy user st2 d) /\
            (succeeded o2 = true ->
               db o2 = db (Admin.updateMoonPrice policy user st2 d)) /\
            (succeeded o2 = false -> db o2 = d1)).
  { intros st d1 o2. subst o2.
    split; [|split; [|apply updateMoonPrice_failed_unchanged]].
    - subst d1.
      destruct (updateMoonPrice_db_cases policy user st d)
        as [-> | [price [Hyes ->]]]; [reflexivity|].
      pose proof (update_coin_price_after policy user
                    (JS.parseFloat (Admin.moonPrice st2)) price d Hpol)
        as Hafter.
      cbv zeta in Hafter. unfold Admin.updateMoonPrice.
      destruct (JS.falsy (Admin.moonPrice st2)); [reflexivity|].
      destruct (Backend.update_coin_price_by_symbol policy user "MOON"
                  (JS.parseFloat (Admin.moonPrice st2)) d) as [r|e];
        destruct (Backend.update_coin_price_by_symbol policy user "MOON"
                    (JS.parseFloat (Admin.moonPrice st2)) _) as [r'|e'];
        try contradiction; simpl; [reflexivity | now subst e'].
    - subst d1.
      destruct (updateMoonPrice_db_cases policy user st d)
        as [-> | [price [Hyes ->]]]; [reflexivity|].
      pose proof (update_coin_price_after policy user
                    (JS.parseFloat (Admin.moonPrice st2)) price d Hpol)
        as Hafter.
      cbv zeta in Hafter. unfold Admin.updateMoonPrice, succeeded.
      destruct (JS.falsy (Admin.moonPrice st2)); [discriminate|].
      destruct (Backend.update_coin_price_by_symbol policy user "MOON"
                  (JS.parseFloat (Admin.moonPrice st2)) d) as [r|e];
        destruct (Backend.update_coin_price_by_symbol policy user "MOON"
                    (JS.parseFloat (Admin.moonPrice st2)) _) as [r'|e'];
        try contradiction; simpl; [|discriminate].
      intros _. now apply Hafter. }
  destruct (Hover st1) as [Ht [Hs Hf]].
  split; [exact Ht|]. split; [exact Hs|]. split; [exact Hf|].
  destruct (Hover st2) as [Ht2 [Hs2 Hf2]].
  destruct (succeeded (Admin.updateMoonPrice policy user st2
              (db (Admin.updateMoonPrice policy user st2 d)))) eqn:E.
  - now apply Hs2.
  - rewrite (Hf2 eq_refl). reflexivity.
Qed.

(** The theorem above on the fixture: 0.002, then 0.003, which wins; and
    0.002, then 1000000000000, which the column refuses, so that 0.002
    stays. *)
Lemma updateMoonPrice_last_price_wins_witness :
  let form := fun text => {| Admin.moonPrice := text;
                             Admin.priceChange := "" |} in
  let update := fun text d =>
    Admin.updateMoonPrice Fixture.permissive (Some Fixture.admin)
                          (form text) d in
  let d1 := db (update "0.002" Fixture.db0) in
  (forall u c p,
     Backend.may_update_coin Fixture.permissive u (Coin.set_price p c)
     = Backend.may_update_coin Fixture.permissive u c) /\
  db (update "0.003" d1) = db (update "0.003" Fixture.db0) /\
  map Coin.price (coins (db (update "0.003" d1)))
  = [Some 43000%float; Some 1%float; Some 0.003%float] /\
  succeeded (update "1000000000000" d1) = false /\
  map Coin.price (coins (db (update "1000000000000" d1)))
  = [Some 43000%float; Some 1%float; Some 0.002%float].
Proof.
  intros form update d1.
  assert (H1 : forall u c p,
             Backend.may_update_coin Fixture.permissive u (Coin.set_price p c)
             = Backend.may_update_coin Fixture.permissive u c)
    by reflexivity.
  split; [exact H1|].
  destruct (updateMoonPrice_last_price_wins Fixture.permissive
              (Some Fixture.admin) (form "0.002") (form "0.003")
              Fixture.db0 H1) as [_ [Hwins _]].
  split; [apply Hwins; vm_compute; reflexivity|].
  split; [vm_compute; reflexivity|].
  assert (Hs : succeeded (update "1000000000000" d1) = false)
    by (vm_compute; reflexivity).
  split; [exact Hs|].
  destruct (updateMoonPrice_last_price_wins Fixture.permissive
              (Some Fixture.admin) (form "0.002") (form "1000000000000")
              Fixture.db0 H1) as [_ [_ [Hstays _]]].
  etransitivity; [exact (f_equal (fun d => map Coin.price (coins d))
                                 (Hstays Hs))|].
  vm_compute. reflexivity.
Defined.
(** ** The application: what no series of actions does *)

Lemma handleDeposit_written (user : option uuid) (new_id : uuid)
    (coinSymbol : string) (st : Assets.State) (d : Database) :
  written d (db (Assets.handleDeposit user new_id coinSymbol st d)).
Proof.
  unfold Assets.handleDeposit.
  destruct (JS.falsy (Assets.depositAmount st)); [constructor|].
  destruct (Backend.coin_by_symbol d coinSymbol) as [c|]; simpl;
    [|constructor].
  match goal with
  | |- context [Backend.insert_transaction ?a ?i ?v ?d] =>
      destruct (Backend.insert_transaction a i v d) as [d'|e] eqn:Hi
  end; simpl; [|constructor].
  apply insert_transaction_inl in Hi.
  destruct Hi as [uid [a [_ [_ [_ [Hfree [Hcoin ->]]]]]]].
  now constructor.
Qed.

Lemma handleWithdraw_written (user : option uuid) (new_id : uuid)
    (coinSymbol : string) (st : Assets.State) (d : Database) :
  written d (db (Assets.handleWithdraw user new_id coinSymbol st d)).
Proof.
  unfold Assets.handleWithdraw.
  destruct (JS.falsy (Assets.withdrawAmount st)
            || JS.falsy (Assets.withdrawAddress st)); [constructor|].
  destruct (Backend.coin_by_symbol d coinSymbol) as [c|]; simpl;
    [|constructor].
  match goal with
  | |- context [Backend.insert_transaction ?a ?i ?v ?d] =>
      destruct (Backend.insert_transaction a i v d) as [d'|e] eqn:Hi
  end; simpl; [|constructor].
  apply insert_transaction_inl in Hi.
  destruct Hi as [uid [a [_ [_ [_ [Hfree [Hcoin ->]]]]]]].
  now constructor.
Qed.

Lemma handleTrade_written (user : option uuid) (new_id : uuid)
    (side : OrderSide) (st : Trade.State) (d : Database) :
  written d (db (Trade.handleTrade user new_id side st d)).
Proof.
  destruct (handleTrade_run user new_id side st d)
    as [Hi | Hi Hm | b q e Hi Hb Hq Hm Hins | b q d' Hi Hb Hq Hm Hins];
    simpl; try constructor.
  apply insert_order_inl in Hins.
  destruct Hins as [uid [a [p [_ [_ [_ [_ [Hfree [Hcb [Hcq ->]]]]]]]]]].
  now constructor.
Qed.

Lemma update_coin_price_written (policy : Backend.UpdatePolicy)
    (user : option uuid) (p : JS.number) (d : Database) :
  written d
    match throw_if_error
            (Backend.update_coin_price_by_symbol policy user "MOON" p d) with
    | Normal d' => d'
    | Throw _ => d
    end.
Proof.
  destruct (update_coin_price_cases policy user p d)
    as [[Hno ->] | [[Hyes [price [Hprice ->]]] | [Hyes [Hprice ->]]]];
    cbn [throw_if_error]; [constructor | | constructor].
  apply (written_price d
           (fun c => String.eqb (Coin.symbol c) "MOON"
                     && Backend.may_update_coin policy user c)).
  intros c Hc. apply andb_true_iff in Hc. now apply String.eqb_eq.
Qed.

(** Every action leaves the tables in one of the five ways. *)
Lemma perform_written (policy : Backend.UpdatePolicy) (a : App.Action)
    (d : Database) :
  written d (App.perform policy a d).
Proof.
  destruct a as [user new_id coinSymbol form | user new_id coinSymbol form
                | user new_id side form | user now transactionId decision form
                | user form | user form]; cbn [App.perform].
  - apply handleDeposit_written.
  - apply handleWithdraw_written.
  - apply handleTrade_written.
  - unfold Admin.approveTransaction. simpl.
    apply (written_decision d
             (fun t => String.eqb (Transaction.id t) transactionId
                       && Backend.may_update_transaction policy user t)).
    simpl. destruct decision; [now left | now right].
  - unfold Admin.updateMoonPrice.
    destruct (JS.falsy (Admin.moonPrice form)); [constructor|].
    pose proof (update_coin_price_written policy user
                  (JS.parseFloat (Admin.moonPrice form)) d) as H.
    destruct (Backend.update_coin_price_by_symbol policy user "MOON"
                (JS.parseFloat (Admin.moonPrice form)) d);
      [exact H | constructor].
  - unfold Admin.updateMoonPriceByPercentage.
    destruct (JS.falsy (Admin.priceChange form)); [constructor|].
    destruct (Backend.coin_by_symbol d "MOON") as [c|]; cbn [bind require];
      [|constructor].
    pose proof (update_coin_price_written policy user
                  (Admin.newPrice c (Admin.priceChange form)) d) as H.
    destruct (Backend.update_coin_price_by_symbol policy user "MOON"
                (Admin.newPrice c (Admin.priceChange form)) d);
      [exact H | constructor].
Qed.

(** A relation between tables that every write respects, and that is
    reflexive and transitive, relates the tables before and after any series
    of actions. *)
Lemma run_written (policy : Backend.UpdatePolicy)
    (R : Database -> Database -> Prop) :
  (forall d, R d d) ->
  (forall a b c, R a b -> R b c -> R a c) ->
  (forall d d', written d d' -> R d d') ->
  forall (actions : list App.Action) (d : Database),
    R d (App.run policy actions d).
Proof.
  intros Hrefl Htrans Hstep actions.
  induction actions as [|a actions IH]; intro d; simpl; [apply Hrefl|].
  apply (Htrans _ (App.perform policy a d)).
  - apply Hstep, perform_written.
  - apply IH.
Qed.

Lemma Forall2_same {A : Type} (R : A -> A -> Prop) (l : list A) :
  (forall x, R x x) -> Forall2 R l l.
Proof.
  intro H. induction l; constructor; auto.
Qed.

Lemma Forall2_chain {A : Type} (R : A -> A -> Prop) :
  (forall x y z, R x y -> R y z -> R x z) ->
  forall l1 l2 l3, Forall2 R l1 l2 -> Forall2 R l2 l3 -> Forall2 R l1 l3.
Proof.
  intros Ht l1 l2 l3 H12. revert l3.
  induction H12 as [|x y l1 l2 Hxy H12 IH]; intros l3 H23.
  - inversion H23. constructor.
  - inversion H23 as [|y' z l2' l3' Hyz H23' E1 E2]. subst.
    constructor; [now apply (Ht x y z) | now apply IH].
Qed.

Lemma Forall2_update_where {A : Type} (R : A -> A -> Prop) (hit : A -> bool)
    (f : A -> A) (rows : list A) :
  (forall r, R r r) -> (forall r, hit r = true -> R r (f r)) ->
  Forall2 R rows (Backend.update_where hit f rows).
Proof.
  intros Hr Hf. unfold Backend.update_where.
  induction rows as [|r rows IH]; simpl; constructor; [|exact IH].
  destruct (hit r) eqn:Hh; [now apply Hf | apply Hr].
Qed.

Lemma coin_kept_chain (a b c : Coin.Row) :
  coin_kept a b -> coin_kept b c -> coin_kept a c.
Proof.
  intros [->|[Hs [p ->]]] H; [exact H|].
  destruct H as [->|[_ [p' ->]]].
  - right. split; [exact Hs | now exists p].
  - right. split; [exact Hs | now exists p'].
Qed.

(** X5.  No series of actions of the pages, by whatever users and under
    whatever update policy, changes a balance: [user_balances] is the same
    table afterwards, so every available and locked balance is what it
    was.  The coins stay the same rows in the same places, except that the
    price of a coin named MOON may have been set. *)
Theorem run_never_writes_balances :
  forall (policy : Backend.UpdatePolicy) (actions : list App.Action)
         (d : Database),
    user_balances (App.run policy actions d) = user_balances d /\
    Forall2 coin_kept (coins d) (coins (App.run policy actions d)) /\
    forall user coin : uuid,
      available (App.run policy actions d) user coin = available d user coin /\
      locked (App.run policy actions d) user coin = locked d user coin.
Proof.
  intros policy actions d.
  assert (H : user_balances (App.run policy actions d) = user_balances d /\
              Forall2 coin_kept (coins d) (coins (App.run policy actions d))).
  { apply (run_written policy
             (fun d d' => user_balances d' = user_balances d /\
                          Forall2 coin_kept (coins d) (coins d'))).
    - intro d0. split; [reflexivity|].
      apply Forall2_same. intro c. now left.
    - intros a b c [Hab Cab] [Hbc Cbc]. split; [congruence|].
      exact (Forall2_chain coin_kept coin_kept_chain _ _ _ Cab Cbc).
    - intros d0 d' Hw.
      destruct Hw as [| | | |hit p Hhit]; simpl;
        (split; [reflexivity|]);
        try (apply Forall2_same; intro c; now left).
      apply Forall2_update_where; [intro c; now left|].
      intros c Hc. right. split; [now apply Hhit | now exists p]. }
  destruct H as [Hb Hc]. split; [exact Hb|]. split; [exact Hc|].
  intros user coin. unfold available, locked, balance_row.
  now rewrite Hb.
Qed.

(** X6.  Orders are only ever added.  After any series of actions the
    orders that were there come first, unchanged, and every order added
    since is as it was placed: open, with nothing filled.  Nothing in the
    pages fills, cancels or removes an order. *)
Theorem run_only_appends_orders :
  forall (policy : Backend.UpdatePolicy) (actions : list App.Action)
         (d : Database),
    exists added : list Order.Row,
      orders (App.run policy actions d) = (orders d ++ added)%list /\
      Forall untouched added.
Proof.
  intros policy actions d.
  apply (run_written policy
           (fun d d' => exists added,
                orders d' = (orders d ++ added)%list /\
                Forall untouched added)).
  - intro d0. exists []. split; [now rewrite app_nil_r | constructor].
  - intros a b c [l1 [E1 F1]] [l2 [E2 F2]]. exists (l1 ++ l2)%list.
    split; [now rewrite E2, E1, app_assoc | now apply Forall_app].
  - intros d0 d' Hw. destruct Hw as [| |new_id uid a p v _ _ _| |]; simpl;
      try (exists []; split; [now rewrite app_nil_r | constructor]).
    eexists. split; [reflexivity|].
    constructor; [|constructor]. split; reflexivity.
Qed.

Lemma transaction_kept_same (t : Transaction.Row) : transaction_kept t t.
Proof.
  unfold transaction_kept. repeat (split; [reflexivity|]). now left.
Qed.

Lemma transaction_kept_chain (a b c : Transaction.Row) :
  transaction_kept a b -> transaction_kept b c -> transaction_kept a c.
Proof.
  unfold transaction_kept.
  intros [A1 [A2 [A3 [A4 [A5 [A6 [A7 [A8 [A9 A10]]]]]]]]]
         [B1 [B2 [B3 [B4 [B5 [B6 [B7 [B8 [B9 B10]]]]]]]]].
  repeat (split; [congruence|]).
  destruct B10 as [->|B10]; [exact A10 | now right].
Qed.

Lemma transaction_kept_update (u : Transaction.Update) (t : Transaction.Row) :
  Transaction.upd_status u = completed \/ Transaction.upd_status u = rejected ->
  transaction_kept t (Transaction.apply_update u t).
Proof.
  intro Hu. unfold transaction_kept. simpl.
  repeat (split; [reflexivity|]). right. split; [|discriminate].
  unfold settled. destruct Hu as [-> | ->]; [now left | now right].
Qed.

(** X7.  Transactions are never removed and never rewritten.  After any
    series of actions the transactions that were there come first, each one
    with the id, the owner, the coin, the type, the amount and the wallet
    address it had, and either untouched or carrying an administrator's
    decision (completed or rejected, with its time); the transactions added
    since are pending, completed or rejected.  No action writes the status
    cancelled. *)
Theorem run_keeps_transactions :
  forall (policy : Backend.UpdatePolicy) (actions : list App.Action)
         (d : Database),
    exists kept added : list Transaction.Row,
      transactions (App.run policy actions d) = (kept ++ added)%list /\
      Forall2 transaction_kept (transactions d) kept /\
      Forall pending_or_decided added.
Proof.
  intros policy actions d.
  apply (run_written policy
           (fun d d' => exists kept added,
                transactions d' = (kept ++ added)%list /\
                Forall2 transaction_kept (transactions d) kept /\
                Forall pending_or_decided added)).
  - intro d0. exists (transactions d0), []. split; [now rewrite app_nil_r|].
    split; [apply Forall2_same, transaction_kept_same | constructor].
  - intros a b c [k1 [n1 [E1 [K1 P1]]]] [k2 [n2 [E2 [K2 P2]]]].
    rewrite E1 in K2. apply Forall2_app_inv_l in K2.
    destruct K2 as [k1' [n1' [Kk [Kn ->]]]].
    exists k1', (n1' ++ n2)%list. split; [now rewrite E2, app_assoc|].
    split; [exact (Forall2_chain _ transaction_kept_chain _ _ _ K1 Kk)|].
    apply Forall_app. split; [|exact P2].
    clear - P1 Kn. induction Kn as [|x y l l' Hxy Kn IH]; [constructor|].
    inversion P1 as [|x' l0 Px Pl]. subst. constructor; [|now apply IH].
    destruct Hxy as [_ [_ [_ [_ [_ [_ [_ [_ [_ [->|[Hd _]]]]]]]]]]];
      [exact Px | now right].
  - intros d0 d' Hw. destruct Hw as [|new_id uid a v _ _ Hp| |hit u Hu|]; simpl.
    + exists (transactions d0), []. split; [now rewrite app_nil_r|].
      split; [apply Forall2_same, transaction_kept_same | constructor].
    + eexists (transactions d0), _. split; [reflexivity|].
      split; [apply Forall2_same, transaction_kept_same|].
      constructor; [|constructor]. left. simpl. now rewrite Hp.
    + exists (transactions d0), []. split; [now rewrite app_nil_r|].
      split; [apply Forall2_same, transaction_kept_same | constructor].
    + eexists _, []. split; [now rewrite app_nil_r|].
      split; [|constructor].
      apply Forall2_update_where; [apply transaction_kept_same|].
      intros t _. now apply transaction_kept_update.
    + exists (transactions d0), []. split; [now rewrite app_nil_r|].
      split; [apply Forall2_same, transaction_kept_same | constructor].
Qed.

(** ** The application keeps the keys of the migration *)

Lemma has_coin_ids (d : Database) (i : uuid) :
  Backend.has_coin d i
  = existsb (fun x => String.eqb x i) (map Coin.id (coins d)).
Proof.
  unfold Backend.has_coin.
  induction (coins d) as [|c cs IH]; simpl; [reflexivity | now rewrite IH].
Qed.

Lemma has_coin_same_ids (d d' : Database) (i : uuid) :
  map Coin.id (coins d') = map Coin.id (coins d) ->
  Backend.has_coin d' i = Backend.has_coin d i.
Proof.
  intro H. now rewrite !has_coin_ids, H.
Qed.

Lemma not_taken_not_in {A : Type} (key : A -> uuid) (rows : list A)
    (i : uuid) :
  existsb (fun r => String.eqb (key r) i) rows = false ->
  ~ In i (map key rows).
Proof.
  intros H Hin. apply in_map_iff in Hin. destruct Hin as [r [Hr Hin]].
  assert (Ht : existsb (fun r => String.eqb (key r) i) rows = true).
  { apply existsb_exists. exists r. split; [exact Hin|].
    rewrite Hr. apply String.eqb_refl. }
  congruence.
Qed.

Lemma NoDup_snoc {A : Type} (l : list A) (x : A) :
  NoDup l -> ~ In x l -> NoDup (l ++ [x]).
Proof.
  intros Hl Hx. induction Hl as [|y l Hy Hl IH]; simpl.
  - constructor; [intros [] | constructor].
  - constructor.
    + intro Hin. apply in_app_or in Hin. destruct Hin as [Hin|[->|[]]].
      * now elim Hy.
      * apply Hx. now left.
    + apply IH. intro Hin. apply Hx. now right.
Qed.

(** Every write keeps the keys. *)
Lemma written_constraints (d d' : Database) :
  written d d' -> constraints d -> constraints d'.
Proof.
  intros Hw [Hci [Hcs [Hbi [Hbu [Hbf [Hti [Htf [Hoi Hof]]]]]]]].
  destruct Hw as [|new_id uid a v Hfree Hcoin _|new_id uid a p v Hfree Hcb Hcq
                 |hit u _|hit p _]; unfold constraints; simpl.
  - repeat (split; [assumption|]). exact Hof.
  - repeat (split; [assumption|]).
    split; [|split; [|split; [assumption | exact Hof]]].
    + rewrite map_app. simpl. apply NoDup_snoc; [exact Hti|].
      exact (not_taken_not_in Transaction.id _ _ Hfree).
    + intros t Ht. apply in_app_or in Ht.
      destruct Ht as [Ht|[<-|[]]]; [now apply Htf | exact Hcoin].
  - repeat (split; [assumption|]). split.
    + rewrite map_app. simpl. apply NoDup_snoc; [exact Hoi|].
      exact (not_taken_not_in Order.id _ _ Hfree).
    + intros o Ho. apply in_app_or in Ho.
      destruct Ho as [Ho|[<-|[]]]; [now apply Hof | now split].
  - repeat (split; [assumption|]).
    split; [|split; [|split; [assumption | exact Hof]]].
    + rewrite map_update_where by reflexivity. exact Hti.
    + intros t Ht. unfold Backend.update_where in Ht.
      apply in_map_iff in Ht. destruct Ht as [t0 [<- Ht0]].
      specialize (Htf t0 Ht0).
      destruct (hit t0); exact Htf.
  - assert (Hids : map Coin.id
                     (Backend.update_where hit (Coin.set_price p) (coins d))
                   = map Coin.id (coins d))
      by (apply map_update_where; reflexivity).
    assert (Hhas : forall i,
               Backend.has_coin
                 {| coins := Backend.update_where hit (Coin.set_price p)
                                                  (coins d);
                    user_balances := user_balances d;
                    transactions := transactions d;
                    orders := orders d |} i
               = Backend.has_coin d i)
      by (intro i; apply has_coin_same_ids; exact Hids).
    split; [now rewrite Hids|].
    split; [rewrite map_update_where by reflexivity; exact Hcs|].
    split; [exact Hbi|]. split; [exact Hbu|].
    split; [intros b Hb; rewrite Hhas; now apply Hbf|].
    split; [exact Hti|].
    split; [intros t Ht; rewrite Hhas; now apply Htf|].
    split; [exact Hoi|].
    intros o Ho. rewrite !Hhas. now apply Hof.
Qed.

(** X8.  The keys of the migration hold after any series of actions if
    they held before: ids stay unique in every table, symbols stay unique
    among the coins, a user has at most one balance per coin, and every
    balance, transaction and order points to a coin that exists. *)
Theorem run_keeps_constraints :
  forall (policy : Backend.UpdatePolicy) (actions : list App.Action)
         (d : Database),
    constraints d -> constraints (App.run policy actions d).
Proof.
  intros policy actions d.
  apply (run_written policy (fun d d' => constraints d -> constraints d')).
  - auto.
  - auto.
  - exact written_constraints.
Qed.

(** The theorem above on the fixture, after a deposit, an order and a price
    change. *)
Lemma run_keeps_constraints_witness :
  let actions :=
    [ App.deposit (Some Fixture.alice) "tx-1" "BTC"
        (Fixture.deposit_form "2");
      App.trade (Some Fixture.alice) "o-1" sell
        (Fixture.trade_form "BTC/USDT" market "1" "");
      App.change_moon_price (Some Fixture.admin) (Fixture.admin_form "5") ] in
  constraints Fixture.db0 /\
  constraints (App.run Fixture.permissive actions Fixture.db0) /\
  map Transaction.id
      (transactions (App.run Fixture.permissive actions Fixture.db0))
  = ["tx-1"] /\
  map Order.id (orders (App.run Fixture.permissive actions Fixture.db0))
  = ["o-1"].
Proof.
  intro actions.
  assert (H0 : constraints Fixture.db0).
  { unfold constraints. simpl.
    repeat split;
      try (repeat constructor; simpl; intuition discriminate);
      try (intros x [<-|[]]; reflexivity);
      try (intros x []); try contradiction. }
  split; [exact H0|].
  split; [exact (run_keeps_constraints Fixture.permissive actions
                   Fixture.db0 H0)|].
  split; vm_compute; reflexivity.
Defined.

(** ** Reading: order, limit, and the lists of transactions *)

Lemma insert_by_perm {A : Type} (before : A -> A -> bool) (x : A)
    (rows : list A) :
  Permutation (Backend.insert_by before x rows) (x :: rows).
Proof.
  induction rows as [|y rows IH]; simpl; [reflexivity|].
  destruct (before x y); [reflexivity|].
  rewrite IH. apply perm_swap.
Qed.

(** Ordering keeps the rows: the same rows, as often. *)
Lemma order_by_perm {A : Type} (before : A -> A -> bool) (rows : list A) :
  Permutation (Backend.order_by before rows) rows.
Proof.
  unfold Backend.order_by.
  induction rows as [|x rows IH]; simpl; [reflexivity|].
  rewrite insert_by_perm. now constructor.
Qed.

Lemma in_order_by {A : Type} (before : A -> A -> bool) (rows : list A)
    (x : A) :
  In x (Backend.order_by before rows) <-> In x rows.
Proof.
  split; apply Permutation_in;
    [apply order_by_perm | symmetry; apply order_by_perm].
Qed.

Lemma length_order_by {A : Type} (before : A -> A -> bool) (rows : list A) :
  List.length (Backend.order_by before rows) = List.length rows.
Proof.
  apply Permutation_length, order_by_perm.
Qed.

Lemma insert_by_sorted {A : Type} (before : A -> A -> bool) (x : A)
    (rows : list A) :
  (forall y, In y rows -> before x y = true \/ before y x = true) ->
  Sorted (fun a b => before a b = true) rows ->
  Sorted (fun a b => before a b = true) (Backend.insert_by before x rows).
Proof.
  intros Htot Hs. induction Hs as [|y rows Hs IH Hhd]; simpl.
  - repeat constructor.
  - destruct (before x y) eqn:Hxy.
    + constructor; [now constructor | now constructor].
    + constructor.
      * apply IH. intros z Hz. apply Htot. now right.
      * destruct rows as [|z rows]; simpl.
        -- constructor. destruct (Htot y (or_introl eq_refl)); congruence.
        -- destruct (before x z).
           ++ constructor.
              destruct (Htot y (or_introl eq_refl)); congruence.
           ++ inversion Hhd. now constructor.
Qed.

(** Ordering sorts, when any two of the rows compare one way or the
    other. *)
Lemma order_by_sorted {A : Type} (before : A -> A -> bool) (rows : list A) :
  (forall x y, In x rows -> In y rows ->
               before x y = true \/ before y x = true) ->
  Sorted (fun a b => before a b = true) (Backend.order_by before rows).
Proof.
  unfold Backend.order_by.
  induction rows as [|x rows IH]; intro Htot; simpl; [constructor|].
  apply insert_by_sorted.
  - intros y Hy. apply Htot; [now left|].
    right. now apply (in_order_by before rows y).
  - apply IH. intros a b Ha Hb. apply Htot; now right.
Qed.

Lemma newest_first_total {A : Type} (created_at : A -> Z) (x y : A) :
  Backend.newest_first created_at x y = true \/
  Backend.newest_first created_at y x = true.
Proof.
  unfold Backend.newest_first.
  destruct (Z.le_ge_cases (created_at y) (created_at x)) as [H|H];
    [left | right]; now apply Z.leb_le.
Qed.

(** Newest first: no row comes before a newer one. *)
Lemma order_by_newest_first {A : Type} (created_at : A -> Z)
    (rows : list A) :
  StronglySorted (fun a b => (created_at b <= created_at a)%Z)
    (Backend.order_by (Backend.newest_first created_at) rows).
Proof.
  apply Sorted_StronglySorted.
  - intros a b c Hab Hbc. lia.
  - pose proof (order_by_sorted (Backend.newest_first created_at) rows
                  (fun x y _ _ => newest_first_total created_at x y)) as H.
    induction H as [|a l Hs IH Hhd]; constructor; [exact IH|].
    destruct Hhd as [|b l Hab]; constructor.
    now apply Z.leb_le.
Qed.

Lemma filter_perm {A : Type} (keep : A -> bool) (l l' : list A) :
  Permutation l l' -> Permutation (filter keep l) (filter keep l').
Proof.
  intro H. induction H as [|x l l' H IH|x y l|l l' l'' H1 IH1 H2 IH2]; simpl.
  - constructor.
  - destruct (keep x); [now constructor | exact IH].
  - destruct (keep x), (keep y); try reflexivity. apply perm_swap.
  - now transitivity (filter keep l').
Qed.

Lemma filter_map_commute {A B : Type} (f : A -> B) (keep : B -> bool)
    (l : list A) :
  filter keep (map f l) = map f (filter (fun a => keep (f a)) l).
Proof.
  induction l as [|a l IH]; simpl; [reflexivity|].
  destruct (keep (f a)); simpl; now rewrite IH.
Qed.

Lemma length_filter_le {A : Type} (keep : A -> bool) (l : list A) :
  (List.length (filter keep l) <= List.length l)%nat.
Proof.
  induction l as [|a l IH]; simpl; [lia|]. destruct (keep a); simpl; lia.
Qed.

Lemma length_filter_firstn {A : Type} (keep : A -> bool) (n : nat)
    (l : list A) :
  (List.length (filter keep (firstn n l)) <= List.length (filter keep l))%nat.
Proof.
  revert l. induction n as [|n IH]; intros [|a l]; simpl; try lia.
  specialize (IH l). destruct (keep a); simpl; lia.
Qed.

Lemma in_firstn {A : Type} (n : nat) (l : list A) (x : A) :
  In x (firstn n l) -> In x l.
Proof.
  intro H. rewrite <- (firstn_skipn n l). apply in_or_app. now left.
Qed.

(** In a sorted list every row of a prefix comes before every row of the
    rest, and the prefix is sorted. *)
Lemma StronglySorted_app {A : Type} (R : A -> A -> Prop) (l1 l2 : list A) :
  StronglySorted R (l1 ++ l2) ->
  StronglySorted R l1 /\
  forall x y, In x l1 -> In y l2 -> R x y.
Proof.
  induction l1 as [|a l1 IH]; simpl; intro H.
  - split; [constructor | intros x y []].
  - inversion H as [|a' l Hs Hall]. subst.
    destruct (IH Hs) as [Hs1 Hcross]. split.
    + constructor; [exact Hs1|].
      rewrite Forall_forall in *. intros x Hx. apply Hall.
      apply in_or_app. now left.
    + intros x y [<-|Hx] Hy.
      * rewrite Forall_forall in Hall. apply Hall. apply in_or_app. now right.
      * now apply Hcross.
Qed.

Lemma coin_of_has_coin (d : Database) (i : uuid) :
  Backend.has_coin d i = true -> Backend.coin_of d i <> None.
Proof.
  unfold Backend.has_coin, Backend.coin_of. intro H.
  apply existsb_exists in H. destruct H as [c [Hc He]].
  intro Hnone.
  apply (find_none _ _ Hnone) in Hc. congruence.
Qed.

(** *** The list of the Admin page *)

Lemma in_Admin_fetchTransactions (select : Backend.SelectPolicy)
    (stamp : uuid -> Z) (user : option uuid) (d : Database)
    (r : Admin.Transaction) :
  In r (Admin.fetchTransactions select stamp user d) <->
  exists t,
    In t (transactions d) /\
    Transaction.status t = Some pending /\
    Backend.own_transaction user t
    || Backend.may_select_transaction select user t = true /\
    r = Admin.select_transaction stamp d t.
Proof.
  unfold Admin.fetchTransactions, Backend.visible_transactions.
  rewrite in_order_by, in_map_iff. split.
  - intros [t [Hr Ht]]. apply filter_In in Ht. destruct Ht as [Ht Hp].
    apply filter_In in Ht. destruct Ht as [Ht Hv].
    exists t. repeat split; auto.
    unfold Backend.is_pending in Hp.
    destruct (Transaction.status t) as [[| | |]|]; try discriminate.
    reflexivity.
  - intros [t [Ht [Hp [Hv Hr]]]]. exists t. split; [now symmetry|].
    apply filter_In. split; [apply filter_In; now split|].
    now rewrite Hp.
Qed.

(** X9.  The list of the Admin page holds exactly the transactions that
    are pending and that the caller may read, each one once, the newest
    first.  Its length is the number the card Pending Transactions shows.
    When the keys of the migration hold, every row comes with its coin, so
    the page can show the symbol.  With no other select policy than the one
    of the migration, the rows are the caller's own transactions. *)
Theorem Admin_fetchTransactions_lists_pending :
  forall (select : Backend.SelectPolicy) (stamp : uuid -> Z)
         (user : option uuid) (d : Database),
    let listed := Admin.fetchTransactions select stamp user d in
    let readable t := Backend.own_transaction user t
                      || Backend.may_select_transaction select user t in
    (forall r, In r listed <->
       exists t, In t (transactions d) /\
                 Transaction.status t = Some pending /\
                 readable t = true /\
                 r = Admin.select_transaction stamp d t) /\
    (forall r, In r listed -> Admin.status r = Some pending) /\
    Permutation listed
      (map (Admin.select_transaction stamp d)
           (filter (fun t => Backend.is_pending (Transaction.status t)
                             && readable t) (transactions d))) /\
    List.length listed
    = List.length
        (filter (fun t => Backend.is_pending (Transaction.status t)
                          && readable t) (transactions d)) /\
    StronglySorted
      (fun a b => (Admin.created_at b <= Admin.created_at a)%Z) listed /\
    (constraints d -> forall r, In r listed -> Admin.coin r <> None) /\
    ((forall t, Backend.may_select_transaction select user t = false) ->
     forall r, In r listed -> user = Some (Admin.user_id r)).
Proof.
  intros select stamp user d listed readable.
  assert (Hin : forall r, In r listed <->
            exists t, In t (transactions d) /\
                      Transaction.status t = Some pending /\
                      readable t = true /\
                      r = Admin.select_transaction stamp d t)
    by (intro r; apply in_Admin_fetchTransactions).
  assert (Hfilter :
            filter (fun t => Backend.is_pending (Transaction.status t))
                   (Backend.visible_transactions select user d)
            = filter (fun t => Backend.is_pending (Transaction.status t)
                               && readable t) (transactions d)).
  { unfold Backend.visible_transactions. fold readable.
    clear. induction (transactions d) as [|t ts IH]; simpl; [reflexivity|].
    destruct (readable t); simpl.
    - rewrite andb_true_r.
      destruct (Backend.is_pending (Transaction.status t)); simpl;
        now rewrite IH.
    - rewrite andb_false_r. exact IH. }
  split; [exact Hin|]. split; [|split; [|split; [|split; [|split]]]].
  - intros r Hr. apply Hin in Hr. destruct Hr as [t [_ [Hp [_ ->]]]].
    exact Hp.
  - subst listed. unfold Admin.fetchTransactions. rewrite Hfilter.
    apply order_by_perm.
  - subst listed. unfold Admin.fetchTransactions.
    now rewrite length_order_by, length_map, Hfilter.
  - apply order_by_newest_first.
  - intros Hk r Hr. apply Hin in Hr. destruct Hr as [t [Ht [_ [_ ->]]]].
    simpl. destruct Hk as [_ [_ [_ [_ [_ [_ [Htf _]]]]]]].
    pose proof (coin_of_has_coin d _ (Htf t Ht)) as Hc.
    destruct (Backend.coin_of d (Transaction.coin_id t)); [discriminate|].
    now elim Hc.
  - intros Hno r Hr. apply Hin in Hr. destruct Hr as [t [_ [_ [Hv ->]]]].
    subst readable. simpl in *. rewrite Hno, orb_false_r in Hv.
    unfold Backend.own_transaction in Hv. apply with_check_iff in Hv.
    destruct Hv as [i [-> Hi]]. congruence.
Qed.

(** X10.  A decision takes a transaction off the list.  When the backend
    lets the caller update the transactions with the given id, the list
    fetched after [approveTransaction] (approval or rejection alike) holds
    the rows it held before except the one decided: from a list fetched
    again, a decided transaction cannot be decided a second time. *)
Theorem approveTransaction_takes_off_the_list :
  forall (policy : Backend.UpdatePolicy) (select : Backend.SelectPolicy)
         (stamp : uuid -> Z) (user : option uuid) (now : string)
         (transactionId : uuid) (approve : bool) (st : Admin.State)
         (d : Database),
    (forall t, In t (transactions d) -> Transaction.id t = transactionId ->
               Backend.may_update_transaction policy user t = true) ->
    let o := Admin.approveTransaction policy user now transactionId approve
               st d in
    forall r,
      In r (Admin.fetchTransactions select stamp user (db o)) <->
      In r (Admin.fetchTransactions select stamp user d) /\
      Admin.id r <> transactionId.
Proof.
  intros policy select stamp user now tid approve st d Hmay o r. subst o.
  rewrite !in_Admin_fetchTransactions.
  unfold Admin.approveTransaction. simpl.
  set (u := {| Transaction.upd_status := if approve then completed else rejected;
               Transaction.upd_admin_approved_by := user;
               Transaction.upd_admin_approved_at := now |}).
  set (hit := fun t => String.eqb (Transaction.id t) tid
                       && Backend.may_update_transaction policy user t).
  assert (Hview : forall t,
            Admin.select_transaction stamp
              {| coins := coins d; user_balances := user_balances d;
                 transactions :=
                   Backend.update_where hit (Transaction.apply_update u)
                                        (transactions d);
                 orders := orders d |} t
            = Admin.select_transaction stamp d t) by reflexivity.
  split.
  - intros [t' [Ht' [Hp [Hv Hr]]]]. rewrite Hview in Hr.
    unfold Backend.update_where in Ht'. apply in_map_iff in Ht'.
    destruct Ht' as [t [Et Ht]].
    destruct (hit t) eqn:Hh.
    + subst t'. simpl in Hp. destruct approve; discriminate.
    + subst t'. split; [exists t; now repeat split|].
      subst r. simpl. intro Hid.
      subst hit. simpl in Hh. rewrite Hid, String.eqb_refl in Hh.
      rewrite (Hmay t Ht Hid) in Hh. discriminate.
  - intros [[t [Ht [Hp [Hv Hr]]]] Hid]. exists t.
    split; [|now repeat split].
    assert (Hh : hit t = false).
    { subst hit. simpl. subst r. simpl in Hid.
      apply String.eqb_neq in Hid. now rewrite Hid. }
    apply (in_update_where hit (Transaction.apply_update u)) in Ht.
    now rewrite Hh in Ht.
Qed.

(** The theorem above on two pending transactions, the first approved. *)
Lemma approveTransaction_takes_off_the_list_witness :
  let d := Fixture.with_transactions
             [ Fixture.transaction "tx-1" tx_deposit 10%float pending;
               Fixture.transaction "tx-2" tx_withdrawal 1%float pending ] in
  let everyone := {| Backend.may_select_transaction := fun _ _ => true |} in
  let stamp := fun i : uuid => if String.eqb i "tx-1" then 1%Z else 2%Z in
  let o := Admin.approveTransaction Fixture.permissive (Some Fixture.admin)
             "2026-01-01T00:00:00.000Z" "tx-1" true (Fixture.admin_form "") d in
  (forall t, In t (transactions d) -> Transaction.id t = "tx-1" ->
             Backend.may_update_transaction Fixture.permissive
               (Some Fixture.admin) t = true) /\
  map Admin.id
      (Admin.fetchTransactions everyone stamp (Some Fixture.admin) d)
  = ["tx-2"; "tx-1"] /\
  map Admin.id
      (Admin.fetchTransactions everyone stamp (Some Fixture.admin) (db o))
  = ["tx-2"] /\
  forall r,
    In r (Admin.fetchTransactions everyone stamp (Some Fixture.admin) (db o))
    -> Admin.id r <> "tx-1".
Proof.
  intros d everyone stamp o.
  assert (H : forall t, In t (transactions d) -> Transaction.id t = "tx-1" ->
                Backend.may_update_transaction Fixture.permissive
                  (Some Fixture.admin) t = true) by reflexivity.
  split; [exact H|]. split; [reflexivity|]. split; [reflexivity|].
  intros r Hr.
  exact (proj2 (proj1 (approveTransaction_takes_off_the_list Fixture.permissive
                         everyone stamp (Some Fixture.admin)
                         "2026-01-01T00:00:00.000Z" "tx-1" true
                         (Fixture.admin_form "") d H r) Hr)).
Defined.

(** *** The list of the Assets page *)

(** X11.  The list of the Assets page holds transactions of the user only,
    at most ten, all of them when the user has ten or fewer, the newest
    first; a transaction of the user that is left out is no newer than any
    one listed. *)
Theorem Assets_fetchTransactions_ten_newest :
  forall (stamp : uuid -> Z) (d : Database) (user : uuid),
    let listed := Assets.fetchTransactions stamp d user in
    let mine := filter (fun t => String.eqb (Transaction.user_id t) user)
                       (transactions d) in
    List.length listed = Nat.min 10 (List.length mine) /\
    ((List.length mine <= 10)%nat ->
     Permutation listed (map (Assets.select_transaction stamp d) mine)) /\
    (forall r, In r listed ->
       exists t, In t (transactions d) /\ Transaction.user_id t = user /\
                 r = Assets.select_transaction stamp d t) /\
    StronglySorted
      (fun a b => (Assets.created_at b <= Assets.created_at a)%Z) listed /\
    (forall t, In t (transactions d) -> Transaction.user_id t = user ->
       In (Assets.select_transaction stamp d t) listed \/
       forall r, In r listed ->
                 (stamp (Transaction.id t) <= Assets.created_at r)%Z).
Proof.
  intros stamp d user listed mine. subst listed.
  unfold Assets.fetchTransactions, Backend.limit. fold mine.
  set (sorted := Backend.order_by (Backend.newest_first Assets.created_at)
                   (map (Assets.select_transaction stamp d) mine)).
  pose proof (order_by_newest_first Assets.created_at
                (map (Assets.select_transaction stamp d) mine)) as Hs.
  fold sorted in Hs. rewrite <- (firstn_skipn 10 sorted) in Hs.
  apply StronglySorted_app in Hs. destruct Hs as [Hs Hcross].
  split; [|split; [|split; [|split]]].
  - rewrite length_firstn. subst sorted.
    now rewrite length_order_by, length_map.
  - intro Hle. rewrite firstn_all2.
    + subst sorted. apply order_by_perm.
    + subst sorted. now rewrite length_order_by, length_map.
  - intros r Hr. apply in_firstn in Hr. subst sorted.
    apply in_order_by in Hr. apply in_map_iff in Hr.
    destruct Hr as [t [<- Ht]]. subst mine. apply filter_In in Ht.
    destruct Ht as [Ht Hu]. apply String.eqb_eq in Hu.
    exists t. now repeat split.
  - exact Hs.
  - intros t Ht Hu.
    assert (Hin : In (Assets.select_transaction stamp d t) sorted).
    { subst sorted. apply in_order_by. apply in_map. subst mine.
      apply filter_In. split; [exact Ht | now apply String.eqb_eq]. }
    rewrite <- (firstn_skipn 10 sorted) in Hin. apply in_app_or in Hin.
    destruct Hin as [Hin|Hin]; [now left | right].
    intros r Hr. exact (Hcross r _ Hr Hin).
Qed.

(** X12.  The card Pending Transactions of the Assets page counts the
    pending transactions among the ten listed: the count is at most ten and
    at most the number of pending transactions of the user, and it is that
    number when the user has ten transactions or fewer. *)
Theorem Assets_pendingCount_of_listed :
  forall (stamp : uuid -> Z) (d : Database) (user : uuid),
    let listed := Assets.fetchTransactions stamp d user in
    let mine := filter (fun t => String.eqb (Transaction.user_id t) user)
                       (transactions d) in
    let pending_mine :=
      List.length
        (filter (fun t => Backend.is_pending (Transaction.status t)) mine) in
    (Assets.pendingCount listed <= 10)%nat /\
    (Assets.pendingCount listed <= pending_mine)%nat /\
    ((List.length mine <= 10)%nat ->
     Assets.pendingCount listed = pending_mine).
Proof.
  intros stamp d user listed mine pending_mine.
  subst listed pending_mine.
  unfold Assets.pendingCount, Assets.fetchTransactions, Backend.limit.
  fold mine.
  set (keep := fun t : Assets.Transaction =>
                 Backend.is_pending (Assets.status t)).
  set (sorted := Backend.order_by (Backend.newest_first Assets.created_at)
                   (map (Assets.select_transaction stamp d) mine)).
  assert (Hall : List.length (filter keep sorted)
                 = List.length
                     (filter (fun t => Backend.is_pending (Transaction.status t))
                             mine)).
  { subst sorted.
    rewrite (Permutation_length
               (filter_perm keep _ _
                  (order_by_perm (Backend.newest_first Assets.created_at)
                     (map (Assets.select_transaction stamp d) mine)))).
    rewrite filter_map_commute, length_map. reflexivity. }
  split; [|split].
  - pose proof (length_filter_le keep (firstn 10 sorted)) as H1.
    pose proof (firstn_le_length 10 sorted) as H2. lia.
  - rewrite <- Hall. apply length_filter_firstn.
  - intro Hle. rewrite <- Hall. f_equal. f_equal.
    apply firstn_all2. subst sorted.
    now rewrite length_order_by, length_map.
Qed.

(** The theorem above when the user has a single transaction, pending. *)
Lemma Assets_pendingCount_of_listed_witness :
  let d := Fixture.with_transactions
             [ Fixture.transaction "tx-1" tx_deposit 10%float pending ] in
  let stamp := fun _ : uuid => 0%Z in
  Assets.pendingCount (Assets.fetchTransactions stamp d Fixture.alice) = 1%nat.
Proof.
  intros d stamp.
  destruct (Assets_pendingCount_of_listed stamp d Fixture.alice)
    as [_ [_ Heq]].
  rewrite Heq; [reflexivity | simpl; lia].
Defined.

(** ** Market: the list of coins and the 24h change *)

(** A number compares with itself exactly when it is not NaN; two such
    numbers compare one way or the other. *)
Lemma ge_total (a b : JS.number) :
  JS.ge a a = true -> JS.ge b b = true ->
  JS.ge a b = true \/ JS.ge b a = true.
Proof.
  unfold JS.ge. rewrite !leb_spec. unfold SFleb.
  intros Ha Hb.
  assert (Hd : SFcompare (Prim2SF a) (Prim2SF b) <> None).
  { destruct (SFcompare (Prim2SF a) (Prim2SF a)) as [ca|] eqn:Ea;
      [|discriminate].
    destruct (SFcompare (Prim2SF b) (Prim2SF b)) as [cb|] eqn:Eb;
      [|discriminate].
    exact (SFcompare_defined _ _ _ _ _ _ Ea Eb). }
  rewrite (SFcompare_antisym (Prim2SF a) (Prim2SF b)).
  destruct (SFcompare (Prim2SF a) (Prim2SF b)) as [[| |]|]; simpl;
    [now right | now right | now left | now elim Hd].
Qed.

Lemma market_cap_first_total (x y : Coin.Row) :
  (forall v, Coin.market_cap x = Some v -> JS.ge v v = true) ->
  (forall v, Coin.market_cap y = Some v -> JS.ge v v = true) ->
  Market.market_cap_first x y = true \/ Market.market_cap_first y x = true.
Proof.
  unfold Market.market_cap_first. intros Hx Hy.
  destruct (Coin.market_cap x) as [a|], (Coin.market_cap y) as [b|];
    try (now left); try (now right).
  destruct (ge_total a b (Hx a eq_refl) (Hy b eq_refl)); [now left | now right].
Qed.

(** X13.  The Market page lists exactly the coins that are active, each
    one as often as the table holds it, whatever their market
    capitalisations.  When no market capitalisation is NaN (the column is an
    integer), the list is in the order asked for: a coin with no
    capitalisation or with the larger one comes first. *)
Theorem Market_fetchCoins_active_by_market_cap :
  forall d : Database,
    Permutation (Market.fetchCoins d)
                (filter Backend.is_active_true (coins d)) /\
    (forall c, In c (Market.fetchCoins d) <->
               In c (coins d) /\ Coin.is_active c = Some true) /\
    ((forall c v, In c (coins d) -> Coin.market_cap c = Some v ->
                  JS.ge v v = true) ->
     Sorted (fun a b => Market.market_cap_first a b = true)
            (Market.fetchCoins d)).
Proof.
  intro d. unfold Market.fetchCoins. split; [apply order_by_perm|]. split.
  - intro c. rewrite in_order_by, filter_In.
    unfold Backend.is_active_true.
    destruct (Coin.is_active c) as [[|]|]; intuition discriminate.
  - intro Hv. apply order_by_sorted. intros x y Hx Hy.
    apply filter_In in Hx. apply filter_In in Hy.
    apply market_cap_first_total; intros v Hm.
    + exact (Hv x v (proj1 Hx) Hm).
    + exact (Hv y v (proj1 Hy) Hm).
Qed.

(** The theorem above on the fixture with a capitalisation for Bitcoin:
    Bitcoin comes first. *)
Lemma Market_fetchCoins_active_by_market_cap_witness :
  let btc := {| Coin.id := "c-btc"; Coin.symbol := "BTC";
                Coin.name := "Bitcoin"; Coin.is_custom := Some false;
                Coin.price := Some 43000%float;
                Coin.price_change_24h := Some 0%float;
                Coin.market_cap := Some 846000000000%float;
                Coin.volume_24h := Some 0%float;
                Coin.logo_url := None; Coin.is_active := Some true |} in
  let d := {| coins := [Fixture.usdt; btc; Fixture.moon];
              user_balances := []; transactions := []; orders := [] |} in
  (forall c v, In c (coins d) -> Coin.market_cap c = Some v ->
               JS.ge v v = true) /\
  map Coin.symbol (Market.fetchCoins d) = ["BTC"; "USDT"; "MOON"] /\
  Sorted (fun a b => Market.market_cap_first a b = true) (Market.fetchCoins d).
Proof.
  intros btc d.
  assert (H : forall c v, In c (coins d) -> Coin.market_cap c = Some v ->
                JS.ge v v = true).
  { intros c v [<-|[<-|[<-|[]]]] Hv; inversion Hv; reflexivity. }
  split; [exact H|]. split; [reflexivity|].
  exact (proj2 (proj2 (Market_fetchCoins_active_by_market_cap d)) H).
Defined.

(** [toFixed(2)] of an absolute value in the fixed range: digits, a point
    and two digits, with no sign. *)
Lemma toFixed_abs_unsigned (x : JS.number) :
  JS.fixed_range x = true ->
  exists (int_part : string) (d1 d2 : ascii),
    JS.toFixed (JS.abs x) 2 = int_part ++ "." ++ String d1 (String d2 "") /\
    int_part <> "" /\ JS.all_digits int_part = true /\
    JS.is_digit d1 = true /\ JS.is_digit d2 = true.
Proof.
  unfold JS.fixed_range, JS.toFixed, JS.abs. rewrite abs_spec.
  destruct (Prim2SF x) as [s|s| |s m e]; try discriminate; cbn [SFabs].
  - intros _. rewrite fixed_digits_two.
    exists (JS.decimal (0 / 10 ^ 2)), (JS.digit_char (0 / 10)),
           (JS.digit_char 0).
    split; [reflexivity|].
    split; [apply digits_aux_not_empty|].
    split; [now apply digits_aux_digits|].
    split; apply is_digit_digit_char.
  - intro H. apply negb_true_iff in H. rewrite H, fixed_digits_two.
    set (n := JS.nearest_scaled (JS.magnitude m e) 2).
    exists (JS.decimal (n / 10 ^ 2)), (JS.digit_char (n / 10)),
           (JS.digit_char n).
    split; [reflexivity|].
    split; [apply digits_aux_not_empty|].
    split; [now apply digits_aux_digits|].
    split; apply is_digit_digit_char.
Qed.

Lemma append_assoc (a b c : string) : (a ++ b) ++ c = a ++ (b ++ c).
Proof.
  induction a as [|x a IH]; simpl; [reflexivity | now rewrite IH].
Qed.

(** X14.  The cell 24h Change never shows a minus sign: for a change in
    the range [toFixed] renders in fixed notation (finite, below 10^21 in
    absolute value) the text is one or more digits, a point, two digits and
    a percent sign; the direction is shown by the arrow alone, which points
    up exactly when the change is at least 0 (a null change counting
    as 0). *)
Theorem Market_change_text_unsigned :
  forall c : Coin.Row,
    JS.fixed_range (JS.to_number (Coin.price_change_24h c)) = true ->
    (exists (int_part : string) (d1 d2 : ascii),
       Market.change_text c
       = int_part ++ "." ++ String d1 (String d2 "%") /\
       int_part <> "" /\ JS.all_digits int_part = true /\
       JS.is_digit d1 = true /\ JS.is_digit d2 = true) /\
    (Market.change_is_up c = true <->
     JS.ge (JS.to_number (Coin.price_change_24h c)) 0%float = true) /\
    (Coin.price_change_24h c = None ->
     Market.change_is_up c = true /\ Market.change_text c = "0.00%").
Proof.
  intros c Hr. split; [|split].
  - destruct (toFixed_abs_unsigned _ Hr) as [ip [d1 [d2 [He [H1 [H2 [H3 H4]]]]]]].
    exists ip, d1, d2. split; [|now repeat split].
    unfold Market.change_text. rewrite He.
    rewrite append_assoc. reflexivity.
  - reflexivity.
  - intro Hn. unfold Market.change_is_up, Market.change_text.
    rewrite Hn. split; vm_compute; reflexivity.
Qed.

(** The theorem above on a change of -12.345 per cent. *)
Lemma Market_change_text_unsigned_witness :
  let c := {| Coin.id := "c-btc"; Coin.symbol := "BTC";
              Coin.name := "Bitcoin"; Coin.is_custom := Some false;
              Coin.price := Some 43000%float;
              Coin.price_change_24h := Some (-12.345)%float;
              Coin.market_cap := Some 0%float;
              Coin.volume_24h := Some 0%float;
              Coin.logo_url := None; Coin.is_active := Some true |} in
  JS.fixed_range (JS.to_number (Coin.price_change_24h c)) = true /\
  Market.change_text c = "12.35%" /\
  Market.change_is_up c = false /\
  exists (int_part : string) (d1 d2 : ascii),
    Market.change_text c = int_part ++ "." ++ String d1 (String d2 "%").
Proof.
  intro c.
  assert (H : JS.fixed_range (JS.to_number (Coin.price_change_24h c)) = true)
    by reflexivity.
  split; [exact H|]. split; [vm_compute; reflexivity|].
  split; [reflexivity|].
  destruct (proj1 (Market_change_text_unsigned c H))
    as [ip [d1 [d2 [He _]]]].
  now exists ip, d1, d2.
Defined.

(** ** Trade: how the pair is read; the pairs and buttons of the pages on
    the coins of the migration *)

Lemma split_not_empty (sep : ascii) (s : string) : JS.split sep s <> [].
Proof.
  destruct s as [|c r]; simpl; [discriminate|].
  destruct (c =? sep)%char; [discriminate|].
  destruct (JS.split sep r); discriminate.
Qed.

Lemma split_cons (sep c : ascii) (r : string) :
  (c =? sep)%char = false ->
  exists h t, JS.split sep r = h :: t /\
              JS.split sep (String c r) = String c h :: t.
Proof.
  intro Hc. simpl. rewrite Hc.
  destruct (JS.split sep r) as [|h t] eqn:E;
    [now elim (split_not_empty sep r)|].
  now exists h, t.
Qed.

Lemma concat_cons_char (sep : string) (c : ascii) (h : string)
    (t : list string) :
  String.concat sep (String c h :: t) = String c (String.concat sep (h :: t)).
Proof.
  destruct t; reflexivity.
Qed.

Lemma split_concat (sep : ascii) (s : string) :
  String.concat (String sep "") (JS.split sep s) = s.
Proof.
  induction s as [|c r IH]; [reflexivity|].
  destruct (c =? sep)%char eqn:Hc.
  - simpl. rewrite Hc. apply Ascii.eqb_eq in Hc. subst c.
    destruct (JS.split sep r) as [|h t] eqn:E;
      [now elim (split_not_empty sep r)|].
    change (String.concat (String sep "") ("" :: h :: t))
      with (String sep (String.concat (String sep "") (h :: t))).
    now rewrite IH.
  - destruct (split_cons sep c r Hc) as [h [t [E ->]]].
    rewrite concat_cons_char. rewrite E in IH. now rewrite IH.
Qed.

Lemma split_parts (sep : ascii) (s : string) :
  Forall (fun p => occurs sep p = false) (JS.split sep s).
Proof.
  induction s as [|c r IH]; [repeat constructor|].
  destruct (c =? sep)%char eqn:Hc.
  - simpl. rewrite Hc. constructor; [reflexivity | exact IH].
  - destruct (split_cons sep c r Hc) as [h [t [E ->]]].
    rewrite E in IH. inversion IH as [|h' t' Hh Ht]. subst.
    constructor; [simpl; now rewrite Hc | exact Ht].
Qed.

Lemma split_length (sep : ascii) (s : string) :
  List.length (JS.split sep s) = S (occurrences sep s).
Proof.
  induction s as [|c r IH]; [reflexivity|].
  destruct (c =? sep)%char eqn:Hc.
  - simpl. rewrite Hc. simpl. now rewrite IH.
  - destruct (split_cons sep c r Hc) as [h [t [E ->]]].
    rewrite E in IH. simpl in *. now rewrite Hc.
Qed.

Lemma split_no_separator (sep : ascii) (s : string) :
  occurs sep s = false -> JS.split sep s = [s].
Proof.
  induction s as [|c r IH]; [reflexivity|].
  simpl. intro H. apply orb_false_iff in H. destruct H as [Hc Hr].
  rewrite Hc, (IH Hr). reflexivity.
Qed.

Lemma split_pair (sep : ascii) (b q : string) :
  occurs sep b = false -> occurs sep q = false ->
  JS.split sep (b ++ String sep q) = [b; q].
Proof.
  intros Hb Hq. induction b as [|c b IH]; simpl.
  - rewrite Ascii.eqb_refl. now rewrite (split_no_separator sep q Hq).
  - simpl in Hb. apply orb_false_iff in Hb. destruct Hb as [Hc Hb].
    rewrite Hc, (IH Hb). reflexivity.
Qed.

(** X15.  Splitting at a separator loses nothing: the parts joined with
    the separator give the string back, no part holds the separator, and
    there is one part more than there are separators (so always a first
    part).  [handleTrade] therefore reads a pair written base, slash, quote
    as it is written: it looks up the coin named by the text before the
    slash as the base and the coin named by the text after it as the
    quote. *)
Theorem handleTrade_reads_the_pair :
  forall (sep : ascii) (s : string),
    String.concat (String sep "") (JS.split sep s) = s /\
    Forall (fun p => occurs sep p = false) (JS.split sep s) /\
    List.length (JS.split sep s) = S (occurrences sep s) /\
    forall (st : Trade.State) (b q : string),
      occurs "/" b = false -> occurs "/" q = false ->
      Trade.selectedPair st = b ++ "/" ++ q ->
      base_id st = Trade.find_id (Trade.coins st) (Some b) /\
      quote_id st = Trade.find_id (Trade.coins st) (Some q).
Proof.
  intros sep s. split; [apply split_concat|].
  split; [apply split_parts|]. split; [apply split_length|].
  intros st b q Hb Hq Hp. unfold base_id, quote_id. rewrite Hp.
  change (b ++ "/" ++ q) with (b ++ String "/" q).
  rewrite (split_pair "/" b q Hb Hq). split; reflexivity.
Qed.

(** The theorem above on the pair BTC/USDT. *)
Lemma handleTrade_reads_the_pair_witness :
  let st := Fixture.trade_form "BTC/USDT" market "1" "" in
  JS.split "/" "BTC/USDT" = ["BTC"; "USDT"] /\
  base_id st = Some "c-btc" /\ quote_id st = Some "c-usdt".
Proof.
  intro st. split; [reflexivity|].
  destruct (handleTrade_reads_the_pair "/" "BTC/USDT")
    as [_ [_ [_ Hread]]].
  destruct (Hread st "BTC" "USDT" eq_refl eq_refl eq_refl) as [Hb Hq].
  rewrite Hb, Hq. split; reflexivity.
Defined.

Lemma has_coin_in (d : Database) (c : Coin.Row) :
  In c (coins d) -> Backend.has_coin d (Coin.id c) = true.
Proof.
  intro H. unfold Backend.has_coin. apply existsb_exists.
  exists c. split; [exact H | apply String.eqb_refl].
Qed.

Lemma default_coins_has_coin (id_of : string -> uuid) (d : Database)
    (s : string) :
  coins d = Migration.default_coins id_of ->
  In s ["BTC"; "ETH"; "BNB"; "XRP"; "USDT"; "MOON"] ->
  Backend.has_coin d (id_of s) = true.
Proof.
  intros Hc Hs. rewrite has_coin_ids, Hc.
  change (map Coin.id (Migration.default_coins id_of))
    with (map id_of ["BTC"; "ETH"; "BNB"; "XRP"; "USDT"; "MOON"]).
  apply existsb_exists. exists (id_of s).
  split; [now apply in_map | apply String.eqb_refl].
Qed.

(** An empty field holds no number the column takes. *)
Lemma accepted_not_empty (s : string) :
  accepted (JS.parseFloat s) -> s <> "".
Proof.
  intros [a H] ->. unfold held_as in H. vm_compute in H. discriminate.
Qed.

(** On the coins of the migration a market order on one of the pairs of the
    page goes through. *)
Lemma handleTrade_on_default_coins (id_of : string -> uuid) (d : Database)
    (base : string) (user new_id : uuid) (side : OrderSide)
    (amount : string) :
  coins d = Migration.default_coins id_of ->
  (forall s, id_of s <> "") ->
  In base ["BTC"; "ETH"; "BNB"; "XRP"; "MOON"] ->
  accepted (JS.parseFloat amount) ->
  Backend.order_id_taken d new_id = false ->
  let o := Trade.handleTrade (Some user) new_id side
             (market_order_form d (base ++ "/USDT") amount) d in
  succeeded o = true /\
  exists r, orders (db o) = (orders d ++ [r])%list /\
            Order.base_coin_id r = id_of base /\
            Order.quote_coin_id r = id_of "USDT".
Proof.
  intros Hc Hid Hbase Hacc Hfree o.
  pose proof (accepted_not_empty amount Hacc) as Ha.
  destruct Hacc as [a Hheld].
  set (st := market_order_form d (base ++ "/USDT") amount) in *.
  assert (Hi : incomplete st = false).
  { unfold incomplete, st. simpl. apply falsy_false_iff in Ha.
    now rewrite Ha. }
  assert (Hb : base_id st = Some (id_of base)).
  { unfold base_id, st, market_order_form, Trade.fetchCoins. simpl.
    rewrite Hc.
    destruct Hbase as [<-|[<-|[<-|[<-|[<-|[]]]]]]; reflexivity. }
  assert (Hq : quote_id st = Some (id_of "USDT")).
  { unfold quote_id, st, market_order_form, Trade.fetchCoins. simpl.
    rewrite Hc.
    destruct Hbase as [<-|[<-|[<-|[<-|[<-|[]]]]]]; reflexivity. }
  assert (Hm : Trade.missing (base_id st) || Trade.missing (quote_id st)
               = false).
  { rewrite Hb, Hq. simpl.
    pose proof (Hid base) as H1. pose proof (Hid "USDT") as H2.
    apply falsy_false_iff in H1. apply falsy_false_iff in H2.
    now rewrite H1, H2. }
  assert (Hins : Backend.insert_order (Some user) new_id
                   (order_of (Some user) side st (id_of base) (id_of "USDT")) d
                 = inl (Backend.add_order d
                          (Backend.new_order new_id user a None
                             (order_of (Some user) side st (id_of base)
                                       (id_of "USDT"))))).
  { apply insert_order_inl. exists user, a, None. simpl.
    repeat split; auto.
    - apply (default_coins_has_coin id_of d base Hc).
      simpl. simpl in Hbase. tauto.
    - apply (default_coins_has_coin id_of d "USDT" Hc). simpl. tauto. }
  pose proof (handleTrade_run (Some user) new_id side st d) as Hrun.
  fold o in Hrun. clearbody o.
  destruct Hrun as [Hi' | Hi' Hm' | b q e Hi' Hb' Hq' Hm' Hins'
                   | b q d' Hi' Hb' Hq' Hm' Hins']; try congruence.
  assert (Eb : b = id_of base) by congruence.
  assert (Eq : q = id_of "USDT") by congruence.
  subst b q. rewrite Hins in Hins'. inversion Hins' as [Hd]. clear Hins'.
  split; [reflexivity|]. simpl.
  eexists. split; [reflexivity|]. split; reflexivity.
Qed.

(** On the coins of the migration a deposit with one of the buttons of the
    page goes through. *)
Lemma handleDeposit_on_default_coins (id_of : string -> uuid) (d : Database)
    (coinSymbol : string) (user new_id : uuid) (st : Assets.State) :
  coins d = Migration.default_coins id_of ->
  In coinSymbol deposit_buttons ->
  accepted (JS.parseFloat (Assets.depositAmount st)) ->
  Backend.transaction_id_taken d new_id = false ->
  let o := Assets.handleDeposit (Some user) new_id coinSymbol st d in
  succeeded o = true /\
  exists t, transactions (db o) = (transactions d ++ [t])%list /\
            Transaction.coin_id t = id_of coinSymbol.
Proof.
  intros Hc Hs Hacc Hfree o. subst o. unfold Assets.handleDeposit.
  pose proof (accepted_not_empty _ Hacc) as Ha.
  destruct Hacc as [held Hheld].
  apply falsy_false_iff in Ha. rewrite Ha.
  assert (Hcoin : exists c, Backend.coin_by_symbol d coinSymbol = Some c /\
                            Coin.id c = id_of coinSymbol /\ In c (coins d)).
  { unfold Backend.coin_by_symbol, Backend.coins_where_symbol. rewrite Hc.
    destruct Hs as [<-|[<-|[<-|[<-|[]]]]]; simpl;
      eexists; (split; [reflexivity|]); (split; [reflexivity|]); tauto. }
  destruct Hcoin as [c [Hfind [Hcid Hin]]]. rewrite Hfind. simpl.
  match goal with
  | |- context [Backend.insert_transaction ?a ?i ?v ?d] =>
      assert (Hins : Backend.insert_transaction a i v d
                     = inl (Backend.add_transaction d
                              (Backend.new_transaction i user held v)))
  end.
  { apply insert_transaction_inl. exists user, held. simpl.
    repeat split; auto. now apply has_coin_in. }
  rewrite Hins. simpl. split; [reflexivity|].
  eexists. split; [reflexivity | exact Hcid].
Qed.

(** X16.  The pages and the migration agree.  On the coins the migration
    inserts, whatever ids the backend drew for them, every pair the Trade
    page offers names two coins of the table: a market order of a
    signed-in user, for an amount that the column takes, goes through, for
    the coin before the slash against USDT.  Every deposit button of the
    Assets page names a coin of the table: a deposit of a signed-in user,
    of an amount that the column takes, goes through, for that coin. *)
Theorem pages_agree_with_the_migration :
  forall (id_of : string -> uuid) (d : Database),
    coins d = Migration.default_coins id_of ->
    (forall s, id_of s <> "") ->
    (forall pair, In pair Trade.tradingPairs ->
       exists base,
         pair = base ++ "/USDT" /\
         forall (user new_id : uuid) (side : OrderSide) (amount : string),
           accepted (JS.parseFloat amount) ->
           Backend.order_id_taken d new_id = false ->
           let o := Trade.handleTrade (Some user) new_id side
                      (market_order_form d pair amount) d in
           succeeded o = true /\
           exists r, orders (db o) = (orders d ++ [r])%list /\
                     Order.base_coin_id r = id_of base /\
                     Order.quote_coin_id r = id_of "USDT") /\
    (forall coinSymbol, In coinSymbol deposit_buttons ->
       forall (user new_id : uuid) (st : Assets.State),
         accepted (JS.parseFloat (Assets.depositAmount st)) ->
         Backend.transaction_id_taken d new_id = false ->
         let o := Assets.handleDeposit (Some user) new_id coinSymbol st d in
         succeeded o = true /\
         exists t, transactions (db o) = (transactions d ++ [t])%list /\
                   Transaction.coin_id t = id_of coinSymbol).
Proof.
  intros id_of d Hc Hid. split.
  - intros pair Hp.
    assert (Hb : exists base, pair = base ++ "/USDT" /\
                   In base ["BTC"; "ETH"; "BNB"; "XRP"; "MOON"]).
    { destruct Hp as [<-|[<-|[<-|[<-|[<-|[]]]]]];
        [exists "BTC" | exists "ETH" | exists "BNB" | exists "XRP"
        | exists "MOON"]; (split; [reflexivity | simpl; tauto]). }
    destruct Hb as [base [-> Hbase]]. exists base. split; [reflexivity|].
    intros user new_id side amount Ha Hfree.
    now apply (handleTrade_on_default_coins id_of).
  - intros coinSymbol Hs user new_id st Ha Hfree.
    now apply (handleDeposit_on_default_coins id_of).
Qed.

(** The theorem above right after the migration, the id of a coin being
    its symbol after [id-]: an order to buy 100 MOON, and a deposit of
    0.5 ETH. *)
Lemma pages_agree_with_the_migration_witness :
  let id_of := fun s : string => "id-" ++ s in
  let d := Migration.initial id_of in
  let o := Trade.handleTrade (Some Fixture.alice) "o-1" buy
             (market_order_form d "MOON/USDT" "100") d in
  let o' := Assets.handleDeposit (Some Fixture.alice) "tx-1" "ETH"
              (Fixture.deposit_form "0.5") d in
  (coins d = Migration.default_coins id_of /\
   (forall s, id_of s <> "") /\
   accepted (JS.parseFloat "100") /\ accepted (JS.parseFloat "0.5")) /\
  succeeded o = true /\
  map (fun r => (Order.base_coin_id r, Order.quote_coin_id r)) (orders (db o))
  = [("id-MOON", "id-USDT")] /\
  succeeded o' = true /\
  map Transaction.coin_id (transactions (db o')) = ["id-ETH"].
Proof.
  intros id_of d o o'.
  assert (H1 : coins d = Migration.default_coins id_of) by reflexivity.
  assert (H2 : forall s, id_of s <> "") by (intro s; discriminate).
  assert (H3 : accepted (JS.parseFloat "100"))
    by (exists 100%float; vm_compute; reflexivity).
  assert (H4 : accepted (JS.parseFloat "0.5"))
    by (exists 0.5%float; vm_compute; reflexivity).
  split; [repeat split; assumption|].
  destruct (pages_agree_with_the_migration id_of d H1 H2)
    as [Hpairs Hbuttons].
  destruct (Hpairs "MOON/USDT") as [base [Hbase Hgo]];
    [simpl; tauto|].
  destruct (Hgo Fixture.alice "o-1" buy "100" H3 eq_refl) as [Hs _].
  split; [exact Hs|]. split; [reflexivity|].
  destruct (Hbuttons "ETH" ltac:(simpl; tauto) Fixture.alice "tx-1"
              (Fixture.deposit_form "0.5") H4 eq_refl) as [Hs' [t [Ht Hc]]].
  split; [exact Hs'|].
  etransitivity; [exact (f_equal (map Transaction.coin_id) Ht)|].
  simpl. now rewrite Hc.
Defined.

Lemma order_id_taken_same (d d' : Database) (i : uuid) :
  orders d' = orders d ->
  Backend.order_id_taken d' i = Backend.order_id_taken d i.
Proof.
  intro H. unfold Backend.order_id_taken. now rewrite H.
Qed.

(** An insert into [orders] reads the ids of the orders and of the coins,
    and nothing else. *)
Lemma insert_order_same_keys (a : option uuid) (new_id : uuid)
    (v : Order.Insert) (d d' : Database) :
  map Coin.id (coins d') = map Coin.id (coins d) ->
  orders d' = orders d ->
  match Backend.insert_order a new_id v d,
        Backend.insert_order a new_id v d' with
  | inl r, inl r' => orders r' = orders r
  | inr e, inr e' => e' = e
  | _, _ => False
  end.
Proof.
  intros Hc Ho. unfold Backend.insert_order.
  rewrite (order_id_taken_same d d' new_id Ho).
  rewrite !(has_coin_same_ids d d' _ Hc).
  destruct (Backend.decimal_20_8 (Order.ins_amount v)) as [amount|e];
    [|reflexivity].
  destruct (Backend.nullable_decimal_20_8 (Order.ins_price v)) as [price|e];
    [|reflexivity].
  destruct (Backend.with_check a (Order.ins_user_id v)); simpl;
    [|reflexivity].
  destruct (Order.ins_user_id v) as [uid|]; [|reflexivity].
  destruct amount as [amount|]; [|reflexivity].
  destruct (Backend.order_id_taken d new_id); [reflexivity|].
  destruct (Backend.has_coin d (Order.ins_base_coin_id v)
            && Backend.has_coin d (Order.ins_quote_coin_id v)); simpl;
    [|reflexivity].
  now rewrite Ho.
Qed.

(** X17.  [handleTrade] judges a pair on the coins the page loaded, not on
    the table.  Of the tables it reads only the ids of the coins and of the
    orders: with any other tables that have the same coin ids and the same
    orders, in particular after a coin was deactivated, renamed or repriced
    since the page loaded, the same click shows the same toast, leaves the
    same form and stores the same orders. *)
Theorem handleTrade_judges_pairs_on_loaded_coins :
  forall (user : option uuid) (new_id : uuid) (side : OrderSide)
         (st : Trade.State) (d d' : Database),
    map Coin.id (coins d') = map Coin.id (coins d) ->
    orders d' = orders d ->
    let o := Trade.handleTrade user new_id side st d in
    let o' := Trade.handleTrade user new_id side st d' in
    toast o' = toast o /\ state o' = state o /\
    orders (db o') = orders (db o).
Proof.
  intros user new_id side st d d' Hc Ho o o'. subst o o'.
  unfold Trade.handleTrade.
  destruct (JS.falsy (Trade.amount st)
            || Trade.is_limit (Trade.orderType st)
               && JS.falsy (Trade.price_field st)); simpl;
    [now repeat split|].
  destruct (Trade.missing _ || Trade.missing _); simpl; [now repeat split|].
  destruct (Trade.find_id (Trade.coins st) _) as [b|]; simpl;
    [|now repeat split].
  destruct (Trade.find_id (Trade.coins st) _) as [q|]; simpl;
    [|now repeat split].
  match goal with
  | |- context [Backend.insert_order ?a ?i ?v d] =>
      pose proof (insert_order_same_keys a i v d d' Hc Ho) as H;
      destruct (Backend.insert_order a i v d) as [r|e];
      destruct (Backend.insert_order a i v d') as [r'|e']
  end; simpl; try contradiction.
  - now repeat split.
  - subst e'. now repeat split.
Qed.

(** The theorem above on the fixture: Bitcoin is deactivated after the page
    has loaded, and the order to sell it is accepted all the same. *)
Lemma handleTrade_judges_pairs_on_loaded_coins_witness :
  let off := {| Coin.id := "c-btc"; Coin.symbol := "BTC";
                Coin.name := "Bitcoin"; Coin.is_custom := Some false;
                Coin.price := Some 43000%float;
                Coin.price_change_24h := Some 0%float;
                Coin.market_cap := Some 0%float;
                Coin.volume_24h := Some 0%float;
                Coin.logo_url := None; Coin.is_active := Some false |} in
  let d' := {| coins := [off; Fixture.usdt; Fixture.moon];
               user_balances := user_balances Fixture.db0;
               transactions := []; orders := [] |} in
  let st := Fixture.trade_form "BTC/USDT" market "1" "" in
  (map Coin.id (coins d') = map Coin.id (coins Fixture.db0) /\
   orders d' = orders Fixture.db0) /\
  map Trade.symbol (Trade.fetchCoins d') = ["USDT"; "MOON"] /\
  toast (Trade.handleTrade (Some Fixture.alice) "o-1" sell st d')
  = toast_success "Sell order placed successfully!".
Proof.
  intros off d' st.
  assert (H1 : map Coin.id (coins d') = map Coin.id (coins Fixture.db0))
    by reflexivity.
  assert (H2 : orders d' = orders Fixture.db0) by reflexivity.
  split; [split; assumption|]. split; [reflexivity|].
  destruct (handleTrade_judges_pairs_on_loaded_coins (Some Fixture.alice)
              "o-1" sell st Fixture.db0 d' H1 H2) as [Ht _].
  rewrite Ht. reflexivity.
Defined.

(** ** Assets: the address a deposit is recorded with *)

(** X18.  A deposit that goes through is recorded with the address the
    page shows under the name of its coin, and with none when the page shows
    no address under that name.  The page shows addresses under BTC, ETH,
    USDT (ERC20) and USDT (TRC20); its buttons deposit BTC, ETH, USDT and
    MOON: a deposit of BTC or ETH carries the address of the page, a deposit
    of USDT or MOON carries no address. *)
Theorem handleDeposit_records_the_page_address :
  forall (user : option uuid) (new_id : uuid) (coinSymbol : string)
         (st : Assets.State) (d : Database),
    let o := Assets.handleDeposit user new_id coinSymbol st d in
    succeeded o = true ->
    exists t,
      transactions (db o) = (transactions d ++ [t])%list /\
      Transaction.type t = tx_deposit /\
      Transaction.wallet_address t
      = Assets.property Assets.walletAddresses coinSymbol /\
      (Transaction.wallet_address t <> None <->
       In coinSymbol ["BTC"; "ETH"; "USDT (ERC20)"; "USDT (TRC20)"]) /\
      (coinSymbol = "BTC" ->
       Transaction.wallet_address t
       = Some "1LyZHu2xzqYyzLesS7UYecXUTW6AGngBFR") /\
      (coinSymbol = "ETH" ->
       Transaction.wallet_address t
       = Some "0x1016a1ff1907e77afa6f4889f8796b4c3237252d") /\
      (coinSymbol = "USDT" \/ coinSymbol = "MOON" ->
       Transaction.wallet_address t = None).
Proof.
  intros user new_id coinSymbol st d o Hs.
  assert (H : request_outcome (negb (JS.falsy (Assets.depositAmount st)))
                tx_deposit (Assets.depositAmount st)
                (Assets.property Assets.walletAddresses coinSymbol)
                user new_id coinSymbol d o).
  { subst o. unfold Assets.handleDeposit.
    destruct (JS.falsy (Assets.depositAmount st)) eqn:Hf; simpl negb.
    - apply request_outcome_not_filled.
    - now apply request_outcome_of_attempt. }
  destruct H as [_ [_ [_ [_ [Hrow _]]]]].
  destruct (Hrow Hs) as [uid [c [a [_ [_ [_ Ht]]]]]].
  eexists. split; [exact Ht|].
  cbn [Transaction.type Transaction.wallet_address]. split; [reflexivity|].
  split; [reflexivity|].
  split; [|split; [|split]].
  - unfold Assets.walletAddresses. cbn [Assets.property].
    destruct (String.eqb "BTC" coinSymbol) eqn:E1;
      [apply String.eqb_eq in E1; subst; split;
         [intros _; now left | discriminate]|].
    destruct (String.eqb "ETH" coinSymbol) eqn:E2;
      [apply String.eqb_eq in E2; subst; split;
         [intros _; right; now left | discriminate]|].
    destruct (String.eqb "USDT (ERC20)" coinSymbol) eqn:E3;
      [apply String.eqb_eq in E3; subst; split;
         [intros _; right; right; now left | discriminate]|].
    destruct (String.eqb "USDT (TRC20)" coinSymbol) eqn:E4;
      [apply String.eqb_eq in E4; subst; split;
         [intros _; right; right; right; now left | discriminate]|].
    apply String.eqb_neq in E1, E2, E3, E4.
    split; [intro H; elim H; reflexivity|].
    intros [H|[H|[H|[H|[]]]]]; congruence.
  - intros ->. reflexivity.
  - intros ->. reflexivity.
  - intros [-> | ->]; reflexivity.
Qed.

(** The theorem above on a deposit of 2 USDT. *)
Lemma handleDeposit_records_the_page_address_witness :
  let o := Assets.handleDeposit (Some Fixture.alice) "tx-1" "USDT"
             (Fixture.deposit_form "2") Fixture.db0 in
  succeeded o = true /\
  map Transaction.wallet_address (transactions (db o)) = [None].
Proof.
  intro o. subst o.
  match goal with
  | |- succeeded ?o = true /\ _ =>
      assert (Hs : succeeded o = true) by reflexivity
  end.
  split; [exact Hs|].
  destruct (handleDeposit_records_the_page_address (Some Fixture.alice)
              "tx-1" "USDT" (Fixture.deposit_form "2") Fixture.db0 Hs)
    as [t [Ht [_ [_ [_ [_ [_ Hnone]]]]]]].
  rewrite Ht. simpl. rewrite (Hnone (or_introl eq_refl)). reflexivity.
Defined.

(** ** Whole numbers: typed, stored and shown *)

Lemma round_half_even_whole (n : Z) : JS.round_half_even n 1 = n.
Proof.
  unfold JS.round_half_even. rewrite Z.mod_1_r, Z.div_1_r. reflexivity.
Qed.

Lemma digits2_pos_53 (p : positive) :
  (2 ^ 52 <= Z.pos p < 2 ^ 53)%Z -> digits2_pos p = 53%positive.
Proof.
  intro H.
  pose proof (digits2_pos_lower p) as Hl.
  pose proof (digits2_pos_upper p) as Hu.
  set (dd := Z.pos (digits2_pos p)) in *.
  assert (H1 : (52 < dd)%Z).
  { destruct (Z_lt_le_dec 52 dd) as [E|E]; [exact E|]. exfalso.
    assert (2 ^ dd <= 2 ^ 52)%Z by (apply Z.pow_le_mono_r; lia). lia. }
  assert (H2 : (dd <= 53)%Z) by (subst dd; apply digits2_pos_le; lia).
  assert (E : dd = 53%Z) by lia. subst dd. now inversion E.
Qed.

(** A positive integer below [2^53] is a number: [of_integer] gives it
    exactly, with a mantissa of 53 binary digits. *)
Lemma of_integer_exact (k : Z) :
  (0 < k < 2 ^ 53)%Z ->
  exists p : positive,
    Z.pos p = (k * 2 ^ (52 - Z.log2 k))%Z /\
    (2 ^ 52 <= Z.pos p < 2 ^ 53)%Z /\
    (0 <= Z.log2 k <= 52)%Z /\
    Prim2SF (JS.of_integer k) = S754_finite false p (Z.log2 k - 52).
Proof.
  intro Hk.
  pose proof (Z.log2_spec k ltac:(lia)) as Hl.
  pose proof (Z.log2_nonneg k) as Hl0.
  set (l := Z.log2 k) in *.
  assert (Hl52 : (l <= 52)%Z).
  { destruct (Z_le_gt_dec l 52) as [E|E]; [exact E|]. exfalso.
    assert (2 ^ 53 <= 2 ^ l)%Z by (apply Z.pow_le_mono_r; lia). lia. }
  assert (Hpow : (0 < 2 ^ (52 - l))%Z) by (apply Z.pow_pos_nonneg; lia).
  assert (Hprod : (2 ^ l * 2 ^ (52 - l) = 2 ^ 52)%Z).
  { rewrite <- Z.pow_add_r by lia. f_equal. lia. }
  assert (Hsucc : (2 ^ Z.succ l * 2 ^ (52 - l) = 2 ^ 53)%Z).
  { rewrite <- Z.pow_add_r by lia. f_equal. lia. }
  assert (Hm : (2 ^ 52 <= k * 2 ^ (52 - l) < 2 ^ 53)%Z) by nia.
  destruct (k * 2 ^ (52 - l))%Z as [|p|p] eqn:Ep; try lia.
  exists p. split; [reflexivity|]. split; [exact Hm|]. split; [lia|].
  unfold JS.of_integer, JS.nearest_number.
  change (Z.log2 1) with 0%Z. rewrite Z.sub_0_r. fold l.
  assert (Hat : JS.at_least_pow2 k 1 l = true).
  { unfold JS.at_least_pow2.
    destruct (0 <=? l)%Z eqn:E0; [|apply Z.leb_gt in E0; lia].
    apply Z.leb_le. lia. }
  rewrite Hat.
  replace (Z.max (l - 52) (-1074)) with (l - 52)%Z by lia.
  assert (Hmant : (if (0 <=? l - 52)%Z
                   then JS.round_half_even k (1 * 2 ^ (l - 52))
                   else JS.round_half_even (k * 2 ^ (- (l - 52))) 1)
                  = Z.pos p).
  { destruct (0 <=? l - 52)%Z eqn:E0.
    - apply Z.leb_le in E0. assert (El : l = 52%Z) by lia.
      rewrite El in *. change (1 * 2 ^ (52 - 52))%Z with 1%Z.
      rewrite round_half_even_whole.
      change (2 ^ (52 - 52))%Z with 1%Z in Ep. lia.
    - rewrite round_half_even_whole.
      replace (- (l - 52))%Z with (52 - l)%Z by lia. exact Ep. }
  rewrite Hmant.
  apply Prim2SF_SF2Prim. cbn [SpecFloat.valid_binary].
  unfold bounded, canonical_mantissa. rewrite fexp_eq.
  rewrite (digits2_pos_53 p Hm).
  apply andb_true_iff. split.
  - apply Z.eqb_eq. lia.
  - apply Z.leb_le. change (emax - prec)%Z with 971%Z. lia.
Qed.

Lemma of_integer_zero : JS.of_integer 0 = 0%float.
Proof. reflexivity. Qed.

(** *** The digits of a whole number, read back *)

Lemma digit_value_digit_char (d : Z) :
  JS.digit_value (JS.digit_char d) = (d mod 10)%Z.
Proof.
  unfold JS.digit_value, JS.digit_char.
  assert (H : (0 <= d mod 10 < 10)%Z) by (apply Z.mod_pos_bound; lia).
  rewrite nat_ascii_embedding by lia. lia.
Qed.

Lemma digits_value_from_digits_aux (fuel : nat) :
  forall (n : Z) (acc : string),
    (0 <= n < 10 ^ (Z.of_nat fuel + 1))%Z ->
    JS.digits_value_from 0 (JS.digits_aux fuel n acc)
    = JS.digits_value_from n acc.
Proof.
  assert (Hone : forall n acc, (0 <= n < 10)%Z ->
            JS.digits_value_from 0 (String (JS.digit_char n) acc)
            = JS.digits_value_from n acc).
  { intros n acc Hn. cbn [JS.digits_value_from].
    rewrite digit_value_digit_char, Z.mod_small by lia.
    f_equal; lia. }
  induction fuel as [|fuel IH]; intros n acc Hn; cbn [JS.digits_aux].
  - apply Hone. change (10 ^ (Z.of_nat 0 + 1))%Z with 10%Z in Hn. exact Hn.
  - destruct (n <? 10)%Z eqn:E.
    + apply Z.ltb_lt in E. apply Hone. lia.
    + apply Z.ltb_ge in E.
      rewrite IH.
      * cbn [JS.digits_value_from]. rewrite digit_value_digit_char.
        f_equal. pose proof (Z.div_mod n 10 ltac:(lia)). lia.
      * split; [apply Z.div_pos; lia|].
        apply Z.div_lt_upper_bound; [lia|].
        replace (Z.of_nat (S fuel) + 1)%Z with (Z.succ (Z.of_nat fuel + 1))%Z
          in Hn by lia.
        rewrite Z.pow_succ_r in Hn by lia. lia.
Qed.

(** Reading the decimal digits of a whole number gives the number back. *)
Lemma digits_value_decimal (n : Z) :
  (0 <= n)%Z -> JS.digits_value (JS.decimal n) = n.
Proof.
  intro Hn. unfold JS.digits_value, JS.decimal.
  rewrite digits_value_from_digits_aux; [reflexivity|].
  split; [exact Hn|].
  rewrite Z2Nat.id by apply Z.log2_nonneg.
  destruct (Z.eq_dec n 0) as [->|Hne]; [reflexivity|].
  pose proof (Z.log2_spec n ltac:(lia)) as [_ Hu].
  assert (Hp : (2 ^ Z.succ (Z.log2 n) <= 10 ^ Z.succ (Z.log2 n))%Z).
  { apply Z.pow_le_mono_l. lia. }
  unfold Z.succ in *. lia.
Qed.

Lemma take_digits_all (s : string) :
  JS.all_digits s = true -> JS.take_digits s = (s, "").
Proof.
  induction s as [|c s IH]; cbn [JS.all_digits JS.take_digits];
    [reflexivity|].
  intro H. apply andb_true_iff in H. destruct H as [Hc Hs].
  rewrite Hc, (IH Hs). reflexivity.
Qed.

(** A string that starts with a digit has no white space, sign or Infinity
    to skip. *)
Lemma parseFloat_from_digit (c : ascii) (r : string) :
  JS.is_digit c = true ->
  JS.parseFloat (String c r)
  = let (int_part, r1) := JS.take_digits (String c r) in
    let '(frac_part, r2, valid) :=
      match r1 with
      | String "." r =>
          let (fs, r') := JS.take_digits r in
          match int_part, fs with
          | EmptyString, EmptyString => ("", r1, false)
          | _, _ => (fs, r', true)
          end
      | _ => ("", r1, negb (JS.falsy int_part))
      end in
    if valid then
      JS.of_decimal (JS.digits_value (int_part ++ frac_part))
        (JS.exponent_part r2 - Z.of_nat (String.length frac_part))
    else PrimFloat.nan.
Proof.
  intro Hc.
  destruct c as [[|] [|] [|] [|] [|] [|] [|] [|]]; try discriminate Hc;
    destruct r as [|c2 [|c3 r3]]; reflexivity.
Qed.

Lemma decimal_starts_with_digit (n : Z) :
  exists c r, JS.decimal n = String c r /\ JS.is_digit c = true /\
              JS.all_digits (JS.decimal n) = true.
Proof.
  assert (Hall : JS.all_digits (JS.decimal n) = true)
    by (unfold JS.decimal; now apply digits_aux_digits).
  destruct (JS.decimal n) as [|c r] eqn:E.
  - exfalso. revert E. unfold JS.decimal. apply digits_aux_not_empty.
  - exists c, r. split; [reflexivity|]. split; [|exact Hall].
    cbn [JS.all_digits] in Hall. apply andb_true_iff in Hall. tauto.
Qed.

(** [parseFloat] of the decimal digits of a whole number is that number. *)
Lemma parseFloat_decimal (n : Z) :
  (0 <= n)%Z -> JS.parseFloat (JS.decimal n) = JS.of_integer n.
Proof.
  intro Hn.
  destruct (decimal_starts_with_digit n) as [c [r [E [Hc Hall]]]].
  pose proof (digits_value_decimal n Hn) as Hv.
  rewrite E in *. rewrite (parseFloat_from_digit c r Hc).
  rewrite (take_digits_all _ Hall).
  cbn [JS.falsy negb]. rewrite append_empty_r, Hv.
  cbn [JS.exponent_part String.length]. change (0 - Z.of_nat 0)%Z with 0%Z.
  unfold JS.of_decimal, JS.of_integer.
  destruct (n =? 0)%Z eqn:E0.
  - apply Z.eqb_eq in E0. rewrite E0. reflexivity.
  - change (0 <=? 0)%Z with true. cbv beta iota.
    change (10 ^ 0)%Z with 1%Z. now rewrite Z.mul_1_r.
Qed.

(** *** A whole number in fixed notation *)

Lemma zeros_snoc (k : nat) : JS.zeros k ++ "0" = JS.zeros (S k).
Proof.
  induction k as [|k IH]; [reflexivity|].
  cbn [JS.zeros append] in *. now rewrite IH.
Qed.

Lemma digit_char_multiple (m : Z) : JS.digit_char (m * 10) = "0"%char.
Proof.
  unfold JS.digit_char. rewrite Z.mod_mul by lia. reflexivity.
Qed.

Lemma low_digits_multiple (f : nat) (m : Z) :
  JS.low_digits f (m * 10 ^ Z.of_nat f) = JS.zeros f.
Proof.
  revert m. induction f as [|f IH]; intro m; [reflexivity|].
  cbn [JS.low_digits].
  replace (Z.of_nat (S f)) with (Z.succ (Z.of_nat f)) by lia.
  rewrite Z.pow_succ_r by lia.
  replace (m * (10 * 10 ^ Z.of_nat f))%Z with (m * 10 ^ Z.of_nat f * 10)%Z
    by lia.
  rewrite Z.div_mul by lia. rewrite IH, digit_char_multiple.
  apply zeros_snoc.
Qed.

Lemma fixed_digits_whole (k : Z) (f : nat) :
  JS.fixed_digits (k * 10 ^ Z.of_nat (S f)) (S f)
  = JS.decimal k ++ "." ++ JS.zeros (S f).
Proof.
  unfold JS.fixed_digits.
  rewrite low_digits_multiple.
  assert (Hp : (0 < 10 ^ Z.of_nat (S f))%Z) by (apply Z.pow_pos_nonneg; lia).
  rewrite Z.div_mul by lia. reflexivity.
Qed.

(** A whole number below [2^53] in fixed notation: its digits, a point, and
    as many zeros as decimals were asked for. *)
Lemma toFixed_of_integer (k : Z) (f : nat) :
  (0 <= k < 2 ^ 53)%Z ->
  JS.toFixed (JS.of_integer k) (S f) = JS.decimal k ++ "." ++ JS.zeros (S f).
Proof.
  intro Hk. destruct (Z.eq_dec k 0) as [->|Hne].
  - unfold JS.toFixed. change (Prim2SF (JS.of_integer 0)) with (S754_zero false).
    exact (fixed_digits_whole 0 f).
  - destruct (of_integer_exact k ltac:(lia)) as [p [Ep [Hp [Hl E]]]].
    unfold JS.toFixed. rewrite E.
    set (F := Z.of_nat (S f)).
    assert (HF : (0 < 10 ^ F)%Z) by (apply Z.pow_pos_nonneg; lia).
    assert (Hmag : exists den, (0 < den)%Z /\
              JS.magnitude p (Z.log2 k - 52) = (k * den, den)%Z).
    { unfold JS.magnitude.
      destruct (0 <=? Z.log2 k - 52)%Z eqn:E0.
      - apply Z.leb_le in E0. assert (El : Z.log2 k = 52%Z) by lia.
        rewrite El in *. exists 1%Z. split; [lia|].
        change (2 ^ (52 - 52))%Z with 1%Z in *. f_equal. lia.
      - exists (2 ^ (52 - Z.log2 k))%Z.
        split; [apply Z.pow_pos_nonneg; lia|].
        replace (- (Z.log2 k - 52))%Z with (52 - Z.log2 k)%Z by lia.
        now rewrite Ep. }
    destruct Hmag as [den [Hden ->]].
    assert (Hsmall : JS.at_least_1e21 (k * den, den)%Z = false).
    { unfold JS.at_least_1e21. apply Z.leb_gt.
      assert (2 ^ 53 < 10 ^ 21)%Z by reflexivity. nia. }
    rewrite Hsmall. cbn [append].
    assert (Hn : JS.nearest_scaled (k * den, den)%Z (S f) = (k * 10 ^ F)%Z).
    { unfold JS.nearest_scaled. fold F. symmetry.
      apply (Z.div_unique _ _ _ den); [lia | nia]. }
    rewrite Hn. exact (fixed_digits_whole k f).
Qed.

(** *** A whole number as it travels and as the column holds it *)

Lemma round_half_even_multiple (x den : Z) :
  (0 < den)%Z -> JS.round_half_even (x * den) den = x.
Proof.
  intro H. unfold JS.round_half_even.
  rewrite Z.mod_mul, Z.div_mul by lia.
  change (2 * 0)%Z with 0%Z.
  destruct (0 ?= den)%Z eqn:E; try reflexivity.
  - apply Z.compare_eq in E. lia.
  - apply Z.compare_gt_iff in E. lia.
Qed.

(** The number for a positive integer below [2^53], as a mantissa and an
    exponent. *)
Lemma of_integer_repr (k : Z) :
  (0 < k < 2 ^ 53)%Z ->
  exists p : positive,
    Z.pos p = (k * 2 ^ (52 - Z.log2 k))%Z /\
    (0 <= Z.log2 k <= 52)%Z /\
    Prim2SF (JS.of_integer k) = S754_finite false p (Z.log2 k - 52) /\
    JS.of_integer k = SF2Prim (S754_finite false p (Z.log2 k - 52)).
Proof.
  intro Hk. destruct (of_integer_exact k Hk) as [p [Ep [Hp [Hl E]]]].
  exists p. split; [exact Ep|]. split; [exact Hl|]. split; [exact E|].
  rewrite <- E. symmetry. apply SF2Prim_Prim2SF.
Qed.

(** Scaling by [10^8] and back: the number nearest to [k * 10^8 / 10^8] is
    the number for [k]. *)
Lemma nearest_number_scaled (k : Z) :
  (0 < k < 2 ^ 53)%Z ->
  JS.nearest_number (k * 10 ^ 8) (10 ^ 8) = JS.of_integer k.
Proof.
  intro Hk. destruct (of_integer_repr k Hk) as [p [Ep [Hl [_ ->]]]].
  pose proof (Z.log2_spec k ltac:(lia)) as Hlog.
  set (l := Z.log2 k) in *.
  set (D := (10 ^ 8)%Z).
  assert (HD : (2 ^ 26 <= D < 2 ^ 27)%Z)
    by (subst D; split; [apply Z.leb_le | apply Z.ltb_lt]; reflexivity).
  assert (HD0 : (0 < D)%Z) by (subst D; reflexivity).
  assert (HlD : Z.log2 D = 26%Z) by reflexivity.
  unfold JS.nearest_number. rewrite HlD.
  (* the binade *)
  assert (H26 : (2 ^ (l + 26) = 2 ^ l * 2 ^ 26)%Z)
    by (rewrite Z.pow_add_r; lia).
  assert (H28 : (2 ^ (l + 28) = 2 ^ Z.succ l * 2 ^ 27)%Z).
  { replace (l + 28)%Z with (Z.succ l + 27)%Z by lia.
    rewrite Z.pow_add_r; lia. }
  assert (Hpos : (0 < 2 ^ l)%Z) by (apply Z.pow_pos_nonneg; lia).
  assert (HN : (2 ^ (l + 26) <= k * D < 2 ^ (l + 28))%Z) by nia.
  assert (HlN : (l + 26 <= Z.log2 (k * D) <= l + 27)%Z).
  { split.
    - apply Z.log2_le_pow2; lia.
    - assert (Z.log2 (k * D) < l + 28)%Z; [|lia].
      apply Z.log2_lt_pow2; lia. }
  assert (He : (if JS.at_least_pow2 (k * D) D (Z.log2 (k * D) - 26)
                then (Z.log2 (k * D) - 26)%Z
                else (Z.log2 (k * D) - 26 - 1)%Z) = l).
  { unfold JS.at_least_pow2.
    destruct (Z.eq_dec (Z.log2 (k * D)) (l + 26)) as [E|E].
    - rewrite E. replace (l + 26 - 26)%Z with l by lia.
      destruct (0 <=? l)%Z eqn:E0; [|apply Z.leb_gt in E0; lia].
      assert (Hle : (D * 2 ^ l <=? k * D)%Z = true) by (apply Z.leb_le; nia).
      now rewrite Hle.
    - assert (E' : Z.log2 (k * D) = (l + 27)%Z) by lia.
      rewrite E'. replace (l + 27 - 26)%Z with (Z.succ l) by lia.
      destruct (0 <=? Z.succ l)%Z eqn:E0; [|apply Z.leb_gt in E0; lia].
      assert (Hle : (D * 2 ^ Z.succ l <=? k * D)%Z = false)
        by (apply Z.leb_gt; nia).
      rewrite Hle. lia. }
  rewrite He.
  replace (Z.max (l - 52) (-1074)) with (l - 52)%Z by lia.
  assert (Hmant : (if (0 <=? l - 52)%Z
                   then JS.round_half_even (k * D) (D * 2 ^ (l - 52))
                   else JS.round_half_even (k * D * 2 ^ (- (l - 52))) D)
                  = Z.pos p).
  { destruct (0 <=? l - 52)%Z eqn:E0.
    - apply Z.leb_le in E0. assert (El : l = 52%Z) by lia.
      rewrite El in *. change (2 ^ (52 - 52))%Z with 1%Z in *.
      rewrite Z.mul_1_r in *. rewrite round_half_even_multiple by exact HD0.
      lia.
    - replace (- (l - 52))%Z with (52 - l)%Z by lia.
      replace (k * D * 2 ^ (52 - l))%Z with (k * 2 ^ (52 - l) * D)%Z by lia.
      rewrite round_half_even_multiple by exact HD0. lia. }
  rewrite Hmant. reflexivity.
Qed.

Local Open Scope Z_scope.

(** *** The shortest digits of a whole number *)

Lemma whole_log2 (n : Z) :
  0 < n < 2 ^ 53 ->
  0 <= Z.log2 n <= 52 /\ 2 ^ Z.log2 n <= n < 2 ^ (Z.log2 n + 1).
Proof.
  intro Hn. set (l := Z.log2 n).
  pose proof (Z.log2_spec n ltac:(lia)) as Hl.
  pose proof (Z.log2_nonneg n) as Hl0. fold l in Hl, Hl0.
  split; [|unfold Z.succ in Hl; exact Hl].
  split; [exact Hl0|].
  destruct (Z_le_gt_dec l 52) as [E|E]; [exact E|]. exfalso.
  assert (2 ^ 53 <= 2 ^ l) by (apply Z.pow_le_mono_r; lia). lia.
Qed.

(** Four times the mantissa is [n] in units of [2^(l - 54)]. *)
Lemma whole_unit (n : Z) (p : positive) :
  0 < n < 2 ^ 53 -> Z.pos p = n * 2 ^ (52 - Z.log2 n) ->
  4 <= 2 ^ (54 - Z.log2 n) /\ 4 * Z.pos p = n * 2 ^ (54 - Z.log2 n).
Proof.
  intros Hn Hp.
  destruct (whole_log2 n Hn) as [Hl _].
  set (l := Z.log2 n) in *.
  assert (E : 2 ^ (54 - l) = 4 * 2 ^ (52 - l)).
  { replace (54 - l) with (2 + (52 - l)) by lia.
    rewrite Z.pow_add_r by lia. reflexivity. }
  assert (0 < 2 ^ (52 - l)) by (apply Z.pow_pos_nonneg; lia).
  split; [lia|]. rewrite Hp, E. lia.
Qed.

Lemma whole_cmp_scaled (n : Z) (s q u : Z) :
  0 < n < 2 ^ 53 ->
  JS.cmp_scaled s q u (Z.log2 n - 52 - 2)
  = (s * 10 ^ Z.max q 0 * 2 ^ (54 - Z.log2 n) ?= u * 10 ^ Z.max (- q) 0).
Proof.
  intro Hn.
  destruct (whole_log2 n Hn) as [Hl _]. unfold JS.cmp_scaled.
  set (l := Z.log2 n) in *.
  replace (Z.max (- (l - 52 - 2)) 0) with (54 - l) by lia.
  replace (Z.max (l - 52 - 2) 0) with 0 by lia.
  change (2 ^ 0) with 1. now rewrite Z.mul_1_r.
Qed.

Lemma whole_below_pow10 (n : Z) (p : positive) (nn : Z) :
  0 < n < 2 ^ 53 -> Z.pos p = n * 2 ^ (52 - Z.log2 n) ->
  JS.below_pow10 p (Z.log2 n - 52) nn = true <-> 0 <= nn /\ n < 10 ^ nn.
Proof.
  intros Hn Hp.
  destruct (whole_unit n p Hn Hp) as [HE H4]. unfold JS.below_pow10.
  set (l := Z.log2 n) in *.
  rewrite (whole_cmp_scaled n _ _ _ Hn : JS.cmp_scaled _ _ _ (l - 52 - 2) = _), H4. fold l.
  set (E := 2 ^ (54 - l)) in *. clearbody E.
  destruct (Z_le_gt_dec 0 nn) as [Hnn|Hnn].
  - replace (Z.max nn 0) with nn by lia.
    replace (Z.max (- nn) 0) with 0 by lia.
    change (10 ^ 0) with 1.
    rewrite Z.mul_1_l, Z.mul_1_r, <- Zmult_compare_compat_r by lia.
    destruct (10 ^ nn ?= n) eqn:C.
    + apply Z.compare_eq in C. split; [discriminate|]. intros [_ H].
      exfalso. lia.
    + change (10 ^ nn < n) in C. split; [discriminate|]. intros [_ H].
      exfalso. lia.
    + apply Z.compare_gt_iff in C. split; [|reflexivity]. lia.
  - replace (Z.max nn 0) with 0 by lia.
    replace (Z.max (- nn) 0) with (- nn) by lia.
    change (10 ^ 0) with 1.
    assert (Hpow : 0 < 10 ^ (- nn)) by (apply Z.pow_pos_nonneg; lia).
    replace (1 * 1 * E) with (1 * E) by lia.
    replace (n * E * 10 ^ (- nn)) with (n * 10 ^ (- nn) * E) by lia.
    rewrite <- Zmult_compare_compat_r by lia.
    assert (1 <= n * 10 ^ (- nn)) by nia.
    destruct (1 ?= n * 10 ^ (- nn)) eqn:C.
    + split; [discriminate|]. intros [H' _]. exfalso. lia.
    + split; [discriminate|]. intros [H' _]. exfalso. lia.
    + apply Z.compare_gt_iff in C. exfalso. lia.
Qed.

(** The estimate of the decimal exponent is at most three short, and not
    more than one over. *)
Lemma whole_estimate (n : Z) :
  0 < n < 2 ^ 53 ->
  let n0 := Z.log2 n * 30103 / 100000 - 1 in
  2 ^ (Z.log2 n + 1) <= 10 ^ (n0 + 3) /\ 0 <= n0 + 3 /\
  (1 <= n0 -> 10 ^ (n0 - 1) <= 2 ^ Z.log2 n).
Proof.
  intro Hn.
  destruct (whole_log2 n Hn) as [Hl _].
  set (l := Z.log2 n) in *.
  assert (Hall : forallb
            (fun i => let l := Z.of_nat i in
                      let n0 := l * 30103 / 100000 - 1 in
                      (2 ^ (l + 1) <=? 10 ^ (n0 + 3))
                      && (0 <=? n0 + 3)
                      && ((n0 <? 1) || (10 ^ (n0 - 1) <=? 2 ^ l)))
            (seq 0 53) = true) by (vm_compute; reflexivity).
  rewrite forallb_forall in Hall.
  specialize (Hall (Z.to_nat l)).
  rewrite Z2Nat.id in Hall by lia.
  assert (Hin : In (Z.to_nat l) (seq 0 53)) by (apply in_seq; lia).
  specialize (Hall Hin). cbv zeta in Hall |- *.
  apply andb_true_iff in Hall. destruct Hall as [Hall H3].
  apply andb_true_iff in Hall. destruct Hall as [H1 H2].
  apply Z.leb_le in H1. apply Z.leb_le in H2.
  split; [exact H1|]. split; [exact H2|].
  intro Hn0. apply orb_true_iff in H3. destruct H3 as [H3|H3].
  - apply Z.ltb_lt in H3. lia.
  - now apply Z.leb_le in H3.
Qed.

(** The decimal exponent of [n] is its number of digits. *)
Lemma whole_decimal_exponent (n : Z) (p : positive) :
  0 < n < 2 ^ 53 -> Z.pos p = n * 2 ^ (52 - Z.log2 n) ->
  let nd := JS.decimal_exponent p (Z.log2 n - 52) in
  1 <= nd <= 16 /\ 10 ^ (nd - 1) <= n < 10 ^ nd.
Proof.
  intros Hn Hp.
  destruct (whole_log2 n Hn) as [Hl Hln].
  pose proof (whole_estimate n Hn) as Hest. cbv zeta in Hest.
  set (l := Z.log2 n) in *.
  assert (Hd : exists nd, JS.decimal_exponent p (l - 52) = nd /\
                 JS.below_pow10 p (l - 52) nd = true /\
                 JS.below_pow10 p (l - 52) (nd - 1) = false).
  { unfold JS.decimal_exponent.
    assert (Hlp : Z.log2 (Z.pos p) + (l - 52) = l).
    { assert (Z.log2 (Z.pos p) = 52); [|lia].
      apply Z.log2_unique; [lia|].
      assert (E : 2 ^ (l + 1) * 2 ^ (52 - l) = 2 ^ Z.succ 52).
      { rewrite <- Z.pow_add_r by lia. f_equal. lia. }
      assert (E' : 2 ^ l * 2 ^ (52 - l) = 2 ^ 52).
      { rewrite <- Z.pow_add_r by lia. f_equal. lia. }
      assert (0 < 2 ^ (52 - l)) by (apply Z.pow_pos_nonneg; lia).
      rewrite Hp. nia. }
    rewrite Hlp. set (n0 := l * 30103 / 100000 - 1) in *.
    destruct Hest as [Hup [Hn3 Hlow]].
    destruct (JS.below_pow10 p (l - 52) n0) eqn:B0.
    { exists n0. split; [reflexivity|]. split; [exact B0|].
      destruct (JS.below_pow10 p (l - 52) (n0 - 1)) eqn:B; [|reflexivity].
      apply (whole_below_pow10 n p _ Hn Hp) in B. destruct B as [B1 B2].
      specialize (Hlow ltac:(lia)). lia. }
    destruct (JS.below_pow10 p (l - 52) (n0 + 1)) eqn:B1.
    { exists (n0 + 1). split; [reflexivity|]. split; [exact B1|].
      now replace (n0 + 1 - 1) with n0 by lia. }
    destruct (JS.below_pow10 p (l - 52) (n0 + 2)) eqn:B2.
    { exists (n0 + 2). split; [reflexivity|]. split; [exact B2|].
      now replace (n0 + 2 - 1) with (n0 + 1) by lia. }
    exists (n0 + 3). split; [reflexivity|]. split.
    - apply (whole_below_pow10 n p _ Hn Hp). lia.
    - now replace (n0 + 3 - 1) with (n0 + 2) by lia. }
  destruct Hd as [nd [-> [Hb Hb']]]. cbv zeta.
  apply (whole_below_pow10 n p _ Hn Hp) in Hb. destruct Hb as [Hnd Hlt].
  assert (Hnd1 : 1 <= nd).
  { destruct (Z.eq_dec nd 0) as [->|]; [|lia].
    change (10 ^ 0) with 1 in Hlt. lia. }
  assert (Hge : 10 ^ (nd - 1) <= n).
  { destruct (Z_le_gt_dec (10 ^ (nd - 1)) n) as [E|E]; [exact E|].
    assert (JS.below_pow10 p (l - 52) (nd - 1) = true)
      by (apply (whole_below_pow10 n p _ Hn Hp); lia).
    congruence. }
  split; [|split; assumption].
  split; [exact Hnd1|].
  destruct (Z_le_gt_dec nd 16) as [E|E]; [exact E|]. exfalso.
  assert (10 ^ 16 <= 10 ^ (nd - 1)) by (apply Z.pow_le_mono_r; lia).
  assert (2 ^ 53 < 10 ^ 16) by reflexivity. lia.
Qed.

(** A whole multiple of a power of ten that converts back to [n] is [n]. *)
Lemma whole_rounds_to (n : Z) (p : positive) (s q : Z) :
  0 < n < 2 ^ 53 -> Z.pos p = n * 2 ^ (52 - Z.log2 n) ->
  0 <= q -> JS.rounds_to p (Z.log2 n - 52) s q = true -> s * 10 ^ q = n.
Proof.
  intros Hn Hp Hq. destruct (whole_unit n p Hn Hp) as [HE H4].
  unfold JS.rounds_to. set (l := Z.log2 n) in *.
  rewrite !(whole_cmp_scaled n _ _ _ Hn : JS.cmp_scaled _ _ _ (l - 52 - 2) = _). fold l.
  replace (Z.max q 0) with q by lia. replace (Z.max (- q) 0) with 0 by lia.
  change (10 ^ 0) with 1. rewrite !Z.mul_1_r.
  set (E := 2 ^ (54 - l)) in *. clearbody E.
  set (V := s * 10 ^ q). clearbody V.
  assert (Hlow : 4 * Z.pos p - 2 <= JS.lower_bound p (l - 52)).
  { unfold JS.lower_bound. destruct (_ && _); lia. }
  unfold JS.upper_bound.
  assert (Hnear : JS.lower_bound p (l - 52) <= V * E <= 4 * Z.pos p + 2 ->
                  V = n).
  { intros [H1 H2].
    destruct (Z_lt_le_dec V n) as [Hlt|Hge].
    - assert ((V + 1) * E <= n * E)
        by (apply Z.mul_le_mono_nonneg_r; lia). lia.
    - destruct (Z.eq_dec V n) as [Ev|Ev]; [exact Ev|].
      assert ((n + 1) * E <= V * E)
        by (apply Z.mul_le_mono_nonneg_r; lia). lia. }
  destruct (Z.compare_spec (V * E) (JS.lower_bound p (l - 52))) as [C1|C1|C1];
    destruct (Z.compare_spec (V * E) (4 * Z.pos p + 2)) as [C2|C2|C2];
    try discriminate; intros _; apply Hnear; lia.
Qed.

Lemma whole_rounds_to_itself (n : Z) (p : positive) :
  0 < n < 2 ^ 53 -> Z.pos p = n * 2 ^ (52 - Z.log2 n) ->
  JS.rounds_to p (Z.log2 n - 52) n 0 = true.
Proof.
  intros Hn Hp.
  destruct (whole_unit n p Hn Hp) as [HE H4]. unfold JS.rounds_to.
  set (l := Z.log2 n) in *.
  rewrite !(whole_cmp_scaled n _ _ _ Hn : JS.cmp_scaled _ _ _ (l - 52 - 2) = _). fold l. change (Z.max 0 0) with 0.
  change (Z.max (- 0) 0) with 0. change (10 ^ 0) with 1.
  rewrite !Z.mul_1_r.
  assert (Hlow : JS.lower_bound p (l - 52) < 4 * Z.pos p).
  { unfold JS.lower_bound. destruct (_ && _); lia. }
  unfold JS.upper_bound.
  assert (C1 : (n * 2 ^ (54 - l) ?= JS.lower_bound p (l - 52)) = Gt)
    by (apply Z.compare_gt_iff; lia).
  assert (C2 : (n * 2 ^ (54 - l) ?= 4 * Z.pos p + 2) = Lt)
    by (apply Z.compare_lt_iff; lia).
  now rewrite C1, C2.
Qed.


Lemma shortest_step (fuel : nat) (m : positive) (e n k : Z) :
  JS.shortest fuel m e n k
  = let q := n - k in
    let (num, den) := JS.magnitude m e in
    let lo := (num * 10 ^ Z.max (- q) 0) / (den * 10 ^ Z.max q 0) in
    let hi := lo + 1 in
    let ok_lo := (10 ^ (k - 1) <=? lo) && JS.rounds_to m e lo q in
    let ok_hi := JS.rounds_to m e hi q in
    let pick :=
      if ok_lo && ok_hi then
        Some (if JS.distance m e hi q <? JS.distance m e lo q then hi
              else if JS.distance m e lo q <? JS.distance m e hi q then lo
              else if Z.even lo then lo else hi)
      else if ok_lo then Some lo
      else if ok_hi then Some hi
      else None in
    match pick, fuel with
    | Some s, _ => (s, k)
    | None, O => (lo, k)
    | None, S fuel' => JS.shortest fuel' m e n (k + 1)
    end.
Proof.
  destruct fuel; reflexivity.
Qed.

Lemma whole_magnitude (n : Z) (p : positive) :
  0 < n < 2 ^ 53 -> Z.pos p = n * 2 ^ (52 - Z.log2 n) ->
  exists den, 0 < den /\ JS.magnitude p (Z.log2 n - 52) = (n * den, den).
Proof.
  intros Hn Hp. destruct (whole_log2 n Hn) as [Hl _].
  unfold JS.magnitude.
  destruct (0 <=? Z.log2 n - 52) eqn:E0.
  - apply Z.leb_le in E0. assert (El : Z.log2 n = 52) by lia.
    rewrite El in *. exists 1. split; [lia|].
    change (2 ^ (52 - 52)) with 1 in *. f_equal. lia.
  - exists (2 ^ (52 - Z.log2 n)).
    split; [apply Z.pow_pos_nonneg; lia|].
    replace (- (Z.log2 n - 52)) with (52 - Z.log2 n) by lia.
    now rewrite Hp.
Qed.

(** The search for the shortest digits of a whole number ends, at the
    latest with all its digits, on digits that stand for the number. *)
Lemma whole_shortest (n : Z) (p : positive) :
  0 < n < 2 ^ 53 -> Z.pos p = n * 2 ^ (52 - Z.log2 n) ->
  let nd := JS.decimal_exponent p (Z.log2 n - 52) in
  forall (fuel : nat) (k : Z),
    1 <= k <= nd -> nd - k <= Z.of_nat fuel ->
    exists s k',
      JS.shortest fuel p (Z.log2 n - 52) nd k = (s, k') /\
      k <= k' <= nd /\ s * 10 ^ (nd - k') = n.
Proof.
  intros Hn Hp nd.
  destruct (whole_decimal_exponent n p Hn Hp) as [Hnd Hdig]. fold nd in Hnd, Hdig.
  destruct (whole_magnitude n p Hn Hp) as [den [Hden Hmag]].
  induction fuel as [|fuel IH]; intros k Hk Hfuel;
    rewrite shortest_step; cbv zeta; rewrite Hmag;
    set (q := nd - k);
    replace (Z.max (- q) 0) with 0 by lia;
    replace (Z.max q 0) with q by lia;
    change (10 ^ 0) with 1; rewrite Z.mul_1_r;
    replace (n * den) with (den * n) by lia;
    (assert (Hq : 0 < 10 ^ q) by (apply Z.pow_pos_nonneg; lia));
    rewrite Z.div_mul_cancel_l by lia;
    set (lo := n / 10 ^ q);
    destruct ((10 ^ (k - 1) <=? lo) && JS.rounds_to p (Z.log2 n - 52) lo q)
      eqn:Hlo;
    destruct (JS.rounds_to p (Z.log2 n - 52) (lo + 1) q) eqn:Hhi;
    cbn [andb];
    try (apply andb_true_iff in Hlo; destruct Hlo as [_ Hlo];
         apply (whole_rounds_to n p _ _ Hn Hp) in Hlo; [|lia]);
    try (apply (whole_rounds_to n p _ _ Hn Hp) in Hhi; [|lia]).
  1-3, 5-7:
    (eexists _, k; split; [reflexivity|]; split; [lia|]; fold q;
     repeat match goal with
            | |- context [if ?b then _ else _] => destruct b
            end; assumption).
  - exfalso. assert (Ek : k = nd) by lia.
    assert (E0 : q = 0) by lia.
    assert (Elo : lo = n) by (subst lo; rewrite E0; apply Z.div_1_r).
    rewrite Elo, E0, Ek in Hlo.
    rewrite (whole_rounds_to_itself n p Hn Hp), andb_true_r in Hlo.
    apply Z.leb_gt in Hlo. lia.
  - destruct (Z.eq_dec k nd) as [Ek|Ek].
    + exfalso.
      assert (E0 : q = 0) by lia.
      assert (Elo : lo = n) by (subst lo; rewrite E0; apply Z.div_1_r).
      rewrite Elo, E0, Ek in Hlo.
      rewrite (whole_rounds_to_itself n p Hn Hp), andb_true_r in Hlo.
      apply Z.leb_gt in Hlo. lia.
    + destruct (IH (k + 1) ltac:(lia) ltac:(lia)) as [s [k' [E [Hk' Hs]]]].
      exists s, k'. split; [exact E|]. split; [lia | exact Hs].
Qed.

Lemma whole_strip_zeros (nd : Z) :
  forall (fuel : nat) (s k : Z),
    1 <= k <= nd ->
    exists s' k',
      JS.strip_zeros fuel s k nd = (s', k', nd) /\
      1 <= k' <= nd /\ s' * 10 ^ (nd - k') = s * 10 ^ (nd - k).
Proof.
  induction fuel as [|fuel IH]; intros s k Hk; cbn [JS.strip_zeros].
  - exists s, k. split; [reflexivity|]. split; [lia | reflexivity].
  - destruct ((s mod 10 =? 0) && (1 <? k)) eqn:E.
    + apply andb_true_iff in E. destruct E as [E0 E1].
      apply Z.eqb_eq in E0. apply Z.ltb_lt in E1.
      destruct (IH (s / 10) (k - 1) ltac:(lia)) as [s' [k' [E [Hk' Hs]]]].
      exists s', k'. split; [exact E|]. split; [lia|].
      rewrite Hs. replace (nd - (k - 1)) with (Z.succ (nd - k)) by lia.
      rewrite Z.pow_succ_r by lia.
      pose proof (Z.div_mod s 10 ltac:(lia)) as Hdm.
      rewrite E0, Z.add_0_r in Hdm. rewrite Hdm at 2. lia.
    + exists s, k. split; [reflexivity|]. split; [lia | reflexivity].
Qed.

(** A whole number travels as its own digits. *)
Lemma stringify_whole (n : Z) :
  0 < n < 2 ^ 53 ->
  exists s e10,
    JS.stringify (JS.of_integer n) = JS.json_decimal false s e10 /\
    0 <= e10 /\ s * 10 ^ e10 = n.
Proof.
  intro Hn.
  destruct (of_integer_repr n Hn) as [p [Hp [Hl [E _]]]].
  destruct (whole_decimal_exponent n p Hn Hp) as [Hnd Hdig].
  unfold JS.stringify. rewrite E. unfold JS.shortest_digits.
  set (nd := JS.decimal_exponent p (Z.log2 n - 52)) in *.
  destruct (whole_shortest n p Hn Hp 17%nat 1 ltac:(fold nd; lia)
              ltac:(fold nd; lia)) as [s [k [Es [Hk Hs]]]].
  fold nd in Es, Hk, Hs. rewrite Es.
  destruct (s =? 10 ^ k) eqn:E10.
  - exfalso. apply Z.eqb_eq in E10. rewrite E10 in Hs.
    rewrite <- Z.pow_add_r in Hs by lia.
    replace (k + (nd - k)) with nd in Hs by lia. lia.
  - destruct (whole_strip_zeros nd 17%nat s k ltac:(lia))
      as [s' [k' [E' [Hk' Hs']]]].
    rewrite E'. exists s', (nd - k'). split; [reflexivity|].
    split; [lia|]. now rewrite Hs'.
Qed.

(** What the column makes of a whole number below [2^53]: the number
    itself below [10^12], and a refusal from there on. *)
Lemma decimal_20_8_whole (n : Z) :
  0 <= n < 2 ^ 53 ->
  Backend.decimal_20_8 (JS.of_integer n)
  = if 10 ^ 12 <=? n then inr numeric_value_out_of_range
    else inl (Some (JS.of_integer n)).
Proof.
  intro Hn. destruct (Z.eq_dec n 0) as [->|Hne]; [reflexivity|].
  assert (Hn' : 0 < n < 2 ^ 53) by lia.
  destruct (stringify_whole n Hn') as [s [e10 [E [He Hs]]]].
  unfold Backend.decimal_20_8. rewrite E. cbv zeta.
  assert (Hu : Backend.units s e10 = n * 10 ^ 8).
  { unfold Backend.units. cbv zeta.
    destruct (0 <=? e10 + 8) eqn:E8; [|apply Z.leb_gt in E8; lia].
    rewrite Z.pow_add_r by lia. rewrite <- Hs. lia. }
  rewrite Hu.
  assert (Hcmp : (10 ^ 20 <=? n * 10 ^ 8) = (10 ^ 12 <=? n)).
  { change (10 ^ 20) with (10 ^ 12 * 10 ^ 8).
    destruct (10 ^ 12 <=? n) eqn:C.
    - apply Z.leb_le in C. apply Z.leb_le.
      apply Z.mul_le_mono_nonneg_r; [|exact C].
      apply Z.lt_le_incl. reflexivity.
    - apply Z.leb_gt in C. apply Z.leb_gt.
      apply Z.mul_lt_mono_pos_r; [reflexivity | exact C]. }
  rewrite Hcmp. destruct (10 ^ 12 <=? n); [reflexivity|].
  f_equal. f_equal. unfold Backend.read_units. cbn [andb].
  unfold JS.of_decimal.
  assert (Hz : (n * 10 ^ 8 =? 0) = false).
  { apply Z.eqb_neq. assert (0 < 10 ^ 8) by reflexivity. nia. }
  rewrite Hz. change (0 <=? -8) with false. cbv iota.
  change (- -8) with 8. now apply nearest_number_scaled.
Qed.

Local Close Scope Z_scope.

(** X19.  A whole amount is stored exactly and shown as typed.  For a
    whole number [n] from 0 up to, and not including, [2^53], typed in
    decimal digits: [parseFloat] reads exactly [n] (a mantissa [p] and an
    exponent [e] with [p * 2^e = n]); [toFixed(8)], which the lists of
    transactions show amounts with, gives the digits typed followed by a
    point and eight zeros, and [toFixed(2)] by a point and two zeros.  So a
    deposit of [n] that goes through is recorded with the amount [n] and
    listed as [n.00000000]. *)
Theorem whole_amount_stored_exactly :
  forall n : Z,
    (0 <= n < 2 ^ 53)%Z ->
    JS.parseFloat (JS.decimal n) = JS.of_integer n /\
    (0 < n ->
     exists (p : positive) (e : Z),
       Prim2SF (JS.parseFloat (JS.decimal n)) = S754_finite false p e /\
       (e <= 0 /\ Z.pos p = n * 2 ^ (- e)))%Z /\
    JS.toFixed (JS.parseFloat (JS.decimal n)) 8
    = JS.decimal n ++ ".00000000" /\
    JS.toFixed (JS.parseFloat (JS.decimal n)) 2 = JS.decimal n ++ ".00" /\
    forall (user : option uuid) (new_id : uuid) (coinSymbol : string)
           (st : Assets.State) (d : Database),
      Assets.depositAmount st = JS.decimal n ->
      let o := Assets.handleDeposit user new_id coinSymbol st d in
      succeeded o = true ->
      exists t,
        transactions (db o) = (transactions d ++ [t])%list /\
        Transaction.amount t = JS.of_integer n /\
        JS.toFixed (Transaction.amount t) 8 = JS.decimal n ++ ".00000000".
Proof.
  intros n Hn.
  pose proof (parseFloat_decimal n (proj1 Hn)) as Hp.
  split; [exact Hp|]. rewrite Hp. split; [|split; [|split]].
  - intro Hpos. destruct (of_integer_exact n ltac:(lia)) as [p [Ep [_ [Hl E]]]].
    exists p, (Z.log2 n - 52)%Z. split; [exact E|]. split; [lia|].
    rewrite Ep. f_equal. f_equal. lia.
  - exact (toFixed_of_integer n 7 Hn).
  - exact (toFixed_of_integer n 1 Hn).
  - intros user new_id coinSymbol st d Ha o Hs.
    assert (H : request_outcome (negb (JS.falsy (Assets.depositAmount st)))
                  tx_deposit (Assets.depositAmount st)
                  (Assets.property Assets.walletAddresses coinSymbol)
                  user new_id coinSymbol d o).
    { subst o. unfold Assets.handleDeposit.
      destruct (JS.falsy (Assets.depositAmount st)) eqn:Hf; simpl negb.
      - apply request_outcome_not_filled.
      - now apply request_outcome_of_attempt. }
    destruct H as [_ [_ [_ [_ [Hrow _]]]]].
    destruct (Hrow Hs) as [uid [c [a [_ [_ [Hheld Ht]]]]]].
    eexists. split; [exact Ht|]. cbn [Transaction.amount].
    unfold held_as in Hheld. rewrite Ha, Hp, (decimal_20_8_whole n Hn) in Hheld.
    destruct (10 ^ 12 <=? n)%Z; [discriminate|].
    assert (Ea : a = JS.of_integer n) by congruence. rewrite Ea.
    split; [reflexivity|].
    exact (toFixed_of_integer n 7 Hn).
Qed.

(** The theorem above at 250. *)
Lemma whole_amount_stored_exactly_witness :
  (0 <= 250 < 2 ^ 53)%Z /\
  JS.decimal 250 = "250" /\
  JS.parseFloat "250" = 250%float /\
  JS.toFixed (JS.parseFloat "250") 8 = "250.00000000".
Proof.
  assert (H : (0 <= 250 < 2 ^ 53)%Z) by (split; [lia | reflexivity]).
  split; [exact H|]. split; [reflexivity|]. split; [reflexivity|].
  destruct (whole_amount_stored_exactly 250 H) as [_ [_ [H8 _]]].
  exact H8.
Defined.


(** X23.  Which whole amounts the column takes.  For a whole number [n]
    from 0 up to, and not including, [2^53], typed in decimal digits, the
    column [DECIMAL(20, 8)] takes the amount exactly when [n] is below
    [10^12], and then holds [n] itself; from [10^12] on it refuses it.  So a
    deposit of [n] goes through exactly when the coin exists, the user is
    signed in, the new id is free and [n] is below [10^12]; for an [n] from
    [10^12] on, with the coin found, the toast is the overflow of the
    column, whoever is signed in. *)
Theorem whole_amount_taken_below_1e12 :
  forall n : Z,
    (0 <= n < 2 ^ 53)%Z ->
    let amount := JS.parseFloat (JS.decimal n) in
    (accepted amount <-> (n < 10 ^ 12)%Z) /\
    (refused amount <-> (10 ^ 12 <= n)%Z) /\
    (forall a, held_as amount a -> a = JS.of_integer n) /\
    forall (user : option uuid) (new_id : uuid) (coinSymbol : string)
           (st : Assets.State) (d : Database),
      Assets.depositAmount st = JS.decimal n ->
      let o := Assets.handleDeposit user new_id coinSymbol st d in
      (succeeded o = true <->
         Backend.coin_by_symbol d coinSymbol <> None /\
         (n < 10 ^ 12)%Z /\
         user <> None /\
         Backend.transaction_id_taken d new_id = false) /\
      (Backend.coin_by_symbol d coinSymbol <> None -> (10 ^ 12 <= n)%Z ->
         toast o = toast_caught (Postgrest numeric_value_out_of_range)
                                "Failed to submit deposit request").
Proof.
  intros n Hn amount.
  assert (Hamount : amount = JS.of_integer n)
    by (apply parseFloat_decimal; lia).
  pose proof (decimal_20_8_whole n Hn) as Hcol. rewrite <- Hamount in Hcol.
  assert (Hacc : accepted amount <-> (n < 10 ^ 12)%Z).
  { unfold accepted, held_as. rewrite Hcol.
    destruct (10 ^ 12 <=? n)%Z eqn:E.
    - apply Z.leb_le in E. split; [intros [a H]; discriminate | lia].
    - apply Z.leb_gt in E. split; [intros _; exact E|].
      intros _. now exists amount. }
  assert (Href : refused amount <-> (10 ^ 12 <= n)%Z).
  { unfold refused. rewrite Hcol.
    destruct (10 ^ 12 <=? n)%Z eqn:E.
    - apply Z.leb_le in E. split; [intros _; exact E | reflexivity].
    - apply Z.leb_gt in E. split; [discriminate | lia]. }
  split; [exact Hacc|]. split; [exact Href|]. split.
  { intros a Ha. unfold held_as in Ha. rewrite Hcol in Ha.
    destruct (10 ^ 12 <=? n)%Z; [discriminate|]. congruence. }
  intros user new_id coinSymbol st d Ha o.
  assert (Hne : JS.falsy (Assets.depositAmount st) = false).
  { rewrite Ha. apply falsy_false_iff.
    destruct (decimal_starts_with_digit n) as [c [r [E _]]].
    rewrite E. discriminate. }
  assert (H : request_outcome true tx_deposit (Assets.depositAmount st)
                (Assets.property Assets.walletAddresses coinSymbol)
                user new_id coinSymbol d o).
  { subst o. unfold Assets.handleDeposit. rewrite Hne.
    now apply request_outcome_of_attempt. }
  destruct H as [_ [_ [_ [Hiff _]]]]. rewrite Ha in Hiff.
  fold amount in Hiff. split.
  - rewrite Hiff, Hacc. tauto.
  - intros Hc Hbig. apply Href in Hbig. subst o.
    unfold Assets.handleDeposit. rewrite Hne.
    destruct (Backend.coin_by_symbol d coinSymbol) as [c|];
      [|now elim Hc].
    cbn [bind require]. unfold Backend.insert_transaction.
    cbn [Transaction.ins_amount]. rewrite Ha. fold amount.
    unfold refused in Hbig. rewrite Hbig. reflexivity.
Qed.

(** The theorem above at the two sides of the bound: Alice's deposit of
    999999999999 BTC goes through, and her deposit of 1000000000000 is
    refused. *)
Lemma whole_amount_taken_below_1e12_witness :
  let deposit := fun amount =>
    Assets.handleDeposit (Some Fixture.alice) "tx-1" "BTC"
                         (Fixture.deposit_form amount) Fixture.db0 in
  ((0 <= 999999999999 < 2 ^ 53)%Z /\ (0 <= 1000000000000 < 2 ^ 53)%Z) /\
  succeeded (deposit "999999999999") = true /\
  toast (deposit "1000000000000")
  = toast_caught (Postgrest numeric_value_out_of_range)
                 "Failed to submit deposit request".
Proof.
  intro deposit.
  assert (H1 : (0 <= 999999999999 < 2 ^ 53)%Z)
    by (split; [lia | reflexivity]).
  assert (H2 : (0 <= 1000000000000 < 2 ^ 53)%Z)
    by (split; [lia | reflexivity]).
  split; [split; assumption|]. split.
  - destruct (whole_amount_taken_below_1e12 999999999999 H1)
      as [_ [_ [_ Hrun]]].
    destruct (Hrun (Some Fixture.alice) "tx-1" "BTC"
                (Fixture.deposit_form "999999999999") Fixture.db0 eq_refl)
      as [Hiff _].
    apply Hiff. split; [discriminate|]. split; [reflexivity|].
    split; [discriminate | reflexivity].
  - destruct (whole_amount_taken_below_1e12 1000000000000 H2)
      as [_ [_ [_ Hrun]]].
    destruct (Hrun (Some Fixture.alice) "tx-1" "BTC"
                (Fixture.deposit_form "1000000000000") Fixture.db0 eq_refl)
      as [_ Hover].
    apply Hover; [discriminate|]. apply Z.leb_le. reflexivity.
Defined.
(** ** The charts: the last days, in whole dollars *)

Lemma whole_of_integer (k : Z) :
  (0 <= k < 2 ^ 53)%Z -> whole (JS.of_integer k) = true.
Proof.
  intro Hk. destruct (Z.eq_dec k 0) as [->|Hne]; [reflexivity|].
  destruct (of_integer_exact k ltac:(lia)) as [p [Ep [_ [Hl E]]]].
  unfold whole. rewrite E. apply orb_true_iff. right. apply Z.eqb_eq.
  rewrite Ep. replace (- (Z.log2 k - 52))%Z with (52 - Z.log2 k)%Z by lia.
  apply Z.mod_mul.
  assert (0 < 2 ^ (52 - Z.log2 k))%Z by (apply Z.pow_pos_nonneg; lia). lia.
Qed.

Lemma whole_opp (x : JS.number) : whole (PrimFloat.opp x) = whole x.
Proof.
  unfold whole. rewrite opp_spec.
  destruct (Prim2SF x); reflexivity.
Qed.

(** What [Math.round] gives for a finite number with a fraction part
    [m / 2^(-e)]: the integer [k] within one half of it, the larger one on a
    tie. *)
Lemma round_nearest (x : JS.number) (s : bool) (m : positive) (e : Z) :
  Prim2SF x = S754_finite s m e -> (e < 0)%Z ->
  exists k : Z,
    (0 <= k < 2 ^ 53)%Z /\
    JS.round x
    = (if s then PrimFloat.opp (JS.of_integer k) else JS.of_integer k) /\
    (if s
     then 2 * k * 2 ^ (- e) - 2 ^ (- e) < 2 * Z.pos m <= 2 * k * 2 ^ (- e) + 2 ^ (- e)
     else 2 * k * 2 ^ (- e) - 2 ^ (- e) <= 2 * Z.pos m < 2 * k * 2 ^ (- e) + 2 ^ (- e))%Z.
Proof.
  intros E He.
  pose proof (Prim2SF_valid x) as Hv. rewrite E in Hv.
  cbn [SpecFloat.valid_binary] in Hv. apply valid_mantissa_bound in Hv.
  unfold JS.round. rewrite E.
  assert (E0 : (0 <=? e)%Z = false) by (apply Z.leb_gt; exact He).
  rewrite E0.
  set (den := (2 ^ (- e))%Z).
  assert (Hden : (2 <= den)%Z).
  { subst den. change 2%Z with (2 ^ 1)%Z at 1. apply Z.pow_le_mono_r; lia. }
  destruct s.
  - set (j := ((den - 2 * Z.pos m) / (2 * den))%Z).
    pose proof (Z.div_mod (den - 2 * Z.pos m) (2 * den) ltac:(lia)) as Hdm.
    pose proof (Z.mod_pos_bound (den - 2 * Z.pos m) (2 * den) ltac:(lia)) as Hr.
    fold j in Hdm.
    exists (- j)%Z. split; [|split; [reflexivity|]]; nia.
  - set (k := ((2 * Z.pos m + den) / (2 * den))%Z).
    pose proof (Z.div_mod (2 * Z.pos m + den) (2 * den) ltac:(lia)) as Hdm.
    pose proof (Z.mod_pos_bound (2 * Z.pos m + den) (2 * den) ltac:(lia)) as Hr.
    fold k in Hdm.
    exists k. split; [|split; [reflexivity|]]; nia.
Qed.

(** [Math.round] of a finite number is an integer. *)
Lemma round_whole (x : JS.number) : finite x = true -> whole (JS.round x) = true.
Proof.
  unfold finite. intro Hf.
  destruct (Prim2SF x) as [s|s| |s m e] eqn:E; try discriminate.
  - unfold JS.round, whole. now rewrite E, E.
  - destruct (Z_lt_le_dec e 0) as [He|He].
    + destruct (round_nearest x s m e E He) as [k [Hk [-> _]]].
      destruct s; [rewrite whole_opp|]; now apply whole_of_integer.
    + unfold JS.round. rewrite E.
      assert (E0 : (0 <=? e)%Z = true) by (apply Z.leb_le; exact He).
      rewrite E0. unfold whole. now rewrite E, E0.
Qed.

Lemma length_slice_last {A : Type} (n : nat) (l : list A) :
  (0 < n)%nat -> List.length (JS.slice_last n l) = Nat.min n (List.length l).
Proof.
  intro Hn. unfold JS.slice_last.
  destruct n as [|n]; [lia|]. rewrite length_skipn. lia.
Qed.

Lemma slice_last_suffix {A : Type} (n : nat) (l : list A) :
  exists earlier, l = (earlier ++ JS.slice_last n l)%list.
Proof.
  unfold JS.slice_last. destruct n as [|n].
  - now exists [].
  - exists (firstn (List.length l - S n) l). symmetry. apply firstn_skipn.
Qed.

Lemma points_from (fmt : JS.number -> string) (days : nat)
    (prices : list (JS.number * JS.number)) :
  exists earlier recent,
    prices = (earlier ++ recent)%list /\
    (0 < days -> List.length recent = Nat.min days (List.length prices))%nat /\
    CryptoChart.points fmt days prices
    = map (fun tp => {| CryptoChart.date := fmt (fst tp);
                        CryptoChart.price := JS.round (snd tp) |}) recent.
Proof.
  destruct (slice_last_suffix days prices) as [earlier E].
  exists earlier, (JS.slice_last days prices).
  split; [exact E|]. split; [apply length_slice_last | reflexivity].
Qed.

(** X20.  The charts show the last days in whole dollars.  From the series
    fetched, [fetchBitcoinPrices] keeps the last 30 entries (the card of the
    dashboard: the last 180), all of them when there are fewer, in their
    order; each point carries the date of its entry, as the component
    formats it, and its price rounded with [Math.round].  The price of a
    point is a whole number whenever the price fetched is finite, and it is
    within one half of the price fetched: for a price [m / 2^(-e)] up to
    sign, the point shows the integer [k] with
    [2 * |k * 2^(-e) - m| <= 2^(-e)]. *)
Theorem fetchBitcoinPrices_last_days_in_whole_dollars :
  forall (fmt fmt' : JS.number -> string)
         (prices : list (JS.number * JS.number)),
    let point := fun (f : JS.number -> string) (tp : JS.number * JS.number) =>
                   {| CryptoChart.date := f (fst tp);
                      CryptoChart.price := JS.round (snd tp) |} in
    (exists earlier recent,
       prices = (earlier ++ recent)%list /\
       List.length recent = Nat.min 30 (List.length prices) /\
       CryptoChart.fetchBitcoinPrices fmt prices = map (point fmt) recent) /\
    (exists earlier recent,
       prices = (earlier ++ recent)%list /\
       List.length recent = Nat.min 180 (List.length prices) /\
       PortfolioCard.fetchBitcoinPrices fmt' prices
       = map (point fmt') recent) /\
    (forall pt,
       In pt (CryptoChart.fetchBitcoinPrices fmt prices) \/
       In pt (PortfolioCard.fetchBitcoinPrices fmt' prices) ->
       exists tp, In tp prices /\
                  CryptoChart.price pt = JS.round (snd tp) /\
                  (finite (snd tp) = true ->
                   whole (CryptoChart.price pt) = true)) /\
    (forall (x : JS.number) (s : bool) (m : positive) (e : Z),
       Prim2SF x = S754_finite s m e -> (e < 0)%Z ->
       exists k : Z,
         (0 <= k < 2 ^ 53)%Z /\
         JS.round x
         = (if s then PrimFloat.opp (JS.of_integer k) else JS.of_integer k) /\
         (2 * Z.abs (k * 2 ^ (- e) - Z.pos m) <= 2 ^ (- e))%Z).
Proof.
  intros fmt fmt' prices point.
  assert (Hin : forall f days pt,
            In pt (CryptoChart.points f days prices) ->
            exists tp, In tp prices /\
                       CryptoChart.price pt = JS.round (snd tp) /\
                       (finite (snd tp) = true ->
                        whole (CryptoChart.price pt) = true)).
  { intros f days pt Hpt.
    destruct (points_from f days prices) as [earlier [recent [E [_ Hp]]]].
    rewrite Hp in Hpt. apply in_map_iff in Hpt.
    destruct Hpt as [tp [<- Htp]]. exists tp.
    split; [rewrite E; apply in_or_app; now right|].
    split; [reflexivity|]. intro Hf. now apply round_whole. }
  split; [|split; [|split]].
  - destruct (points_from fmt 30 prices) as [earlier [recent [E [Hl Hp]]]].
    exists earlier, recent. split; [exact E|]. split; [apply Hl; lia|].
    exact Hp.
  - destruct (points_from fmt' 180 prices) as [earlier [recent [E [Hl Hp]]]].
    exists earlier, recent. split; [exact E|]. split; [apply Hl; lia|].
    exact Hp.
  - intros pt [Hpt|Hpt];
      [exact (Hin fmt 30%nat pt Hpt) | exact (Hin fmt' 180%nat pt Hpt)].
  - intros x s m e E He.
    destruct (round_nearest x s m e E He) as [k [Hk [Hr Hclose]]].
    exists k. split; [exact Hk|]. split; [exact Hr|].
    destruct s; lia.
Qed.

(** The theorem above on a series of one entry, 67234.56 dollars. *)
Lemma fetchBitcoinPrices_last_days_in_whole_dollars_witness :
  let fmt := fun _ : JS.number => "Jan 1" in
  let prices := [(1704067200000%float, 67234.56%float)] in
  map CryptoChart.price (CryptoChart.fetchBitcoinPrices fmt prices)
  = [67235%float] /\
  forall pt, In pt (CryptoChart.fetchBitcoinPrices fmt prices) ->
             whole (CryptoChart.price pt) = true.
Proof.
  intros fmt prices. split; [reflexivity|].
  intros pt Hpt.
  destruct (fetchBitcoinPrices_last_days_in_whole_dollars fmt fmt prices)
    as [_ [_ [Hin _]]].
  destruct (Hin pt (or_introl Hpt)) as [tp [Htp [_ Hw]]].
  apply Hw. destruct Htp as [<-|[]]. reflexivity.
Defined.

(** ** Which failure a request reports *)

Lemma with_check_same (uid : uuid) :
  Backend.with_check (Some uid) (Some uid) = true.
Proof.
  apply with_check_iff. now exists uid.
Qed.

(** A number is taken by the column, or refused, or it is not finite. *)
Lemma accepted_refused_or_not_finite (x : JS.number) :
  accepted x \/ refused x \/ finite x = false.
Proof.
  destruct (decimal_20_8_cases x) as [H | [[_ H] | [H _]]]; auto.
Qed.

(** The failures of an insert into [transactions], in the order in which
    the backend meets them. *)
Lemma insert_transaction_failures (user : option uuid) (new_id : uuid)
    (v : Transaction.Insert) (d : Database) :
  Transaction.ins_user_id v = user ->
  let r := Backend.insert_transaction user new_id v d in
  (refused (Transaction.ins_amount v) ->
     r = inr numeric_value_out_of_range) /\
  (~ refused (Transaction.ins_amount v) -> user = None ->
     r = inr row_level_security_violation) /\
  (user <> None -> finite (Transaction.ins_amount v) = false ->
     r = inr not_null_violation) /\
  (user <> None -> accepted (Transaction.ins_amount v) ->
   Backend.transaction_id_taken d new_id = true ->
     r = inr unique_violation) /\
  (user <> None -> accepted (Transaction.ins_amount v) ->
   Backend.transaction_id_taken d new_id = false ->
   Backend.has_coin d (Transaction.ins_coin_id v) = false ->
     r = inr foreign_key_violation).
Proof.
  intros Hu r. subst r. unfold Backend.insert_transaction, refused, accepted,
    held_as. rewrite Hu.
  split; [intros ->; reflexivity|].
  split.
  { intros Hnr ->.
    destruct (Backend.decimal_20_8 (Transaction.ins_amount v)) as [a|e] eqn:E;
      [reflexivity|].
    rewrite (decimal_20_8_error _ e E) in Hnr. now elim Hnr. }
  split.
  { intros Hne Hf. apply decimal_20_8_null in Hf. rewrite Hf.
    destruct user as [uid|]; [|now elim Hne].
    now rewrite with_check_same. }
  split.
  { intros Hne [a ->] Ht. destruct user as [uid|]; [|now elim Hne].
    now rewrite with_check_same, Ht. }
  intros Hne [a ->] Ht Hc. destruct user as [uid|]; [|now elim Hne].
  now rewrite with_check_same, Ht, Hc.
Qed.

(** X21.  The requests of the Assets page report their failures in a fixed
    order, and a request that fails leaves the form and the tables as they
    were.  [handleDeposit]: no amount entered; then no coin of that symbol
    (Coin not found); then, from the backend: an amount the column refuses
    (numeric field overflow), whoever is signed in; then nobody signed in
    (the insert policy refuses the row); then an amount that is not finite,
    which arrives as null in a column that is not null; then an id that is
    taken.  [handleWithdraw]: the same, its first test being that an amount
    and an address are entered. *)
Theorem Assets_requests_report_failures_in_order :
  forall (user : option uuid) (new_id : uuid) (coinSymbol : string)
         (st : Assets.State) (d : Database),
    let o := Assets.handleDeposit user new_id coinSymbol st d in
    let w := Assets.handleWithdraw user new_id coinSymbol st d in
    let deposited := JS.parseFloat (Assets.depositAmount st) in
    let withdrawn := JS.parseFloat (Assets.withdrawAmount st) in
    let found := Backend.coin_by_symbol d coinSymbol <> None in
    let failed := fun (t : Toast) (e : PostgrestError) (fallback : string) =>
      t = toast_caught (Postgrest e) fallback in
    (Assets.depositAmount st = "" ->
       toast o = toast_error "Please enter deposit amount") /\
    (Assets.depositAmount st <> "" ->
       let fallback := "Failed to submit deposit request" in
       (~ found ->
          toast o = toast_caught (JsError "Coin not found") fallback) /\
       (found -> refused deposited ->
          failed (toast o) numeric_value_out_of_range fallback) /\
       (found -> ~ refused deposited -> user = None ->
          failed (toast o) row_level_security_violation fallback) /\
       (found -> user <> None -> finite deposited = false ->
          failed (toast o) not_null_violation fallback) /\
       (found -> user <> None -> accepted deposited ->
        Backend.transaction_id_taken d new_id = true ->
          failed (toast o) unique_violation fallback)) /\
    (succeeded o = false -> state o = st /\ db o = d) /\
    (Assets.withdrawAmount st = "" \/ Assets.withdrawAddress st = "" ->
       toast w = toast_error "Please enter withdrawal amount and address") /\
    (Assets.withdrawAmount st <> "" -> Assets.withdrawAddress st <> "" ->
       let fallback := "Failed to submit withdrawal request" in
       (~ found ->
          toast w = toast_caught (JsError "Coin not found") fallback) /\
       (found -> refused withdrawn ->
          failed (toast w) numeric_value_out_of_range fallback) /\
       (found -> ~ refused withdrawn -> user = None ->
          failed (toast w) row_level_security_violation fallback) /\
       (found -> user <> None -> finite withdrawn = false ->
          failed (toast w) not_null_violation fallback) /\
       (found -> user <> None -> accepted withdrawn ->
        Backend.transaction_id_taken d new_id = true ->
          failed (toast w) unique_violation fallback)) /\
    (succeeded w = false -> state w = st /\ db w = d).
Proof.
  intros user new_id coinSymbol st d o w deposited withdrawn found failed.
  subst o w found failed deposited withdrawn.
  unfold Assets.handleDeposit, Assets.handleWithdraw, succeeded.
  split; [|split; [|split; [|split; [|split]]]].
  - intro He. apply falsy_iff in He. now rewrite He.
  - intros Hne. cbv zeta. apply falsy_false_iff in Hne. rewrite Hne.
    destruct (Backend.coin_by_symbol d coinSymbol) as [c|];
      cbn [bind require].
    2:{ split; [reflexivity|].
        repeat split; intro H; now elim H. }
    match goal with
    | |- context [Backend.insert_transaction ?a ?i ?v ?d] =>
        destruct (insert_transaction_failures a i v d eq_refl)
          as [H1 [H2 [H3 [H4 _]]]]
    end.
    cbn [Transaction.ins_amount] in H1, H2, H3, H4.
    split; [intro H; now elim H|].
    split; [intros _ Hr; now rewrite (H1 Hr)|].
    split; [intros _ Hr Hu; now rewrite (H2 Hr Hu)|].
    split; [intros _ Hu Hf; now rewrite (H3 Hu Hf)|].
    intros _ Hu Ha Ht. now rewrite (H4 Hu Ha Ht).
  - destruct (JS.falsy (Assets.depositAmount st)); simpl; [now split|].
    destruct (Backend.coin_by_symbol d coinSymbol); simpl; [|now split].
    destruct (Backend.insert_transaction _ _ _ _); simpl;
      [discriminate | now split].
  - intros [He|He]; apply falsy_iff in He; rewrite He;
      [reflexivity | now rewrite orb_true_r].
  - intros Ha Hb. cbv zeta. apply falsy_false_iff in Ha, Hb. rewrite Ha, Hb.
    cbn [orb].
    destruct (Backend.coin_by_symbol d coinSymbol) as [c|];
      cbn [bind require].
    2:{ split; [reflexivity|].
        repeat split; intro H; now elim H. }
    match goal with
    | |- context [Backend.insert_transaction ?a ?i ?v ?d] =>
        destruct (insert_transaction_failures a i v d eq_refl)
          as [H1 [H2 [H3 [H4 _]]]]
    end.
    cbn [Transaction.ins_amount] in H1, H2, H3, H4.
    split; [intro H; now elim H|].
    split; [intros _ Hr; now rewrite (H1 Hr)|].
    split; [intros _ Hr Hu; now rewrite (H2 Hr Hu)|].
    split; [intros _ Hu Hf; now rewrite (H3 Hu Hf)|].
    intros _ Hu Hacc Ht. now rewrite (H4 Hu Hacc Ht).
  - destruct (JS.falsy (Assets.withdrawAmount st)
              || JS.falsy (Assets.withdrawAddress st)); simpl; [now split|].
    destruct (Backend.coin_by_symbol d coinSymbol); simpl; [|now split].
    destruct (Backend.insert_transaction _ _ _ _); simpl;
      [discriminate | now split].
Qed.

(** The theorem above on the fixture: a deposit of 1000000000000 with
    nobody signed in is refused for the amount, not for the missing user; a
    deposit of 1 with nobody signed in is refused by the insert policy; a
    withdrawal of 1e400, which is Infinity, fails on the column that is not
    null. *)
Lemma Assets_requests_report_failures_in_order_witness :
  toast (Assets.handleDeposit None "tx-1" "BTC"
           (Fixture.deposit_form "1000000000000") Fixture.db0)
  = toast_caught (Postgrest numeric_value_out_of_range)
                 "Failed to submit deposit request" /\
  toast (Assets.handleDeposit None "tx-1" "BTC"
           (Fixture.deposit_form "1") Fixture.db0)
  = toast_caught (Postgrest row_level_security_violation)
                 "Failed to submit deposit request" /\
  toast (Assets.handleWithdraw (Some Fixture.alice) "tx-1" "BTC"
           (Fixture.withdraw_form "1e400" "bc1qxyz") Fixture.db0)
  = toast_caught (Postgrest not_null_violation)
                 "Failed to submit withdrawal request".
Proof.
  split; [|split].
  - destruct (Assets_requests_report_failures_in_order None "tx-1" "BTC"
                (Fixture.deposit_form "1000000000000") Fixture.db0)
      as [_ [H _]].
    destruct (H ltac:(discriminate)) as [_ [Hr _]].
    apply Hr; [discriminate | vm_compute; reflexivity].
  - destruct (Assets_requests_report_failures_in_order None "tx-1" "BTC"
                (Fixture.deposit_form "1") Fixture.db0)
      as [_ [H _]].
    destruct (H ltac:(discriminate)) as [_ [_ [Hr _]]].
    apply Hr; [discriminate | | reflexivity].
    unfold refused. vm_compute. discriminate.
  - destruct (Assets_requests_report_failures_in_order (Some Fixture.alice)
                "tx-1" "BTC" (Fixture.withdraw_form "1e400" "bc1qxyz")
                Fixture.db0)
      as [_ [_ [_ [_ [H _]]]]].
    destruct (H ltac:(discriminate) ltac:(discriminate))
      as [_ [_ [_ [Hr _]]]].
    apply Hr; [discriminate | discriminate | vm_compute; reflexivity].
Defined.

(** The failures of an insert into [orders], in the order in which the
    backend meets them. *)
Lemma insert_order_failures (user : option uuid) (new_id : uuid)
    (v : Order.Insert) (d : Database) :
  Order.ins_user_id v = user ->
  let r := Backend.insert_order user new_id v d in
  let price_refused :=
    Backend.nullable_decimal_20_8 (Order.ins_price v)
    = inr numeric_value_out_of_range in
  (refused (Order.ins_amount v) \/ price_refused ->
     r = inr numeric_value_out_of_range) /\
  (~ refused (Order.ins_amount v) -> ~ price_refused -> user = None ->
     r = inr row_level_security_violation) /\
  (user <> None -> finite (Order.ins_amount v) = false -> ~ price_refused ->
     r = inr not_null_violation) /\
  (user <> None -> accepted (Order.ins_amount v) -> ~ price_refused ->
   Backend.order_id_taken d new_id = true ->
     r = inr unique_violation) /\
  (user <> None -> accepted (Order.ins_amount v) -> ~ price_refused ->
   Backend.order_id_taken d new_id = false ->
   Backend.has_coin d (Order.ins_base_coin_id v) = false \/
   Backend.has_coin d (Order.ins_quote_coin_id v) = false ->
     r = inr foreign_key_violation).
Proof.
  intros Hu r price_refused. subst r price_refused.
  unfold Backend.insert_order, refused, accepted, held_as. rewrite Hu.
  assert (Hprice : Backend.nullable_decimal_20_8 (Order.ins_price v)
                   <> inr numeric_value_out_of_range ->
                   exists p,
                     Backend.nullable_decimal_20_8 (Order.ins_price v)
                     = inl p).
  { intros Hnr.
    destruct (Backend.nullable_decimal_20_8 (Order.ins_price v))
      as [p|e] eqn:E; [now exists p|].
    exfalso. apply Hnr. f_equal.
    unfold Backend.nullable_decimal_20_8 in E.
    destruct (Order.ins_price v) as [x|]; [|discriminate].
    exact (decimal_20_8_error x e E). }
  split.
  { intros [Hr | Hr]; [now rewrite Hr|]. rewrite Hr.
    destruct (Backend.decimal_20_8 (Order.ins_amount v)) as [a|e] eqn:E;
      [reflexivity|]. now rewrite (decimal_20_8_error _ e E). }
  split.
  { intros Hnr Hpr ->.
    destruct (Hprice Hpr) as [p ->].
    destruct (Backend.decimal_20_8 (Order.ins_amount v)) as [a|e] eqn:E;
      [reflexivity|].
    rewrite (decimal_20_8_error _ e E) in Hnr. now elim Hnr. }
  split.
  { intros Hne Hf Hpr. apply decimal_20_8_null in Hf. rewrite Hf.
    destruct (Hprice Hpr) as [p ->].
    destruct user as [uid|]; [|now elim Hne].
    now rewrite with_check_same. }
  split.
  { intros Hne [a ->] Hpr Ht.
    destruct (Hprice Hpr) as [p ->].
    destruct user as [uid|]; [|now elim Hne].
    now rewrite with_check_same, Ht. }
  intros Hne [a ->] Hpr Ht Hc.
  destruct (Hprice Hpr) as [p ->].
  destruct user as [uid|]; [|now elim Hne].
  rewrite with_check_same, Ht.
  assert (E : Backend.has_coin d (Order.ins_base_coin_id v)
              && Backend.has_coin d (Order.ins_quote_coin_id v) = false)
    by (apply andb_false_iff; exact Hc).
  now rewrite E.
Qed.

(** X22.  [handleTrade] past its own checks reports what the backend
    refuses, in a fixed order: an amount, or the price of a limit order,
    that the column refuses (numeric field overflow), whoever is signed in;
    then nobody signed in (the insert policy refuses the row); then an
    amount that is not finite, which arrives as null in a column that is not
    null; then an id that is taken; then a coin of the pair that the page
    loaded and that is no longer in the table (the foreign key).  Each time
    the tables are unchanged and the form keeps what was typed, the button
    enabled again. *)
Theorem handleTrade_reports_backend_failures_in_order :
  forall (user : option uuid) (new_id : uuid) (side : OrderSide)
         (st : Trade.State) (d : Database) (b q : uuid),
    incomplete st = false ->
    base_id st = Some b -> quote_id st = Some q ->
    b <> "" -> q <> "" ->
    let o := Trade.handleTrade user new_id side st d in
    let amount := JS.parseFloat (Trade.amount st) in
    let price_refused :=
      Trade.orderType st = limit /\
      refused (JS.parseFloat (Trade.price_field st)) in
    let failed e :=
      toast o = toast_caught (Postgrest e) "Failed to place order" /\
      state o = Trade.set_loading false st /\ db o = d in
    (refused amount \/ price_refused -> failed numeric_value_out_of_range) /\
    (~ refused amount -> ~ price_refused -> user = None ->
       failed row_level_security_violation) /\
    (user <> None -> finite amount = false -> ~ price_refused ->
       failed not_null_violation) /\
    (user <> None -> accepted amount -> ~ price_refused ->
     Backend.order_id_taken d new_id = true ->
       failed unique_violation) /\
    (user <> None -> accepted amount -> ~ price_refused ->
     Backend.order_id_taken d new_id = false ->
     Backend.has_coin d b = false \/ Backend.has_coin d q = false ->
       failed foreign_key_violation).
Proof.
  intros user new_id side st d b q Hi Hb Hq Hbne Hqne o amount price_refused
         failed.
  subst o failed. unfold Trade.handleTrade.
  fold (incomplete st). fold (base_id st). fold (quote_id st).
  rewrite Hi, Hb, Hq. apply falsy_false_iff in Hbne, Hqne.
  cbn [Trade.missing]. rewrite Hbne, Hqne. cbn [orb].
  fold (order_of user side st b q).
  destruct (insert_order_failures user new_id (order_of user side st b q) d
              eq_refl) as [H1 [H2 [H3 [H4 H5]]]].
  rewrite order_of_price in H1, H2, H3, H4, H5.
  cbn [order_of Order.ins_amount Order.ins_base_coin_id
       Order.ins_quote_coin_id] in H1, H2, H3, H4, H5.
  fold amount in H1, H2, H3, H4, H5.
  assert (Hpr : price_refused <->
                match Trade.orderType st with
                | market => inl None
                | limit => Backend.decimal_20_8
                             (JS.parseFloat (Trade.price_field st))
                end = inr numeric_value_out_of_range).
  { subst price_refused. unfold refused.
    destruct (Trade.orderType st); split.
    - intros [H _]. discriminate.
    - discriminate.
    - intros [_ H]. exact H.
    - intro H. now split. }
  split.
  { intros [Hr|Hr]; [rewrite (H1 (or_introl Hr))
                    | apply Hpr in Hr; rewrite (H1 (or_intror Hr))];
      cbn [throw_if_error toast state db]; now repeat split. }
  split.
  { intros Hr Hp Hu. rewrite (H2 Hr (fun H => Hp (proj2 Hpr H)) Hu).
    cbn [throw_if_error toast state db]. now repeat split. }
  split.
  { intros Hu Hf Hp. rewrite (H3 Hu Hf (fun H => Hp (proj2 Hpr H))).
    cbn [throw_if_error toast state db]. now repeat split. }
  split.
  { intros Hu Ha Hp Ht. rewrite (H4 Hu Ha (fun H => Hp (proj2 Hpr H)) Ht).
    cbn [throw_if_error toast state db]. now repeat split. }
  intros Hu Ha Hp Ht Hc.
  rewrite (H5 Hu Ha (fun H => Hp (proj2 Hpr H)) Ht Hc).
  cbn [throw_if_error toast state db]. now repeat split.
Qed.

(** The theorem above on the fixture.  With nobody signed in, an order for
    1000000000000 is refused for the amount and an order for 1 by the insert
    policy; with Bitcoin removed from the table after the page has loaded,
    Alice's order for 1 fails on the foreign key. *)
Lemma handleTrade_reports_backend_failures_in_order_witness :
  let d := {| coins := [Fixture.usdt; Fixture.moon];
              user_balances := []; transactions := []; orders := [] |} in
  let form := fun amount => Fixture.trade_form "BTC/USDT" market amount "" in
  (forall amount, amount <> "" ->
     incomplete (form amount) = false /\
     base_id (form amount) = Some "c-btc" /\
     quote_id (form amount) = Some "c-usdt") /\
  toast (Trade.handleTrade None "o-1" buy (form "1000000000000") d)
  = toast_caught (Postgrest numeric_value_out_of_range)
                 "Failed to place order" /\
  toast (Trade.handleTrade None "o-1" buy (form "1") d)
  = toast_caught (Postgrest row_level_security_violation)
                 "Failed to place order" /\
  toast (Trade.handleTrade (Some Fixture.alice) "o-1" buy (form "1") d)
  = toast_caught (Postgrest foreign_key_violation) "Failed to place order".
Proof.
  intros d form.
  assert (Hform : forall amount, amount <> "" ->
            incomplete (form amount) = false /\
            base_id (form amount) = Some "c-btc" /\
            quote_id (form amount) = Some "c-usdt").
  { intros amount Ha. split; [|split; reflexivity].
    unfold incomplete, form. simpl. apply falsy_false_iff in Ha.
    now rewrite Ha. }
  split; [exact Hform|].
  assert (H4 : "c-btc" <> "") by discriminate.
  assert (H5 : "c-usdt" <> "") by discriminate.
  assert (Hmarket : forall amount,
            ~ (Trade.orderType (form amount) = limit /\
               refused (JS.parseFloat (Trade.price_field (form amount)))))
    by (intros amount [H _]; discriminate).
  assert (Hone : accepted (JS.parseFloat "1"))
    by (exists 1%float; vm_compute; reflexivity).
  assert (Hone' : ~ refused (JS.parseFloat "1"))
    by (unfold refused; vm_compute; discriminate).
  split; [|split].
  - destruct (Hform "1000000000000" ltac:(discriminate)) as [H1 [H2 H3]].
    destruct (handleTrade_reports_backend_failures_in_order
                None "o-1" buy (form "1000000000000") d "c-btc" "c-usdt"
                H1 H2 H3 H4 H5) as [Hr _].
    apply Hr. left. vm_compute. reflexivity.
  - destruct (Hform "1" ltac:(discriminate)) as [H1 [H2 H3]].
    destruct (handleTrade_reports_backend_failures_in_order
                None "o-1" buy (form "1") d "c-btc" "c-usdt"
                H1 H2 H3 H4 H5) as [_ [Hr _]].
    apply Hr; [exact Hone' | apply Hmarket | reflexivity].
  - destruct (Hform "1" ltac:(discriminate)) as [H1 [H2 H3]].
    destruct (handleTrade_reports_backend_failures_in_order
                (Some Fixture.alice) "o-1" buy (form "1") d "c-btc" "c-usdt"
                H1 H2 H3 H4 H5) as [_ [_ [_ [_ Hr]]]].
    apply Hr; [discriminate | exact Hone | apply Hmarket | reflexivity|].
    now left.
Defined.
